(** * ClawCloud auto-login: a shallow embedding of [scripts/auto_login.py]

    The script drives a browser (Playwright), the Telegram bot API
    ([requests.post]), the clock and the file system.  Those collaborators
    are modelled as an oracle [World]: every call to the outside consumes
    one tick of a call counter, is recorded in a trace, and is answered by
    the oracle at that tick.  Any browser session, deterministic or not,
    is some oracle, so a theorem quantified over all worlds holds of every
    run.

    Python exceptions are results [Raise e]; [sys.exit n] is the exception
    [SystemExit n], which [except Exception] does not catch.  The methods
    of [AutoLogin] are computations in a state-and-exception monad over
    the object's fields, the tick and the trace.

    Modelling choices:
    - a Python [str] is the byte string of its UTF-8 encoding; characters
      are counted and sliced as code points ([chars]); [lower] is exact
      on every character whose lower case has an ASCII letter in it,
      which is all that a comparison with ASCII text can see;
    - a call to the outside either returns or raises an [Exception];
      [browser.close()] returns;
    - [with open('cookies.json', 'w') as f: json.dump(claw_cookies, f,
      indent=2)] is one call, which may raise, recorded with the list it
      is given, not with the text it writes; [open(path, 'rb')] is a call
      of its own, which may raise;
    - [send_notification] marks its own entry in the trace ([EvNotify]),
      so that an attempt can be counted even when the notifier is
      disabled and sends nothing.

    Layout: Python helpers; results, events, world; the monad; the script,
    function by function; observations and sample worlds; then the proofs,
    with the theorems for the specification's claims marked C1 to C10 and
    further properties of the script marked X1 to X28. *)

From Stdlib Require Import String Ascii List Bool Arith ZArith Lia Permutation.
From Stdlib Require Import Decimal DecimalString DecimalNat.
Import ListNotations.
Local Open Scope list_scope.
Local Open Scope string_scope.

(** ** Python string operations *)

Module Py.

(** [needle in hay] *)
Fixpoint contains (needle hay : string) : bool :=
  match hay with
  | EmptyString => String.prefix needle EmptyString
  | String _ rest => String.prefix needle hay || contains needle rest
  end.

Definition lower_ascii (c : ascii) : ascii :=
  let n := nat_of_ascii c in
  if ((65 <=? n)%nat && (n <=? 90)%nat)%bool then ascii_of_nat (n + 32) else c.

Definition is_byte (n : nat) (c : ascii) : bool := (nat_of_ascii c =? n)%nat.

Definition byte_in (lo hi : nat) (c : ascii) : bool :=
  ((lo <=? nat_of_ascii c)%nat && (nat_of_ascii c <=? hi)%nat)%bool.

(** the second and later bytes of an encoded character: [10xxxxxx] *)
Definition is_continuation (c : ascii) : bool := byte_in 128 191 c.

(** COMBINING DOT ABOVE, U+0307, encoded *)
Definition dot_above : string :=
  String (ascii_of_nat 204) (String (ascii_of_nat 135) EmptyString).

(** [s.lower()].  The letters A to Z are folded.  Two characters outside
    ASCII have an ASCII letter in their lower case and are mapped as
    Python maps them: KELVIN SIGN, U+212A (bytes E2 84 AA), to "k", and
    LATIN CAPITAL LETTER I WITH DOT ABOVE, U+0130 (bytes C4 B0), to "i"
    followed by U+0307.  Every other character outside ASCII is left as
    it is: its lower case has no ASCII character, and the script only
    compares lowered text with ASCII text, so the comparison comes out as
    in Python. *)
Fixpoint lower (s : string) : string :=
  match s with
  | EmptyString => EmptyString
  | String c rest =>
      match rest with
      | String c1 rest1 =>
          if (is_byte 196 c && is_byte 176 c1)%bool then
            String "i" (dot_above ++ lower rest1)
          else
            match rest1 with
            | String c2 rest2 =>
                if (is_byte 226 c && is_byte 132 c1 && is_byte 170 c2)%bool then
                  String "k" (lower rest2)
                else String (lower_ascii c) (lower rest)
            | EmptyString => String (lower_ascii c) (lower rest)
            end
      | EmptyString => String (lower_ascii c) EmptyString
      end
  end.

(** The characters of a text, each with its encoding: a byte together
    with the continuation bytes that follow it. *)
Fixpoint chars (s : string) : list string :=
  match s with
  | EmptyString => []
  | String c rest =>
      let gs := chars rest in
      match rest, gs with
      | String d _, g :: gs' =>
          if is_continuation d then String c g :: gs' else String c EmptyString :: gs
      | _, _ => String c EmptyString :: gs
      end
  end.

(** [len(s)] *)
Definition len (s : string) : nat := length (chars s).

(** [l[-n:]] for [n > 0] *)
Definition last_items {A} (n : nat) (l : list A) : list A :=
  skipn (length l - n) l.

(** [''.join(l)] *)
Definition join (l : list string) : string := fold_right append EmptyString l.

(** [s[-n:]] for [n > 0] *)
Definition last_chars (n : nat) (s : string) : string :=
  join (last_items n (chars s)).

(** Well-formed UTF-8 (the encodings of Python's [str] values without
    lone surrogates), after table 3-7 of the Unicode standard. *)
Fixpoint utf8 (s : string) : bool :=
  match s with
  | EmptyString => true
  | String a r1 =>
      if byte_in 0 127 a then utf8 r1
      else
        match r1 with
        | String b r2 =>
            if byte_in 194 223 a then (is_continuation b && utf8 r2)%bool
            else
              match r2 with
              | String c r3 =>
                  if byte_in 224 239 a then
                    ((if is_byte 224 a then byte_in 160 191 b
                      else if is_byte 237 a then byte_in 128 159 b
                      else is_continuation b)
                     && is_continuation c && utf8 r3)%bool
                  else
                    match r3 with
                    | String d r4 =>
                        (byte_in 240 244 a
                         && (if is_byte 240 a then byte_in 144 191 b
                             else if is_byte 244 a then byte_in 128 143 b
                             else is_continuation b)
                         && is_continuation c && is_continuation d && utf8 r4)%bool
                    | EmptyString => false
                    end
              | EmptyString => false
              end
        | EmptyString => false
        end
  end.

(** [l[:-1]] *)
Definition but_last {A} (l : list A) : list A := removelast l.

(** [str(n)] *)
Definition str_nat (n : nat) : string := NilEmpty.string_of_uint (Nat.to_uint n).

(** [f"{n:02d}"] *)
Definition fmt_02d (n : nat) : string :=
  if (n <? 10)%nat then "0" ++ str_nat n else str_nat n.

(** [c * n] for a one-character string *)
Fixpoint repeat_str (s : string) (n : nat) : string :=
  match n with
  | O => EmptyString
  | S k => s ++ repeat_str s k
  end.

(** truth value of a string: empty is false *)
Definition truthy (s : string) : bool :=
  match s with EmptyString => false | _ => true end.

(** truth value of [os.environ.get(..)]: [None] and [''] are false *)
Definition truthy_opt (o : option string) : bool :=
  match o with None => false | Some s => truthy s end.

(** [f"{o}"] for an optional string *)
Definition fmt_opt (o : option string) : string :=
  match o with None => "None" | Some s => s end.

Definition newline : string := String (ascii_of_nat 10) EmptyString.

End Py.

(** ** Results, events and the outside world *)

Inductive Exn : Type :=
| Exception (msg : string)      (* any [Exception] subclass, with [str(e)] *)
| SystemExit (code : Z).        (* raised by [sys.exit]; not an [Exception] *)

Inductive Res (A : Type) : Type :=
| Ok (a : A)
| Raise (e : Exn).
Arguments Ok {A} a.
Arguments Raise {A} e.

(** What a call to the outside answers: a value, or an exception of class
    [Exception] with its message. *)
Inductive Answer (A : Type) : Type :=
| Returns (a : A)
| Throws (msg : string).
Arguments Returns {A} a.
Arguments Throws {A} msg.

Definition res_of_answer {A} (x : Answer A) : Res A :=
  match x with
  | Returns a => Ok a
  | Throws msg => Raise (Exception msg)
  end.

(** A cookie is the dict Playwright returns; only [.get('domain', '')] is
    ever applied to it. *)
Definition Cookie : Type := list (string * string).

Fixpoint dict_get (key default : string) (d : Cookie) : string :=
  match d with
  | [] => default
  | (k, v) :: rest => if String.eqb k key then v else dict_get key default rest
  end.

Inductive Level : Type := INFO | SUCCESS | ERROR | WARN | STEP.

(** Every interaction with the outside, in the order it happens.  The
    trace is kept newest first. *)
Inductive Event : Type :=
| EvPrint (line : string)
| EvSleep (seconds : nat)
| EvLaunch
| EvNewContext
| EvNewPage
| EvClose
| EvGoto (url : string) (timeout : Z)
| EvWaitLoad (timeout : Z)
| EvScreenshot (path : string)
| EvUrl
| EvTitle
| EvContent
| EvCookies
| EvIsVisible (selector : string) (timeout : Z)
| EvInnerText (selector : string)
| EvClick (selector : string)
| EvFill (selector value : string)
| EvStrftime
| EvPathExists (path : string)
| EvOpen (path : string)      (* [open(path, 'rb')] *)
| EvHttpPost (url : string) (data : list (string * string))
             (file : option (string * string)) (timeout : Z)
| EvJsonDump (path : string) (payload : list Cookie)
| EvNotify (success : bool) (error_msg : string).
    (* call marker: [send_notification] was entered *)

Record World : Type := {
  environ : string -> option string;          (* os.environ.get *)
  w_launch : nat -> Answer unit;                 (* p.chromium.launch *)
  w_new_context : nat -> Answer unit;
  w_new_page : nat -> Answer unit;
  w_goto : nat -> string -> Answer unit;         (* page.goto *)
  w_wait_load : nat -> Answer unit;              (* page.wait_for_load_state *)
  w_screenshot : nat -> string -> Answer unit;   (* page.screenshot *)
  w_url : nat -> string;                      (* page.url *)
  w_title : nat -> Answer string;                (* page.title() *)
  w_content : nat -> Answer string;              (* page.content() *)
  w_cookies : nat -> Answer (list Cookie);       (* context.cookies() *)
  w_is_visible : nat -> string -> Answer bool;   (* locator.is_visible *)
  w_inner_text : nat -> string -> Answer string; (* locator.inner_text *)
  w_click : nat -> string -> Answer unit;        (* locator.click *)
  w_fill : nat -> string -> string -> Answer unit;
  w_strftime : nat -> string;                 (* time.strftime *)
  w_path_exists : nat -> string -> bool;      (* os.path.exists *)
  w_open : nat -> string -> Answer unit;         (* open(path, 'rb') *)
  w_json_dump : nat -> string -> list Cookie -> Answer unit;
                                     (* open(path, 'w') and json.dump *)
  w_http_post : nat -> string -> Answer Z;       (* requests.post: status code *)
}.

(** ** The two classes' fields *)

Record TelegramNotifier : Type := {
  bot_token : option string;
  chat_id : option string;
  enabled : bool;
}.

Record AutoLogin : Type := {
  username : option string;
  token : option string;
  debug : bool;
  screenshot_count : nat;
  screenshots : list string;
  telegram : TelegramNotifier;
  logs : list string;
}.

(** ** Program state and the monad of the script *)

Record St : Type := {
  self : AutoLogin;
  tick : nat;              (* number of oracle calls made so far *)
  trace : list Event;      (* newest first *)
}.

Definition M (A : Type) : Type := St -> Res A * St.

Definition ret {A} (a : A) : M A := fun st => (Ok a, st).

Definition bind {A B} (m : M A) (k : A -> M B) : M B :=
  fun st =>
    match m st with
    | (Ok a, st1) => k a st1
    | (Raise e, st1) => (Raise e, st1)
    end.

Notation "x <- m ;; k" := (bind m (fun x => k))
  (at level 61, m at next level, right associativity).
Notation "m ;; k" := (bind m (fun _ => k))
  (at level 61, right associativity).

Definition raise {A} (e : Exn) : M A := fun st => (Raise e, st).

(** [sys.exit(code)] *)
Definition sys_exit {A} (code : Z) : M A := raise (SystemExit code).

(** [try: m  except Exception as e: h e] *)
Definition try_except {A} (m : M A) (h : string -> M A) : M A :=
  fun st =>
    match m st with
    | (Raise (Exception msg), st1) => h msg st1
    | other => other
    end.

(** [try: m  except: h] (catches everything) *)
Definition try_except_all {A} (m : M A) (h : M A) : M A :=
  fun st =>
    match m st with
    | (Raise _, st1) => h st1
    | other => other
    end.

(** [try: m  finally: f], for a clean-up [f] that returns *)
Definition try_finally {A} (m : M A) (f : M unit) : M A :=
  fun st =>
    match m st with
    | (r, st1) =>
        match f st1 with
        | (Ok _, st2) => (r, st2)
        | (Raise e, st2) => (Raise e, st2)
        end
    end.

Definition get_self : M AutoLogin := fun st => (Ok (self st), st).

Definition set_self (a : AutoLogin) : M unit :=
  fun st => (Ok tt, {| self := a; tick := tick st; trace := trace st |}).

Definition emit (ev : Event) : M unit :=
  fun st => (Ok tt, {| self := self st; tick := tick st; trace := ev :: trace st |}).

(** One call to the outside: recorded, answered at the current tick. *)
Definition call {A} (ev : Event) (answer : nat -> Answer A) : M A :=
  fun st =>
    (res_of_answer (answer (tick st)),
     {| self := self st; tick := S (tick st); trace := ev :: trace st |}).

Definition print (line : string) : M unit := emit (EvPrint line).
Definition sleep (seconds : nat) : M unit := emit (EvSleep seconds).

Definition dq : string := String (ascii_of_nat 34) EmptyString.

(** [for x in l: f x] *)
Fixpoint for_each {A} (l : list A) (f : A -> M unit) : M unit :=
  match l with
  | [] => ret tt
  | x :: rest => f x ;; for_each rest f
  end.

Definition set_logs (l : list string) (a : AutoLogin) : AutoLogin :=
  {| username := username a; token := token a; debug := debug a;
     screenshot_count := screenshot_count a; screenshots := screenshots a;
     telegram := telegram a; logs := l |}.

Definition set_screenshot_count (n : nat) (a : AutoLogin) : AutoLogin :=
  {| username := username a; token := token a; debug := debug a;
     screenshot_count := n; screenshots := screenshots a;
     telegram := telegram a; logs := logs a |}.

Definition set_screenshots (l : list string) (a : AutoLogin) : AutoLogin :=
  {| username := username a; token := token a; debug := debug a;
     screenshot_count := screenshot_count a; screenshots := l;
     telegram := telegram a; logs := logs a |}.

Definition set_debug (b : bool) (a : AutoLogin) : AutoLogin :=
  {| username := username a; token := token a; debug := b;
     screenshot_count := screenshot_count a; screenshots := screenshots a;
     telegram := telegram a; logs := logs a |}.

(** ** Configuration constants *)

Definition CLAW_CLOUD_URL : string := "https://eu-central-1.run.claw.cloud".
Definition SIGNIN_URL : string := CLAW_CLOUD_URL ++ "/signin".

Section Script.

Variable w : World.

(** *** The outside calls the script makes *)

Definition page_url : M string := call EvUrl (fun t => Returns (w_url w t)).
Definition page_title : M string := call EvTitle (w_title w).
Definition page_content : M string := call EvContent (w_content w).
Definition page_goto (url : string) (timeout : Z) : M unit :=
  call (EvGoto url timeout) (fun t => w_goto w t url).
Definition wait_for_load_state (timeout : Z) : M unit :=
  call (EvWaitLoad timeout) (w_wait_load w).
Definition page_screenshot (path : string) : M unit :=
  call (EvScreenshot path) (fun t => w_screenshot w t path).
Definition context_cookies : M (list Cookie) := call EvCookies (w_cookies w).
Definition is_visible (selector : string) (timeout : Z) : M bool :=
  call (EvIsVisible selector timeout) (fun t => w_is_visible w t selector).
Definition inner_text (selector : string) : M string :=
  call (EvInnerText selector) (fun t => w_inner_text w t selector).
Definition click (selector : string) : M unit :=
  call (EvClick selector) (fun t => w_click w t selector).
Definition fill (selector value : string) : M unit :=
  call (EvFill selector value) (fun t => w_fill w t selector value).
Definition strftime : M string := call EvStrftime (fun t => Returns (w_strftime w t)).
Definition path_exists (path : string) : M bool :=
  call (EvPathExists path) (fun t => Returns (w_path_exists w t path)).
Definition requests_post (url : string) (data : list (string * string))
           (file : option (string * string)) (timeout : Z) : M Z :=
  call (EvHttpPost url data file timeout) (fun t => w_http_post w t url).
Definition open_rb (path : string) : M unit :=
  call (EvOpen path) (fun t => w_open w t path).
Definition json_dump (path : string) (payload : list Cookie) : M unit :=
  call (EvJsonDump path payload) (fun t => w_json_dump w t path payload).

(** *** class TelegramNotifier *)

(** [__init__]: the notifier and what it prints while it is built. *)
Definition TelegramNotifier_init : TelegramNotifier * list Event :=
  let bot := environ w "TG_BOT_TOKEN" in
  let chat := environ w "TG_CHAT_ID" in
  let en := Py.truthy_opt bot && Py.truthy_opt chat in
  ({| bot_token := bot; chat_id := chat; enabled := en |},
   if negb en then [EvPrint "⚠️ Telegram 通知未配置，跳过通知功能"] else []).

Definition api_url (tg : TelegramNotifier) (method : string) : string :=
  "https://api.telegram.org/bot" ++ Py.fmt_opt (bot_token tg) ++ "/" ++ method.

Definition send_message (tg : TelegramNotifier) (message : string) : M bool :=
  if negb (enabled tg) then ret false
  else
    try_except
      (let url := api_url tg "sendMessage" in
       let data := [("chat_id", Py.fmt_opt (chat_id tg));
                    ("text", message);
                    ("parse_mode", "HTML")] in
       status <- requests_post url data None 30%Z ;;
       ret (status =? 200)%Z)
      (fun e => print ("发送 Telegram 消息失败: " ++ e) ;; ret false).

Definition send_photo (tg : TelegramNotifier) (photo_path caption : string) : M bool :=
  if negb (enabled tg) then ret false
  else
    ex <- path_exists photo_path ;;
    if negb ex then print ("图片不存在: " ++ photo_path) ;; ret false
    else
      try_except
        (let url := api_url tg "sendPhoto" in
         open_rb photo_path ;;
         let data := [("chat_id", Py.fmt_opt (chat_id tg)); ("caption", caption)] in
         status <- requests_post url data (Some ("photo", photo_path)) 60%Z ;;
         ret (status =? 200)%Z)
        (fun e => print ("发送 Telegram 图片失败: " ++ e) ;; ret false).

Definition send_document (tg : TelegramNotifier) (file_path caption : string) : M bool :=
  if negb (enabled tg) then ret false
  else
    ex <- path_exists file_path ;;
    if negb ex then ret false
    else
      try_except
        (let url := api_url tg "sendDocument" in
         open_rb file_path ;;
         let data := [("chat_id", Py.fmt_opt (chat_id tg)); ("caption", caption)] in
         status <- requests_post url data (Some ("document", file_path)) 60%Z ;;
         ret (status =? 200)%Z)
        (fun e => print ("发送 Telegram 文件失败: " ++ e) ;; ret false).

(** *** class AutoLogin *)

Definition AutoLogin_init : AutoLogin * list Event :=
  let (tg, printed) := TelegramNotifier_init in
  ({| username := environ w "GH_USERNAME";
      token := environ w "GH_PAT";
      debug := String.eqb
                 (Py.lower (match environ w "DEBUG_MODE" with
                            | Some v => v
                            | None => "true"
                            end)) "true";
      screenshot_count := 0;
      screenshots := [];
      telegram := tg;
      logs := [] |},
   printed).

Definition icon (level : Level) : string :=
  match level with
  | INFO => "ℹ️"
  | SUCCESS => "✅"
  | ERROR => "❌"
  | WARN => "⚠️"
  | STEP => "🔹"
  end.

Definition log_line (message : string) (level : Level) : string :=
  icon level ++ " " ++ message.

Definition log (message : string) (level : Level) : M unit :=
  print (log_line message level) ;;
  a <- get_self ;;
  set_self (set_logs (logs a ++ [log_line message level])%list a).

Definition screenshot (name : string) : M string :=
  a <- get_self ;;
  set_self (set_screenshot_count (S (screenshot_count a)) a) ;;
  a <- get_self ;;
  let filename := Py.fmt_02d (screenshot_count a) ++ "_" ++ name ++ ".png" in
  page_screenshot filename ;;
  a <- get_self ;;
  set_self (set_screenshots (screenshots a ++ [filename])%list a) ;;
  log ("截图已保存: " ++ filename) INFO ;;
  ret filename.

Definition validate_credentials : M bool :=
  a <- get_self ;;
  if negb (Py.truthy_opt (username a)) then
    log "错误：未设置 GH_USERNAME" ERROR ;; ret false
  else if negb (Py.truthy_opt (token a)) then
    log "错误：未设置 GH_PAT" ERROR ;; ret false
  else
    log ("用户名: " ++ Py.fmt_opt (username a)) INFO ;;
    log ("Token: " ++ Py.repeat_str "*" 10 ++ "..."
           ++ Py.last_chars 4 (Py.fmt_opt (token a))) INFO ;;
    ret true.

(** The body of the loop answers [Some b] for [return b] and [None] for
    falling through to the next selector. *)
Fixpoint find_and_click (selectors : list string) (description : string) : M bool :=
  match selectors with
  | [] => ret false
  | selector :: rest =>
      r <- try_except_all
             (v <- is_visible selector 3000%Z ;;
              if v then
                click selector ;;
                log ("已点击: " ++ description) SUCCESS ;;
                ret (Some true)
              else ret None)
             (ret None) ;;
      match r with
      | Some b => ret b
      | None => find_and_click rest description
      end
  end.

Definition error_selectors : list string :=
  [".flash-error"; ".flash.flash-error"; "#js-flash-container .flash-error"].

Fixpoint check_github_error_in (selectors : list string) : M (option string) :=
  match selectors with
  | [] => ret None
  | selector :: rest =>
      r <- try_except_all
             (v <- is_visible selector 1000%Z ;;
              if v then t <- inner_text selector ;; ret (Some t)
              else ret None)
             (ret None) ;;
      match r with
      | Some t => ret (Some t)
      | None => check_github_error_in rest
      end
  end.

Definition check_github_error : M (option string) :=
  check_github_error_in error_selectors.

Definition device_keywords : list string :=
  ["verify your device"; "device verification"; "check your email"; "verification code"].

Definition check_device_verification : M bool :=
  u1 <- page_url ;;
  hit <- (if Py.contains "sessions/verified-device" u1 then ret true
          else u2 <- page_url ;; ret (Py.contains "device-verification" u2)) ;;
  if (hit : bool) then ret true
  else
    c <- page_content ;;
    let content := Py.lower c in
    ret (existsb (fun kw => Py.contains kw content) device_keywords).

Definition otp_selector : string :=
  "input[name=" ++ dq ++ "otp" ++ dq ++ "], input[name=" ++ dq ++ "app_otp" ++ dq ++ "], #otp".

Definition check_2fa : M bool :=
  u <- page_url ;;
  if Py.contains "two-factor" u then ret true
  else try_except_all (is_visible otp_selector 2000%Z) (ret false).

Definition login_selector : string := "input[name=" ++ dq ++ "login" ++ dq ++ "]".
Definition password_selector : string := "input[name=" ++ dq ++ "password" ++ dq ++ "]".
Definition submit_selector : string :=
  "input[type=" ++ dq ++ "submit" ++ dq ++ "], button[type=" ++ dq ++ "submit" ++ dq ++ "]".

(** A credential handed to [fill]; [None] is rejected by the locator. *)
Definition credential (o : option string) : M string :=
  match o with
  | Some s => ret s
  | None => raise (Exception "fill: expected string, got None")
  end.

(** [login_github], from [# 检查错误] to the end: the checks made on the
    page reached after submitting the form. *)
Definition login_github_checks (current_url : string) : M bool :=
  error <- check_github_error ;;
  if Py.truthy_opt error then
    log ("GitHub 错误: " ++ Py.fmt_opt error) ERROR ;; ret false
  else
    dv <- check_device_verification ;;
    if (dv : bool) then
      log "需要设备验证！GitHub 检测到新设备，已发送验证邮件。" ERROR ;;
      log "请先手动登录一次 GitHub 完成设备验证。" WARN ;;
      screenshot "github_设备验证" ;;
      ret false
    else
      tf <- check_2fa ;;
      if (tf : bool) then
        log "需要两步验证！此脚本无法自动处理 2FA。" ERROR ;;
        screenshot "github_两步验证" ;;
        ret false
      else if Py.contains "github.com/login" current_url
              || Py.contains "github.com/session" current_url then
        log "仍在 GitHub 登录页面，登录可能失败" WARN ;;
        page_content <- page_content ;;
        if Py.contains "Incorrect username or password" page_content then
          log "用户名或密码错误！" ERROR ;; ret false
        else if Py.contains "too many" (Py.lower page_content) then
          log "登录尝试次数过多，已被限制" ERROR ;; ret false
        else ret true
      else ret true.

Definition login_github : M bool :=
  log "正在登录 GitHub..." STEP ;;
  screenshot "github_登录页" ;;
  filled <- try_except
              (a <- get_self ;;
               u <- credential (username a) ;;
               fill login_selector u ;;
               log "已输入用户名" INFO ;;
               t <- credential (token a) ;;
               fill password_selector t ;;
               log "已输入 Token" INFO ;;
               ret true)
              (fun e => log ("输入凭据失败: " ++ e) ERROR ;; ret false) ;;
  if negb filled then ret false
  else
    screenshot "github_已填写凭据" ;;
    clicked <- try_except
                 (click submit_selector ;;
                  log "已点击登录按钮" INFO ;;
                  ret true)
                 (fun e => log ("点击登录失败: " ++ e) ERROR ;; ret false) ;;
    if negb clicked then ret false
    else
      sleep 3 ;;
      wait_for_load_state 30000%Z ;;
      screenshot "github_登录后" ;;
      current_url <- page_url ;;
      log ("当前页面: " ++ current_url) INFO ;;
      login_github_checks current_url.

Definition authorize_selectors : list string :=
  ["button[name=" ++ dq ++ "authorize" ++ dq ++ "]";
   "button:has-text(" ++ dq ++ "Authorize" ++ dq ++ ")";
   "#js-oauth-authorize-btn"].

Definition handle_oauth : M bool :=
  u <- page_url ;;
  (if Py.contains "github.com/login/oauth/authorize" u then
     log "正在处理 OAuth 授权..." STEP ;;
     screenshot "oauth_授权页" ;;
     find_and_click authorize_selectors "授权按钮" ;;
     sleep 3 ;;
     wait_for_load_state 30000%Z
   else ret tt) ;;
  ret true.

(** The success test of the redirect waiter on one polled URL. *)
Definition redirected (current_url : string) : bool :=
  Py.contains "claw.cloud" current_url
  && negb (Py.contains "signin" (Py.lower current_url)).

Definition on_github_login (current_url : string) : bool :=
  Py.contains "github.com/login" current_url
  || Py.contains "github.com/session" current_url.

(** One turn of the [for i in range(max_wait)] loop of [wait_redirect]:
    [Some b] is [return b], [None] goes on to the next [i]. *)
Definition wait_redirect_iter (i : nat) : M (option bool) :=
  current_url <- page_url ;;
  if redirected current_url then
    log "成功重定向到 ClawCloud！" SUCCESS ;; ret (Some true)
  else if (10 <? i)%nat && on_github_login current_url then
    log "卡在 GitHub 登录页面" ERROR ;; ret (Some false)
  else
    (if Py.contains "github.com/login/oauth/authorize" current_url
     then handle_oauth ;; ret tt
     else ret tt) ;;
    sleep 1 ;;
    (if (i mod 5 =? 0)%nat
     then log ("  等待中... (" ++ Py.str_nat i ++ "秒)") INFO
     else ret tt) ;;
    ret None.

(** The loop from index [i] with [remaining] turns left. *)
Fixpoint wait_redirect_loop (remaining i : nat) : M bool :=
  match remaining with
  | O => log "等待重定向超时" ERROR ;; ret false
  | S rest =>
      r <- wait_redirect_iter i ;;
      match r with
      | Some b => ret b
      | None => wait_redirect_loop rest (S i)
      end
  end.

Definition wait_redirect (max_wait : nat) : M bool :=
  log ("等待重定向到 ClawCloud（最多 " ++ Py.str_nat max_wait ++ " 秒）...") STEP ;;
  wait_redirect_loop max_wait 0.

(** the default of the [max_wait] parameter *)
Definition max_wait_default : nat := 45.

Definition is_claw_cookie (c : Cookie) : bool :=
  Py.contains "claw" (dict_get "domain" EmptyString c).

Definition verify_login : M bool :=
  current_url <- page_url ;;
  title <- page_title ;;
  log ("最终页面: " ++ current_url) INFO ;;
  log ("页面标题: " ++ title) INFO ;;
  if negb (Py.contains "claw.cloud" current_url) then
    log "不在 ClawCloud 域名！" ERROR ;; ret false
  else if Py.contains "signin" (Py.lower current_url)
          || Py.contains "login" (Py.lower current_url) then
    log "仍在登录页面，登录失败！" ERROR ;; ret false
  else
    cookies <- context_cookies ;;
    let claw_cookies := filter is_claw_cookie cookies in
    if (length claw_cookies =? 0)%nat then
      log "未获取到 ClawCloud cookies！" ERROR ;; ret false
    else
      log ("已获取 " ++ Py.str_nat (length claw_cookies) ++ " 个 ClawCloud cookies") SUCCESS ;;
      json_dump "cookies.json" claw_cookies ;;
      ret true.

Definition keepalive_pages : list (string * string) :=
  [(CLAW_CLOUD_URL ++ "/", "控制台首页");
   (CLAW_CLOUD_URL ++ "/apps", "应用列表")].

(** The [for url, name in pages] loop: [Some b] is [return b]. *)
Fixpoint keepalive_visits (pages : list (string * string)) : M (option bool) :=
  match pages with
  | [] => ret None
  | (url, name) :: rest =>
      r <- try_except
             (page_goto url 30000%Z ;;
              wait_for_load_state 15000%Z ;;
              u <- page_url ;;
              if Py.contains "signin" (Py.lower u) then
                log ("访问 " ++ name ++ " 时被重定向到登录页！") ERROR ;;
                ret (Some false)
              else
                log ("已访问: " ++ name) SUCCESS ;;
                sleep 2 ;;
                ret None)
             (fun e => log ("访问 " ++ name ++ " 失败: " ++ e) WARN ;; ret None) ;;
      match r with
      | Some b => ret (Some b)
      | None => keepalive_visits rest
      end
  end.

Definition keepalive : M bool :=
  log "正在访问页面保持账户活跃..." STEP ;;
  r <- keepalive_visits keepalive_pages ;;
  match r with
  | Some b => ret b
  | None => screenshot "保活完成" ;; ret true
  end.

Definition notification_message (success : bool) (user : option string)
           (time error_msg : string) (recent_logs : list string) : string :=
  let status := if success then "✅ 成功" else "❌ 失败" in
  let nl := Py.newline in
  (nl ++ "<b>🤖 ClawCloud 自动登录通知</b>" ++ nl ++ nl
      ++ "<b>状态:</b> " ++ status ++ nl
      ++ "<b>用户:</b> " ++ Py.fmt_opt user ++ nl
      ++ "<b>时间:</b> " ++ time ++ nl)
    ++ (if Py.truthy error_msg then nl ++ "<b>错误:</b> " ++ error_msg else EmptyString)
    ++ (match recent_logs with
        | [] => EmptyString
        | _ => nl ++ nl ++ "<b>📋 最近日志:</b>" ++ nl ++ String.concat nl recent_logs
        end).

Definition send_notification (success : bool) (error_msg : string) : M unit :=
  emit (EvNotify success error_msg) ;;
  a <- get_self ;;
  if negb (enabled (telegram a)) then ret tt
  else
    time <- strftime ;;
    let recent_logs := Py.last_items 10 (logs a) in
    let message := notification_message success (username a) time error_msg recent_logs in
    send_message (telegram a) message ;;
    match screenshots a with
    | [] => ret tt
    | _ =>
        let last_screenshot := last (screenshots a) EmptyString in
        let caption := if success then "最终截图" else "错误截图" in
        send_photo (telegram a) last_screenshot caption ;;
        if negb success && (1 <? length (screenshots a))%nat then
          for_each (Py.but_last (screenshots a))
                   (fun s => send_photo (telegram a) s ("调试截图: " ++ s) ;; ret tt)
        else ret tt
    end.

Definition github_selectors : list string :=
  ["button:has-text(" ++ dq ++ "GitHub" ++ dq ++ ")";
   "a:has-text(" ++ dq ++ "GitHub" ++ dq ++ ")";
   "button:has-text(" ++ dq ++ "Continue with GitHub" ++ dq ++ ")";
   "[data-provider=" ++ dq ++ "github" ++ dq ++ "]"].

Definition banner : string := Py.repeat_str "=" 60.

(** [run], the branch taken when the sign-in page's URL has no "signin". *)
Definition run_already_logged_in : M unit :=
  log "已经登录！" SUCCESS ;;
  ok <- verify_login ;;
  if (ok : bool) then
    keepalive ;;
    send_notification true EmptyString ;;
    print (Py.newline ++ "✅ 成功：已经是登录状态！" ++ Py.newline)
  else
    send_notification false "验证登录状态失败" ;;
    sys_exit 1.

(** [run], step 6 and the success report. *)
Definition run_keepalive_and_report : M unit :=
  log "步骤 6: 保持账户活跃" STEP ;;
  keepalive ;;
  send_notification true EmptyString ;;
  print (Py.newline ++ banner) ;;
  print "✅ 自动登录成功！" ;;
  print (banner ++ Py.newline).

(** [run], steps 2 to 5; a failed step reports and leaves through
    [sys.exit(1)]. *)
Definition run_login_steps : M unit :=
  log "步骤 2: 点击 GitHub 登录按钮" STEP ;;
  found <- find_and_click github_selectors "GitHub 按钮" ;;
  (if negb found then
     log "找不到 GitHub 登录按钮" ERROR ;;
     screenshot "找不到按钮" ;;
     send_notification false "找不到 GitHub 登录按钮" ;;
     sys_exit 1
   else ret tt) ;;
  sleep 3 ;;
  wait_for_load_state 30000%Z ;;
  screenshot "点击github后" ;;
  log "步骤 3: GitHub 身份验证" STEP ;;
  u1 <- page_url ;;
  at_github <- (if Py.contains "github.com/login" u1 then ret true
                else u2 <- page_url ;; ret (Py.contains "github.com/session" u2)) ;;
  (if (at_github : bool) then
     logged <- login_github ;;
     if negb logged then
       screenshot "github_登录失败" ;;
       send_notification false "GitHub 登录失败" ;;
       print (Py.newline ++ "❌ 失败：GitHub 登录失败！" ++ Py.newline) ;;
       sys_exit 1
     else ret tt
   else ret tt) ;;
  log "步骤 4: 等待重定向" STEP ;;
  redirected_ok <- wait_redirect max_wait_default ;;
  (if negb redirected_ok then
     screenshot "重定向失败" ;;
     send_notification false "重定向到 ClawCloud 失败" ;;
     print (Py.newline ++ "❌ 失败：无法重定向到 ClawCloud！" ++ Py.newline) ;;
     sys_exit 1
   else ret tt) ;;
  screenshot "重定向成功" ;;
  log "步骤 5: 验证登录状态" STEP ;;
  verified <- verify_login ;;
  (if negb verified then
     screenshot "验证失败" ;;
     send_notification false "登录验证失败" ;;
     print (Py.newline ++ "❌ 失败：登录验证失败！" ++ Py.newline) ;;
     sys_exit 1
   else ret tt).

(** [run], steps 2 to 6. *)
Definition run_login_flow : M unit :=
  run_login_steps ;;
  run_keepalive_and_report.

(** [run], step 1: open the sign-in page; answers the [page.url] read
    by the "already logged in" test. *)
Definition open_signin_page : M string :=
  log "步骤 1: 打开 ClawCloud 登录页" STEP ;;
  page_goto SIGNIN_URL 60000%Z ;;
  wait_for_load_state 30000%Z ;;
  sleep 2 ;;
  screenshot "clawcloud_登录页" ;;
  page_url.

(** [run], the body of the [try]. *)
Definition run_session : M unit :=
  u <- open_signin_page ;;
  if negb (Py.contains "signin" (Py.lower u)) then run_already_logged_in
  else run_login_flow.

(** [run], the [except Exception as e] handler; [traceback.print_exc()]
    is one printed line. *)
Definition run_on_exception (e : string) : M unit :=
  log ("发生异常: " ++ e) ERROR ;;
  screenshot "异常" ;;
  print ("Traceback: " ++ e) ;;
  send_notification false e ;;
  sys_exit 1.

(** [run], the [try] / [except] / [finally: browser.close()] statement. *)
Definition browser_session : M unit :=
  try_finally (try_except run_session run_on_exception) (emit EvClose).

(** [run] up to the [try]: banner, credentials, browser, context, page. *)
Definition run_prologue : M unit :=
  print (Py.newline ++ banner) ;;
  print "🚀 ClawCloud 自动登录脚本" ;;
  print (banner ++ Py.newline) ;;
  valid <- validate_credentials ;;
  (if negb valid then
     send_notification false "凭据未配置" ;;
     sys_exit 1
   else ret tt) ;;
  call EvLaunch (w_launch w) ;;
  call EvNewContext (w_new_context w) ;;
  call EvNewPage (w_new_page w) ;;
  ret tt.

Definition run : M unit :=
  run_prologue ;;
  browser_session.

(** [login = AutoLogin(); login.run()] *)
Definition initial_state : St :=
  let (a, printed) := AutoLogin_init in
  {| self := a; tick := 0; trace := printed |}.

Definition main : Res unit * St := run initial_state.

End Script.

(** The status the process ends with. *)
Definition exit_status {A} (r : Res A) : Z :=
  match r with
  | Ok _ => 0
  | Raise (SystemExit code) => code
  | Raise (Exception _) => 1
  end.

(** The state once [run] has printed its banner. *)
Definition banner_printed (st : St) : St :=
  {| self := self st; tick := tick st;
     trace := EvPrint (banner ++ Py.newline) :: EvPrint "🚀 ClawCloud 自动登录脚本"
                :: EvPrint (Py.newline ++ banner) :: trace st |}.

(** ** Observations on traces and states *)

(** The [success] flags of the notification calls in a trace, newest first. *)
Fixpoint notify_flags (tr : list Event) : list bool :=
  match tr with
  | [] => []
  | EvNotify success _ :: rest => success :: notify_flags rest
  | _ :: rest => notify_flags rest
  end.

(** The files handed to [json.dump], newest first. *)
Fixpoint dumps (tr : list Event) : list (string * list Cookie) :=
  match tr with
  | [] => []
  | EvJsonDump path payload :: rest => (path, payload) :: dumps rest
  | _ :: rest => dumps rest
  end.

(** The paths handed to [send_photo] by an enabled notifier (each such
    call starts with [os.path.exists]), newest first. *)
Fixpoint photo_calls (tr : list Event) : list string :=
  match tr with
  | [] => []
  | EvPathExists path :: rest => path :: photo_calls rest
  | _ :: rest => photo_calls rest
  end.

(** The texts posted to [sendMessage], newest first. *)
Fixpoint posted_texts (tr : list Event) : list string :=
  match tr with
  | [] => []
  | EvHttpPost _ (_ :: (_, text) :: _) None _ :: rest => text :: posted_texts rest
  | _ :: rest => posted_texts rest
  end.

(** The screenshot files asked of the page, newest first. *)
Fixpoint screenshot_calls (tr : list Event) : list string :=
  match tr with
  | [] => []
  | EvScreenshot path :: rest => path :: screenshot_calls rest
  | _ :: rest => screenshot_calls rest
  end.

(** The number of one-second sleeps, the pace of the redirect waiter. *)
Fixpoint count_sleep1 (tr : list Event) : nat :=
  match tr with
  | [] => 0
  | EvSleep 1 :: rest => S (count_sleep1 rest)
  | _ :: rest => count_sleep1 rest
  end.

Definition st_set_debug (b : bool) (st : St) : St :=
  {| self := set_debug b (self st); tick := tick st; trace := trace st |}.

(** What can be observed of a finished run: exit status, output and
    calls, log lines, screenshots. *)
Definition observable (x : Res unit * St)
  : Z * list Event * list string * list string :=
  (exit_status (fst x), trace (snd x), logs (self (snd x)), screenshots (self (snd x))).

(** The same world with another environment. *)
Definition with_environ (env : string -> option string) (w : World) : World :=
  {| environ := env;
     w_launch := w_launch w; w_new_context := w_new_context w;
     w_new_page := w_new_page w; w_goto := w_goto w;
     w_wait_load := w_wait_load w; w_screenshot := w_screenshot w;
     w_url := w_url w; w_title := w_title w; w_content := w_content w;
     w_cookies := w_cookies w; w_is_visible := w_is_visible w;
     w_inner_text := w_inner_text w; w_click := w_click w; w_fill := w_fill w;
     w_strftime := w_strftime w; w_path_exists := w_path_exists w;
     w_open := w_open w; w_json_dump := w_json_dump w;
     w_http_post := w_http_post w |}.

(** [os.environ] with one variable set or unset. *)
Definition setenv (key : string) (value : option string)
           (env : string -> option string) : string -> option string :=
  fun k => if String.eqb k key then value else env k.

(** ** A small effect system: which kinds of events a computation adds *)

Inductive Kind : Type :=
| KPrint | KSleep1 | KSleep | KBrowser | KNav | KShot | KRead | KCookies
| KDom | KTime | KFs | KHttp | KDump | KNotify | KExit.

Definition kind_of (e : Event) : Kind :=
  match e with
  | EvPrint _ => KPrint
  | EvSleep 1 => KSleep1
  | EvSleep _ => KSleep
  | EvLaunch | EvNewContext | EvNewPage | EvClose => KBrowser
  | EvGoto _ _ | EvWaitLoad _ => KNav
  | EvScreenshot _ => KShot
  | EvUrl | EvTitle | EvContent => KRead
  | EvCookies => KCookies
  | EvIsVisible _ _ | EvInnerText _ | EvClick _ | EvFill _ _ => KDom
  | EvStrftime => KTime
  | EvPathExists _ | EvOpen _ => KFs
  | EvHttpPost _ _ _ _ => KHttp
  | EvJsonDump _ _ => KDump
  | EvNotify _ _ => KNotify
  end.

Definition Kind_eqb (a b : Kind) : bool :=
  match a, b with
  | KPrint, KPrint | KSleep1, KSleep1 | KSleep, KSleep | KBrowser, KBrowser
  | KNav, KNav | KShot, KShot | KRead, KRead | KCookies, KCookies
  | KDom, KDom | KTime, KTime | KFs, KFs | KHttp, KHttp | KDump, KDump
  | KNotify, KNotify | KExit, KExit => true
  | _, _ => false
  end.

Definition has_kind (ks : list Kind) (k : Kind) : bool := existsb (Kind_eqb k) ks.

Definition only (ks : list Kind) (evs : list Event) : bool :=
  forallb (fun e => has_kind ks (kind_of e)) evs.

Definition subkinds (ks ks' : list Kind) : bool := forallb (has_kind ks') ks.

(** Events that touch the browser in any way. *)
Definition browser_kinds : list Kind := [KBrowser; KNav; KShot; KRead; KCookies; KDom].

Definition is_browser_event (e : Event) : bool := has_kind browser_kinds (kind_of e).

(** The kinds of events of the pages' own steps: no notification, no
    file written, no one-second sleep. *)
Definition page_kinds : list Kind := [KPrint; KShot; KDom; KSleep; KNav; KRead].

(** The kinds of events of a notification: none touches the browser. *)
Definition notify_kinds : list Kind := [KNotify; KTime; KHttp; KFs; KPrint].

(** [st'] comes from [st] by adding events of the kinds [ks], appending
    log lines and screenshots, and leaving the configuration alone. *)
Definition extends (ks : list Kind) (st st' : St) : Prop :=
  (exists evs, trace st' = (evs ++ trace st)%list /\ only ks evs = true)
  /\ (exists ls, logs (self st') = (logs (self st) ++ ls)%list)
  /\ (exists ss, screenshots (self st') = (screenshots (self st) ++ ss)%list)
  /\ username (self st') = username (self st)
  /\ token (self st') = token (self st)
  /\ telegram (self st') = telegram (self st).

(** The result is a [sys.exit]. *)
Definition exits {A} (r : Res A) : bool :=
  match r with
  | Raise (SystemExit _) => true
  | _ => false
  end.

(** [m] only adds events of the kinds [ks]; [sys.exit] counts as [KExit]. *)
Definition emits {A} (ks : list Kind) (m : M A) : Prop :=
  forall st,
    extends ks st (snd (m st))
    /\ (exits (fst (m st)) = true -> has_kind ks KExit = true).

(** [m] neither reads nor writes the [debug] field. *)
Definition blind {A} (m : M A) : Prop :=
  forall b st, m (st_set_debug b st) = (fst (m st), st_set_debug b (snd (m st))).

(** Every kind of event but those of the GitHub steps: no query of, click
    on or typing into an element of the page, no one-second sleep of the
    redirect waiter. *)
Definition no_dom_kinds : list Kind :=
  [KPrint; KSleep; KBrowser; KNav; KShot; KRead; KCookies; KTime; KFs; KHttp;
   KDump; KNotify; KExit].

(** [browser_session] once the sign-in page has shown a URL without
    "signin": the [try] goes on with the "already logged in" branch. *)
Definition signed_in_session (w : World) : M unit :=
  try_finally (try_except (run_already_logged_in w) (run_on_exception w)) (emit EvClose).

(** Every kind of event but a notification or a [sys.exit]. *)
Definition quiet_kinds : list Kind :=
  [KPrint; KSleep1; KSleep; KBrowser; KNav; KShot; KRead; KCookies; KDom;
   KTime; KFs; KHttp; KDump].

(** Between [st] and [s'] a line of level ERROR has been logged. *)
Definition error_added (st s' : St) : Prop :=
  exists pre message post,
    logs (self s') = (logs (self st) ++ pre ++ log_line message ERROR :: post)%list.

(** What a failure notification sends as photos, in the order sent: the
    last screenshot, then, on failure with more than one, all the others. *)
Definition photos_sent (success : bool) (shots : list string) : list string :=
  match shots with
  | [] => []
  | _ => last shots EmptyString
         :: (if negb success && (1 <? length shots)%nat then Py.but_last shots else [])
  end.

(** A screenshot was taken and, but for printing, nothing has happened
    between it and the state [s]. *)
Definition screenshot_before (w : World) (s : St) : Prop :=
  exists s0 name file s1,
    screenshot w name s0 = (Ok file, s1) /\ extends [KPrint] s1 s.

(** Between [st] and [s'] the run has failed and reported it: up to some
    state [sn] nothing was notified and an ERROR line was logged; there
    the failure notification [msg] was sent; after it the run only
    printed and closed the browser.  A screenshot was taken just before,
    except for the two messages named. *)
Definition failure_reported (w : World) (st s' : St) : Prop :=
  exists sn msg,
    extends quiet_kinds st sn
    /\ error_added st sn
    /\ (screenshot_before w sn \/ msg = "凭据未配置" \/ msg = "验证登录状态失败")
    /\ extends [KPrint; KBrowser] (snd (send_notification w false msg sn)) s'.

(** Between [st] and [s'] the run has succeeded and reported it. *)
Definition success_reported (w : World) (st s' : St) : Prop :=
  exists sn,
    extends quiet_kinds st sn
    /\ extends [KPrint; KBrowser] (snd (send_notification w true EmptyString sn)) s'.

(** ** The redirect waiter's loop as a step relation *)

(** [reaches w i s j s']: the loop, at the head of turn [i] in state [s],
    arrives at the head of turn [j] in state [s'], every turn in between
    having fallen through to the next one. *)
Inductive reaches (w : World) : nat -> St -> nat -> St -> Prop :=
| reaches_here : forall i s, reaches w i s i s
| reaches_next : forall i s s1 j s',
    wait_redirect_iter w i s = (Ok None, s1) ->
    reaches w (S i) s1 j s' ->
    reaches w i s j s'.

(** The URL polled at the head of a turn that starts in state [s]. *)
Definition polled_url (w : World) (s : St) : string := w_url w (tick s).

(** The state in which [wait_redirect] enters its loop: its opening line
    has been logged. *)
Definition loop_start (max_wait : nat) (st : St) : St :=
  snd (log ("等待重定向到 ClawCloud（最多 " ++ Py.str_nat max_wait ++ " 秒）...") STEP st).

(** ** Sample worlds *)

Definition env_of (l : list (string * string)) (key : string) : option string :=
  match find (fun p => String.eqb (fst p) key) l with
  | Some p => Some (snd p)
  | None => None
  end.

(** A browser in which every call succeeds and nothing is visible. *)
Definition base_world (env : list (string * string)) (url : nat -> string)
           (cookies : list Cookie) : World :=
  {| environ := env_of env;
     w_launch := fun _ => Returns tt;
     w_new_context := fun _ => Returns tt;
     w_new_page := fun _ => Returns tt;
     w_goto := fun _ _ => Returns tt;
     w_wait_load := fun _ => Returns tt;
     w_screenshot := fun _ _ => Returns tt;
     w_url := url;
     w_title := fun _ => Returns "ClawCloud Run";
     w_content := fun _ => Returns "<html></html>";
     w_cookies := fun _ => Returns cookies;
     w_is_visible := fun _ _ => Returns false;
     w_inner_text := fun _ _ => Returns EmptyString;
     w_click := fun _ _ => Returns tt;
     w_fill := fun _ _ _ => Returns tt;
     w_strftime := fun _ => "2026-01-01 00:00:00";
     w_path_exists := fun _ _ => true;
     w_open := fun _ _ => Returns tt;
     w_json_dump := fun _ _ _ => Returns tt;
     w_http_post := fun _ _ => Returns 200%Z |}.

Definition full_env : list (string * string) :=
  [("GH_USERNAME", "alice"); ("GH_PAT", "ghp_secret1234");
   ("TG_BOT_TOKEN", "T"); ("TG_CHAT_ID", "42")].

Definition session_cookies : list Cookie :=
  [[("name", "sid"); ("domain", ".claw.cloud")];
   [("name", "gh"); ("domain", "github.com")]].

Definition dashboard_url : string := "https://eu-central-1.run.claw.cloud/".

(** Already signed in: every page is the dashboard. *)
Definition world_signed_in : World :=
  base_world full_env (fun _ => dashboard_url) session_cookies.

(** The browser never leaves GitHub's login page. *)
Definition world_stuck_on_github : World :=
  base_world full_env (fun _ => "https://github.com/login") [].

(** No credentials in the environment, notifier configured. *)
Definition world_no_credentials : World :=
  base_world [("TG_BOT_TOKEN", "T"); ("TG_CHAT_ID", "42")]
             (fun _ => SIGNIN_URL) [].

(** Credentials set, notifier not configured. *)
Definition world_no_telegram : World :=
  base_world [("GH_USERNAME", "alice"); ("GH_PAT", "ghp_secret1234")]
             (fun _ => dashboard_url) session_cookies.

(** The sign-in page redirects to a page of the console whose path is
    [/login]: no "signin" in the URL, yet not signed in. *)
Definition world_console_login : World :=
  base_world full_env (fun _ => "https://eu-central-1.run.claw.cloud/login")
             session_cookies.

(** Signed in, but the keep-alive visits land on the sign-in page. *)
Definition world_keepalive_bounced : World :=
  base_world full_env
             (fun t => if (t <? 10)%nat then dashboard_url else SIGNIN_URL)
             session_cookies.

(** GitHub shows an error banner after the form is submitted. *)
Definition world_error_banner : World :=
  {| environ := env_of full_env;
     w_launch := fun _ => Returns tt;
     w_new_context := fun _ => Returns tt;
     w_new_page := fun _ => Returns tt;
     w_goto := fun _ _ => Returns tt;
     w_wait_load := fun _ => Returns tt;
     w_screenshot := fun _ _ => Returns tt;
     w_url := fun _ => "https://github.com/session";
     w_title := fun _ => Returns "Sign in to GitHub";
     w_content := fun _ => Returns "<html></html>";
     w_cookies := fun _ => Returns [];
     w_is_visible := fun _ sel => Returns (String.eqb sel ".flash-error");
     w_inner_text := fun _ _ => Returns "Incorrect username or password.";
     w_click := fun _ _ => Returns tt;
     w_fill := fun _ _ _ => Returns tt;
     w_strftime := fun _ => "2026-01-01 00:00:00";
     w_path_exists := fun _ _ => true;
     w_open := fun _ _ => Returns tt;
     w_json_dump := fun _ _ _ => Returns tt;
     w_http_post := fun _ _ => Returns 200%Z |}.

(** The browser cannot be started. *)
Definition world_no_browser : World :=
  with_environ (env_of full_env)
    {| environ := fun _ => None;
       w_launch := fun _ => Throws "Executable doesn't exist";
       w_new_context := fun _ => Returns tt;
       w_new_page := fun _ => Returns tt;
       w_goto := fun _ _ => Returns tt;
       w_wait_load := fun _ => Returns tt;
       w_screenshot := fun _ _ => Returns tt;
       w_url := fun _ => SIGNIN_URL;
       w_title := fun _ => Returns EmptyString;
       w_content := fun _ => Returns EmptyString;
       w_cookies := fun _ => Returns [];
       w_is_visible := fun _ _ => Returns false;
       w_inner_text := fun _ _ => Returns EmptyString;
       w_click := fun _ _ => Returns tt;
       w_fill := fun _ _ _ => Returns tt;
       w_strftime := fun _ => "2026-01-01 00:00:00";
       w_path_exists := fun _ _ => true;
       w_open := fun _ _ => Returns tt;
       w_json_dump := fun _ _ _ => Returns tt;
       w_http_post := fun _ _ => Returns 200%Z |}.

(** The whole GitHub flow succeeds -- button found, login accepted,
    redirect, verification -- and the second keep-alive visit is bounced
    to the sign-in page. *)
Definition world_github_flow : World :=
  {| environ := env_of full_env;
     w_launch := fun _ => Returns tt;
     w_new_context := fun _ => Returns tt;
     w_new_page := fun _ => Returns tt;
     w_goto := fun _ _ => Returns tt;
     w_wait_load := fun _ => Returns tt;
     w_screenshot := fun _ _ => Returns tt;
     w_url := fun t => if (t <? 7)%nat then SIGNIN_URL
                       else if (t <? 30)%nat then "https://github.com/login"
                       else if (t <? 40)%nat then dashboard_url
                       else SIGNIN_URL;
     w_title := fun _ => Returns "ClawCloud Run";
     w_content := fun _ => Returns "<html></html>";
     w_cookies := fun _ => Returns session_cookies;
     w_is_visible := fun _ sel => Returns (String.prefix "button" sel);
     w_inner_text := fun _ _ => Returns EmptyString;
     w_click := fun _ _ => Returns tt;
     w_fill := fun _ _ _ => Returns tt;
     w_strftime := fun _ => "2026-01-01 00:00:00";
     w_path_exists := fun _ _ => true;
     w_open := fun _ _ => Returns tt;
     w_json_dump := fun _ _ _ => Returns tt;
     w_http_post := fun _ _ => Returns 200%Z |}.

(** ** Further observations on traces and file names *)

(** The selectors asked of [is_visible], newest first. *)
Fixpoint visible_queries (tr : list Event) : list string :=
  match tr with
  | [] => []
  | EvIsVisible selector _ :: rest => selector :: visible_queries rest
  | _ :: rest => visible_queries rest
  end.

(** The one-word answer of [requests.post]: status 200. *)
Definition delivered (x : Answer Z) : bool :=
  match x with
  | Returns code => (code =? 200)%Z
  | Throws _ => false
  end.

(** Whether [open] gave a file. *)
Definition opened (x : Answer unit) : bool :=
  match x with
  | Returns _ => true
  | Throws _ => false
  end.

(** The number of calls of [browser.close()] in a trace. *)
Fixpoint closes (tr : list Event) : nat :=
  match tr with
  | [] => 0
  | EvClose :: rest => S (closes rest)
  | _ :: rest => closes rest
  end.

(** A call is any event but a printed line. *)
Definition is_call (e : Event) : bool :=
  match e with
  | EvPrint _ => false
  | _ => true
  end.

(** The calls made, newest first. *)
Definition calls (tr : list Event) : list Event := filter is_call tr.

(** The seconds of a [time.sleep]; other events take none. *)
Definition seconds_of (e : Event) : nat :=
  match e with
  | EvSleep seconds => seconds
  | _ => 0
  end.

(** The seconds slept in a trace, all [time.sleep] calls added up. *)
Fixpoint slept (tr : list Event) : nat :=
  match tr with
  | [] => 0
  | e :: rest => seconds_of e + slept rest
  end.

(** The file name [screenshot] gives its [n]-th picture. *)
Definition shot_file (n : nat) (name : string) : string :=
  Py.fmt_02d n ++ "_" ++ name ++ ".png".

(** A decimal digit. *)
Definition is_digit (ch : ascii) : bool :=
  let n := nat_of_ascii ch in ((48 <=? n)%nat && (n <=? 57)%nat)%bool.

(** A string of decimal digits. *)
Fixpoint all_digits (s : string) : bool :=
  match s with
  | EmptyString => true
  | String ch rest => is_digit ch && all_digits rest
  end.

(** The decimal digits at the head of a file name. *)
Fixpoint digits_of (s : string) : string :=
  match s with
  | EmptyString => EmptyString
  | String ch rest => if is_digit ch then String ch (digits_of rest) else EmptyString
  end.

(** The files are numbered in strictly increasing order, above [lo] and up
    to [hi]. *)
Fixpoint numbered (lo : nat) (files : list string) (hi : nat) : Prop :=
  match files with
  | [] => lo <= hi
  | f :: rest => exists n name, lo < n /\ f = shot_file n name /\ numbered n rest hi
  end.

(** From tick [t] on the selectors are asked for in turn and each is
    passed over: it is not visible, or [is_visible] raises (one call), or
    it is visible and its click raises (two calls); [t'] is the tick
    after the last of them. *)
Fixpoint passed_over (w : World) (t : nat) (selectors : list string) (t' : nat) : Prop :=
  match selectors with
  | [] => t' = t
  | selector :: rest =>
      match w_is_visible w t selector with
      | Returns true =>
          (exists msg, w_click w (S t) selector = Throws msg)
          /\ passed_over w (S (S t)) rest t'
      | _ => passed_over w (S t) rest t'
      end
  end.

(** From tick [t] on the pages are visited in turn and no visit stops
    the keep-alive loop: [page.goto] raises (one call), or the wait
    raises (two calls), or the page reached has no "signin" in its URL
    (three calls); [t'] is the tick after the last visit. *)
Fixpoint visits_pass (w : World) (t : nat) (pages : list (string * string))
         (t' : nat) : Prop :=
  match pages with
  | [] => t' = t
  | (url, _) :: rest =>
      match w_goto w t url with
      | Throws _ => visits_pass w (S t) rest t'
      | Returns _ =>
          match w_wait_load w (S t) with
          | Throws _ => visits_pass w (S (S t)) rest t'
          | Returns _ =>
              Py.contains "signin" (Py.lower (w_url w (S (S t)))) = false
              /\ visits_pass w (S (S (S t))) rest t'
          end
      end
  end.

(** The form of [login_github] goes through: the credentials are there,
    and the three screenshots, the two fields, the submit button and the
    wait for the page all return, each at the tick it is called. *)
Definition form_goes_through (w : World) (st : St) (u p : string) : Prop :=
  let n := screenshot_count (self st) in
  let t := tick st in
  username (self st) = Some u
  /\ token (self st) = Some p
  /\ w_screenshot w t (shot_file (1 + n) "github_登录页") = Returns tt
  /\ w_fill w (1 + t) login_selector u = Returns tt
  /\ w_fill w (2 + t) password_selector p = Returns tt
  /\ w_screenshot w (3 + t) (shot_file (2 + n) "github_已填写凭据") = Returns tt
  /\ w_click w (4 + t) submit_selector = Returns tt
  /\ w_wait_load w (5 + t) = Returns tt
  /\ w_screenshot w (6 + t) (shot_file (3 + n) "github_登录后") = Returns tt.

(** The state [login_github] is in when it comes to its checks, the form
    having gone through: eight calls made, three screenshots on record,
    the URL read and logged. *)
Definition form_submitted (u p current_url : string) (st : St) : St :=
  let n := screenshot_count (self st) in
  let f1 := shot_file (1 + n) "github_登录页" in
  let f2 := shot_file (2 + n) "github_已填写凭据" in
  let f3 := shot_file (3 + n) "github_登录后" in
  {| self :=
       set_logs
         (logs (self st)
            ++ [log_line "正在登录 GitHub..." STEP;
                log_line ("截图已保存: " ++ f1) INFO;
                log_line "已输入用户名" INFO;
                log_line "已输入 Token" INFO;
                log_line ("截图已保存: " ++ f2) INFO;
                log_line "已点击登录按钮" INFO;
                log_line ("截图已保存: " ++ f3) INFO;
                log_line ("当前页面: " ++ current_url) INFO])%list
         (set_screenshots (screenshots (self st) ++ [f1; f2; f3])%list
            (set_screenshot_count (3 + n) (self st)));
     tick := 8 + tick st;
     trace :=
       ([EvPrint (log_line ("当前页面: " ++ current_url) INFO);
         EvUrl;
         EvPrint (log_line ("截图已保存: " ++ f3) INFO);
         EvScreenshot f3;
         EvWaitLoad 30000%Z;
         EvSleep 3;
         EvPrint (log_line "已点击登录按钮" INFO);
         EvClick submit_selector;
         EvPrint (log_line ("截图已保存: " ++ f2) INFO);
         EvScreenshot f2;
         EvPrint (log_line "已输入 Token" INFO);
         EvFill password_selector p;
         EvPrint (log_line "已输入用户名" INFO);
         EvFill login_selector u;
         EvPrint (log_line ("截图已保存: " ++ f1) INFO);
         EvScreenshot f1;
         EvPrint (log_line "正在登录 GitHub..." STEP)] ++ trace st)%list |}.

(** ** Further sets of kinds *)

(** Every kind of event. *)
Definition every_kind : list Kind :=
  [KPrint; KSleep1; KSleep; KBrowser; KNav; KShot; KRead; KCookies; KDom;
   KTime; KFs; KHttp; KDump; KNotify; KExit].

(** Every kind of event but starting and closing the browser. *)
Definition session_kinds : list Kind :=
  [KPrint; KSleep1; KSleep; KNav; KShot; KRead; KCookies; KDom;
   KTime; KFs; KHttp; KDump; KNotify; KExit].

(** Every kind of event but writing the cookie file. *)
Definition no_dump_kinds : list Kind :=
  [KPrint; KSleep1; KSleep; KBrowser; KNav; KShot; KRead; KCookies; KDom;
   KTime; KFs; KHttp; KNotify; KExit].

(** ** The events of a run *)

(** What a run is configured with: the credentials and the notifier. *)
Record Config : Type := {
  cfg_username : option string;
  cfg_token : option string;
  cfg_telegram : TelegramNotifier;
}.

(** The configuration of an object. *)
Definition config_of (a : AutoLogin) : Config :=
  {| cfg_username := username a; cfg_token := token a; cfg_telegram := telegram a |}.

(** The object still has the configuration [c], and its screenshots are
    numbered below its counter. *)
Definition sound (c : Config) (a : AutoLogin) : Prop :=
  config_of a = c /\ numbered 0 (screenshots a) (screenshot_count a).

(** Every selector the script looks for, with the time it waits for it. *)
Definition watched_selectors : list (string * Z) :=
  (map (fun s => (s, 3000%Z)) (github_selectors ++ authorize_selectors)
     ++ map (fun s => (s, 1000%Z)) error_selectors
     ++ [(otp_selector, 2000%Z)])%list.

(** Every selector the script clicks on. *)
Definition clicked_selectors : list string :=
  (github_selectors ++ authorize_selectors ++ [submit_selector])%list.

(** The calls a run configured with [c] may make, and the lines it may
    print.  The clock, the file system and Telegram are for an enabled
    notifier only. *)
Inductive script_event (c : Config) : Event -> Prop :=
| se_print : forall line, script_event c (EvPrint line)
| se_sleep : forall n, In n [1; 2; 3] -> script_event c (EvSleep n)
| se_launch : script_event c EvLaunch
| se_new_context : script_event c EvNewContext
| se_new_page : script_event c EvNewPage
| se_close : script_event c EvClose
| se_goto_signin : script_event c (EvGoto SIGNIN_URL 60000%Z)
| se_goto_page : forall url name,
    In (url, name) keepalive_pages -> script_event c (EvGoto url 30000%Z)
| se_wait_load : forall timeout,
    In timeout [30000%Z; 15000%Z] -> script_event c (EvWaitLoad timeout)
| se_screenshot : forall n name, script_event c (EvScreenshot (shot_file n name))
| se_url : script_event c EvUrl
| se_title : script_event c EvTitle
| se_content : script_event c EvContent
| se_cookies : script_event c EvCookies
| se_is_visible : forall selector timeout,
    In (selector, timeout) watched_selectors ->
    script_event c (EvIsVisible selector timeout)
| se_inner_text : forall selector,
    In selector error_selectors -> script_event c (EvInnerText selector)
| se_click : forall selector,
    In selector clicked_selectors -> script_event c (EvClick selector)
| se_fill_login : forall u,
    cfg_username c = Some u -> script_event c (EvFill login_selector u)
| se_fill_password : forall t,
    cfg_token c = Some t -> script_event c (EvFill password_selector t)
| se_strftime : enabled (cfg_telegram c) = true -> script_event c EvStrftime
| se_path_exists : forall path,
    enabled (cfg_telegram c) = true -> script_event c (EvPathExists path)
| se_open : forall path,
    enabled (cfg_telegram c) = true -> script_event c (EvOpen path)
| se_post_message : forall text,
    enabled (cfg_telegram c) = true ->
    script_event c
      (EvHttpPost (api_url (cfg_telegram c) "sendMessage")
         [("chat_id", Py.fmt_opt (chat_id (cfg_telegram c)));
          ("text", text); ("parse_mode", "HTML")]
         None 30%Z)
| se_post_photo : forall path caption,
    enabled (cfg_telegram c) = true ->
    script_event c
      (EvHttpPost (api_url (cfg_telegram c) "sendPhoto")
         [("chat_id", Py.fmt_opt (chat_id (cfg_telegram c))); ("caption", caption)]
         (Some ("photo", path)) 60%Z)
| se_dump : forall payload, script_event c (EvJsonDump "cookies.json" payload)
| se_notify : forall success error_msg, script_event c (EvNotify success error_msg).

(** [st'] comes from [st] by events of the script, keeping the object
    sound. *)
Definition keeps (c : Config) (st st' : St) : Prop :=
  sound c (self st) ->
  sound c (self st')
  /\ exists evs, trace st' = (evs ++ trace st)%list /\ Forall (script_event c) evs.

(** [m] stays within the events of the script and keeps the object sound. *)
Definition confined (c : Config) {A} (m : M A) : Prop :=
  forall st, keeps c st (snd (m st)).

(** Where a run may navigate: the sign-in page and the keep-alive pages. *)
Definition goto_in_console (e : Event) : Prop :=
  match e with
  | EvGoto url timeout =>
      (url = SIGNIN_URL /\ timeout = 60000%Z)
      \/ (In url (map fst keepalive_pages) /\ timeout = 30000%Z)
  | _ => True
  end.

(** What a run may type and click: the credentials of the environment
    into GitHub's two fields, and the buttons it looks for. *)
Definition acts_on_known_elements (w : World) (e : Event) : Prop :=
  match e with
  | EvFill selector value =>
      (selector = login_selector /\ environ w "GH_USERNAME" = Some value)
      \/ (selector = password_selector /\ environ w "GH_PAT" = Some value)
  | EvClick selector => In selector clicked_selectors
  | _ => True
  end.

(** What a run may post: a text to [sendMessage], a photo to [sendPhoto],
    both of the configured bot and to the configured chat. *)
Definition posts_to_telegram (w : World) (e : Event) : Prop :=
  match e with
  | EvHttpPost url data file timeout =>
      In ("chat_id", Py.fmt_opt (environ w "TG_CHAT_ID")) data
      /\ ((url = "https://api.telegram.org/bot" ++ Py.fmt_opt (environ w "TG_BOT_TOKEN")
                   ++ "/sendMessage"
           /\ file = None /\ timeout = 30%Z)
          \/ (url = "https://api.telegram.org/bot" ++ Py.fmt_opt (environ w "TG_BOT_TOKEN")
                      ++ "/sendPhoto"
              /\ (exists path, file = Some ("photo", path)) /\ timeout = 60%Z))
  | _ => True
  end.

(** Every wait the script asks for has a bound: seconds for a sleep and
    for a request, milliseconds for the browser. *)
Definition wait_is_bounded (e : Event) : Prop :=
  match e with
  | EvSleep seconds => 1 <= seconds <= 3
  | EvGoto _ timeout | EvWaitLoad timeout | EvIsVisible _ timeout =>
      (1000 <= timeout <= 60000)%Z
  | EvHttpPost _ _ _ timeout => (30 <= timeout <= 60)%Z
  | _ => True
  end.

(** What a run never does when its notifier is disabled: read the clock,
    look for a file or open one, post a request. *)
Definition notifies_nobody (e : Event) : Prop :=
  match e with
  | EvStrftime | EvPathExists _ | EvOpen _ | EvHttpPost _ _ _ _ => False
  | _ => True
  end.

(** ** Two runs that differ in what Telegram answers *)

(** The same world with other answers to [requests.post]. *)
Definition with_http_post (post : nat -> string -> Answer Z) (w : World) : World :=
  {| environ := environ w;
     w_launch := w_launch w; w_new_context := w_new_context w;
     w_new_page := w_new_page w; w_goto := w_goto w;
     w_wait_load := w_wait_load w; w_screenshot := w_screenshot w;
     w_url := w_url w; w_title := w_title w; w_content := w_content w;
     w_cookies := w_cookies w; w_is_visible := w_is_visible w;
     w_inner_text := w_inner_text w; w_click := w_click w; w_fill := w_fill w;
     w_strftime := w_strftime w; w_path_exists := w_path_exists w;
     w_open := w_open w; w_json_dump := w_json_dump w;
     w_http_post := post |}.

(** Two states with the same object, at the same tick, after the same
    calls. *)
Definition agree (s1 s2 : St) : Prop :=
  self s1 = self s2 /\ tick s1 = tick s2 /\ calls (trace s1) = calls (trace s2).

(** From states that agree, [m1] and [m2] end alike: same result, and
    states that agree. *)
Definition same {A} (m1 m2 : M A) : Prop :=
  forall s1 s2,
    agree s1 s2 ->
    fst (m1 s1) = fst (m2 s2) /\ agree (snd (m1 s1)) (snd (m2 s2)).

(** From states that agree, [m1] and [m2] both return, perhaps not the
    same value, in states that agree. *)
Definition alike {A} (m1 m2 : M A) : Prop :=
  forall s1 s2,
    agree s1 s2 ->
    (exists a b, fst (m1 s1) = Ok a /\ fst (m2 s2) = Ok b)
    /\ agree (snd (m1 s1)) (snd (m2 s2)).

(** ** The time a run sleeps *)

(** [m] sleeps at most [n] seconds. *)
Definition sleeps_at_most (n : nat) {A} (m : M A) : Prop :=
  forall st, slept (trace (snd (m st))) <= slept (trace st) + n.

(** ** Further sample worlds *)

(** A console on which no page can be opened; all else works. *)
Definition world_console_down : World :=
  {| environ := env_of full_env;
     w_launch := fun _ => Returns tt;
     w_new_context := fun _ => Returns tt;
     w_new_page := fun _ => Returns tt;
     w_goto := fun _ _ => Throws "net::ERR_CONNECTION_REFUSED";
     w_wait_load := fun _ => Returns tt;
     w_screenshot := fun _ _ => Returns tt;
     w_url := fun _ => dashboard_url;
     w_title := fun _ => Returns "ClawCloud Run";
     w_content := fun _ => Returns "<html></html>";
     w_cookies := fun _ => Returns session_cookies;
     w_is_visible := fun _ _ => Returns false;
     w_inner_text := fun _ _ => Returns EmptyString;
     w_click := fun _ _ => Returns tt;
     w_fill := fun _ _ _ => Returns tt;
     w_strftime := fun _ => "2026-01-01 00:00:00";
     w_path_exists := fun _ _ => true;
     w_open := fun _ _ => Returns tt;
     w_json_dump := fun _ _ _ => Returns tt;
     w_http_post := fun _ _ => Returns 200%Z |}.

(** The page cannot be opened and no screenshot can be taken. *)
Definition world_browser_crashed : World :=
  {| environ := env_of full_env;
     w_launch := fun _ => Returns tt;
     w_new_context := fun _ => Returns tt;
     w_new_page := fun _ => Returns tt;
     w_goto := fun _ _ => Throws "Target page has been closed";
     w_wait_load := fun _ => Returns tt;
     w_screenshot := fun _ _ => Throws "Target page has been closed";
     w_url := fun _ => SIGNIN_URL;
     w_title := fun _ => Returns EmptyString;
     w_content := fun _ => Returns EmptyString;
     w_cookies := fun _ => Returns [];
     w_is_visible := fun _ _ => Returns false;
     w_inner_text := fun _ _ => Returns EmptyString;
     w_click := fun _ _ => Returns tt;
     w_fill := fun _ _ _ => Returns tt;
     w_strftime := fun _ => "2026-01-01 00:00:00";
     w_path_exists := fun _ _ => true;
     w_open := fun _ _ => Returns tt;
     w_json_dump := fun _ _ _ => Returns tt;
     w_http_post := fun _ _ => Returns 200%Z |}.

(** Every locator raises: the page is gone. *)
Definition world_locators_fail : World :=
  {| environ := env_of full_env;
     w_launch := fun _ => Returns tt;
     w_new_context := fun _ => Returns tt;
     w_new_page := fun _ => Returns tt;
     w_goto := fun _ _ => Returns tt;
     w_wait_load := fun _ => Returns tt;
     w_screenshot := fun _ _ => Returns tt;
     w_url := fun _ => SIGNIN_URL;
     w_title := fun _ => Returns "ClawCloud Run";
     w_content := fun _ => Returns "<html></html>";
     w_cookies := fun _ => Returns [];
     w_is_visible := fun _ _ => Throws "Timeout 3000ms exceeded";
     w_inner_text := fun _ _ => Throws "Timeout 3000ms exceeded";
     w_click := fun _ _ => Throws "Timeout 3000ms exceeded";
     w_fill := fun _ _ _ => Throws "Timeout 3000ms exceeded";
     w_strftime := fun _ => "2026-01-01 00:00:00";
     w_path_exists := fun _ _ => true;
     w_open := fun _ _ => Returns tt;
     w_json_dump := fun _ _ _ => Returns tt;
     w_http_post := fun _ _ => Returns 200%Z |}.

(** The GitHub button leads to a login form that cannot be filled in. *)
Definition world_form_locked : World :=
  {| environ := env_of full_env;
     w_launch := fun _ => Returns tt;
     w_new_context := fun _ => Returns tt;
     w_new_page := fun _ => Returns tt;
     w_goto := fun _ _ => Returns tt;
     w_wait_load := fun _ => Returns tt;
     w_screenshot := fun _ _ => Returns tt;
     w_url := fun t => if (t <? 7)%nat then SIGNIN_URL else "https://github.com/login";
     w_title := fun _ => Returns "Sign in to GitHub";
     w_content := fun _ => Returns "<html></html>";
     w_cookies := fun _ => Returns [];
     w_is_visible := fun _ _ => Returns true;
     w_inner_text := fun _ _ => Returns EmptyString;
     w_click := fun _ _ => Returns tt;
     w_fill := fun _ _ _ => Throws "Element is not editable";
     w_strftime := fun _ => "2026-01-01 00:00:00";
     w_path_exists := fun _ _ => true;
     w_open := fun _ _ => Returns tt;
     w_json_dump := fun _ _ _ => Returns tt;
     w_http_post := fun _ _ => Returns 200%Z |}.

(** GitHub shows the OAuth consent page, without any button. *)
Definition world_consent_page : World :=
  base_world full_env
    (fun _ => "https://github.com/login/oauth/authorize?client_id=claw") [].

(** The screenshots have been deleted before they are sent. *)
Definition world_files_gone : World :=
  {| environ := env_of full_env;
     w_launch := fun _ => Returns tt;
     w_new_context := fun _ => Returns tt;
     w_new_page := fun _ => Returns tt;
     w_goto := fun _ _ => Returns tt;
     w_wait_load := fun _ => Returns tt;
     w_screenshot := fun _ _ => Returns tt;
     w_url := fun _ => dashboard_url;
     w_title := fun _ => Returns "ClawCloud Run";
     w_content := fun _ => Returns "<html></html>";
     w_cookies := fun _ => Returns session_cookies;
     w_is_visible := fun _ _ => Returns false;
     w_inner_text := fun _ _ => Returns EmptyString;
     w_click := fun _ _ => Returns tt;
     w_fill := fun _ _ _ => Returns tt;
     w_strftime := fun _ => "2026-01-01 00:00:00";
     w_path_exists := fun _ _ => false;
     w_open := fun _ _ => Returns tt;
     w_json_dump := fun _ _ _ => Returns tt;
     w_http_post := fun _ _ => Returns 200%Z |}.

(** The credentials are set, but to the empty string. *)
Definition world_empty_credentials : World :=
  base_world [("GH_USERNAME", EmptyString); ("GH_PAT", EmptyString);
              ("TG_BOT_TOKEN", "T"); ("TG_CHAT_ID", "42")]
             (fun _ => SIGNIN_URL) [].

(** The notifier is configured with an empty token. *)
Definition world_empty_token : World :=
  base_world [("GH_USERNAME", "alice"); ("GH_PAT", "ghp_secret1234");
              ("TG_BOT_TOKEN", EmptyString); ("TG_CHAT_ID", "42")]
             (fun _ => dashboard_url) session_cookies.

(** After the form is submitted GitHub asks to verify the device. *)
Definition world_device_check : World :=
  base_world full_env (fun _ => "https://github.com/sessions/verified-device") [].

(** A token with characters outside ASCII. *)
Definition world_unicode_token : World :=
  base_world [("GH_USERNAME", "alice"); ("GH_PAT", "pät€😀");
              ("TG_BOT_TOKEN", "T"); ("TG_CHAT_ID", "42")]
             (fun _ => dashboard_url) session_cookies.

(** The same world with other answers from [open(path, 'rb')] and from
    the write of the cookie file. *)
Definition with_files (open : nat -> string -> Answer unit)
           (dump : nat -> string -> list Cookie -> Answer unit) (w : World) : World :=
  {| environ := environ w;
     w_launch := w_launch w; w_new_context := w_new_context w;
     w_new_page := w_new_page w; w_goto := w_goto w;
     w_wait_load := w_wait_load w; w_screenshot := w_screenshot w;
     w_url := w_url w; w_title := w_title w; w_content := w_content w;
     w_cookies := w_cookies w; w_is_visible := w_is_visible w;
     w_inner_text := w_inner_text w; w_click := w_click w; w_fill := w_fill w;
     w_strftime := w_strftime w; w_path_exists := w_path_exists w;
     w_open := open; w_json_dump := dump;
     w_http_post := w_http_post w |}.

(** Signed in, but the cookie file cannot be written. *)
Definition world_disk_full : World :=
  with_files (fun _ _ => Returns tt)
             (fun _ _ _ => Throws "[Errno 28] No space left on device")
             world_signed_in.

(** Signed in; the screenshots are there but cannot be opened. *)
Definition world_unreadable_files : World :=
  with_files (fun _ _ => Throws "[Errno 13] Permission denied")
             (fun _ _ _ => Returns tt)
             world_signed_in.

(** * Proofs *)

(** ** Kinds and extension of states *)

Lemma Kind_eqb_eq (a b : Kind) : Kind_eqb a b = true -> a = b.
Proof. destruct a, b; simpl; congruence. Qed.

Lemma Kind_eqb_refl (a : Kind) : Kind_eqb a a = true.
Proof. destruct a; reflexivity. Qed.

Lemma has_kind_In (ks : list Kind) (k : Kind) : has_kind ks k = true <-> In k ks.
Proof.
  unfold has_kind. rewrite existsb_exists. split.
  - intros [x [Hin Heq]]. apply Kind_eqb_eq in Heq. now subst.
  - intros Hin. exists k. split; [assumption | apply Kind_eqb_refl].
Qed.

Lemma has_kind_weaken (ks ks' : list Kind) (k : Kind) :
  subkinds ks ks' = true -> has_kind ks k = true -> has_kind ks' k = true.
Proof.
  unfold subkinds. rewrite forallb_forall. intros Hsub Hk.
  apply Hsub. now apply has_kind_In.
Qed.

Lemma only_app (ks : list Kind) (a b : list Event) :
  only ks (a ++ b) = only ks a && only ks b.
Proof. apply forallb_app. Qed.

Lemma only_weaken (ks ks' : list Kind) (evs : list Event) :
  subkinds ks ks' = true -> only ks evs = true -> only ks' evs = true.
Proof.
  intros Hsub. unfold only. rewrite !forallb_forall.
  intros H e He. eapply has_kind_weaken; eauto.
Qed.

Lemma extends_refl (ks : list Kind) (st : St) : extends ks st st.
Proof.
  repeat split; try (exists []; now rewrite ?app_nil_r).
Qed.

Lemma extends_trans (ks : list Kind) (a b c : St) :
  extends ks a b -> extends ks b c -> extends ks a c.
Proof.
  intros [[e1 [T1 O1]] [[l1 L1] [[s1 S1] [U1 [K1 G1]]]]]
         [[e2 [T2 O2]] [[l2 L2] [[s2 S2] [U2 [K2 G2]]]]].
  repeat split; try congruence.
  - exists (e2 ++ e1)%list. split.
    + rewrite T2, T1. now rewrite app_assoc.
    + rewrite only_app, O1, O2. reflexivity.
  - exists (l1 ++ l2)%list. rewrite L2, L1. now rewrite app_assoc.
  - exists (s1 ++ s2)%list. rewrite S2, S1. now rewrite app_assoc.
Qed.

Lemma extends_weaken (ks ks' : list Kind) (a b : St) :
  subkinds ks ks' = true -> extends ks a b -> extends ks' a b.
Proof.
  intros Hsub [[e [T O]] Rest]. split; [| exact Rest].
  exists e. split; [assumption | eapply only_weaken; eauto].
Qed.

Lemma extends_event (ks : list Kind) (st : St) (ev : Event) (n : nat) :
  has_kind ks (kind_of ev) = true ->
  extends ks st {| self := self st; tick := n; trace := ev :: trace st |}.
Proof.
  intros H. repeat split; simpl; try (exists []; now rewrite ?app_nil_r).
  exists [ev]. split; [reflexivity |]. simpl. now rewrite H.
Qed.

(** ** Rules of the effect system *)

Section EmitsRules.

Context {A B : Type}.
Variable ks : list Kind.

Lemma emits_ret (a : A) : emits ks (ret a).
Proof. intros st. split; [apply extends_refl | discriminate]. Qed.

Lemma emits_bind (m : M A) (k : A -> M B) :
  emits ks m -> (forall a, emits ks (k a)) -> emits ks (bind m k).
Proof.
  intros Hm Hk st. unfold bind.
  destruct (Hm st) as [E1 X1]. destruct (m st) as [[a | e] s1]; simpl in *.
  - destruct (Hk a s1) as [E2 X2]. split; [eapply extends_trans; eauto | exact X2].
  - split; [assumption | exact X1].
Qed.

Lemma emits_raise (msg : string) : emits ks (@raise A (Exception msg)).
Proof. intros st. split; [apply extends_refl | discriminate]. Qed.

Lemma emits_sys_exit (code : Z) :
  has_kind ks KExit = true -> emits ks (@sys_exit A code).
Proof. intros H st. split; [apply extends_refl | intros; exact H]. Qed.

Lemma emits_call (ev : Event) (answer : nat -> Answer A) :
  has_kind ks (kind_of ev) = true -> emits ks (call ev answer).
Proof.
  intros H st. unfold call; simpl. split.
  - now apply extends_event.
  - destruct (answer (tick st)); discriminate.
Qed.

Lemma emits_try_except (m : M A) (h : string -> M A) :
  emits ks m -> (forall e, emits ks (h e)) -> emits ks (try_except m h).
Proof.
  intros Hm Hh st. unfold try_except.
  destruct (Hm st) as [E1 X1]. destruct (m st) as [[a | [msg | c]] s1]; simpl in *.
  - split; [assumption | discriminate].
  - destruct (Hh msg s1) as [E2 X2]. split; [eapply extends_trans; eauto | exact X2].
  - split; [assumption | exact X1].
Qed.

Lemma emits_try_except_all (m h : M A) :
  emits ks m -> emits ks h -> emits ks (try_except_all m h).
Proof.
  intros Hm Hh st. unfold try_except_all.
  destruct (Hm st) as [E1 X1]. destruct (m st) as [[a | e] s1]; simpl in *.
  - split; [assumption | discriminate].
  - destruct (Hh s1) as [E2 X2]. split; [eapply extends_trans; eauto | exact X2].
Qed.

Lemma emits_try_finally (m : M A) (f : M unit) :
  emits ks m -> emits ks f -> emits ks (try_finally m f).
Proof.
  intros Hm Hf st. unfold try_finally.
  destruct (Hm st) as [E1 X1]. destruct (m st) as [r s1]; simpl in *.
  destruct (Hf s1) as [E2 X2]. destruct (f s1) as [[u | e] s2]; simpl in *.
  - split; [eapply extends_trans; eauto | exact X1].
  - split; [eapply extends_trans; eauto | exact X2].
Qed.

Lemma emits_weaken (ks0 : list Kind) (m : M A) :
  emits ks0 m -> subkinds ks0 ks = true -> emits ks m.
Proof.
  intros Hm Hsub st. destruct (Hm st) as [E X]. split.
  - eapply extends_weaken; eauto.
  - intros Hc. eapply has_kind_weaken; eauto.
Qed.

End EmitsRules.

Lemma emits_emit (ks : list Kind) (ev : Event) :
  has_kind ks (kind_of ev) = true -> emits ks (emit ev).
Proof.
  intros H st. unfold emit; simpl. split; [now apply extends_event | discriminate].
Qed.

Lemma emits_get_self (ks : list Kind) : emits ks get_self.
Proof. intros st. split; [apply extends_refl | discriminate]. Qed.

Lemma emits_for_each {A} (ks : list Kind) (l : list A) (f : A -> M unit) :
  (forall x, emits ks (f x)) -> emits ks (for_each l f).
Proof.
  intros Hf. induction l as [| x rest IH]; simpl.
  - apply emits_ret.
  - apply emits_bind; [apply Hf | intros _; exact IH].
Qed.

Create HintDb emits discriminated.

(** One syntax-directed step of an [emits] derivation; calls of the
    script's own functions are looked up in the hint database. *)
Ltac emits_step :=
  lazymatch goal with
  | |- emits _ (bind _ _) => apply emits_bind; [ | intros ? ]
  | |- emits _ (ret _) => apply emits_ret
  | |- emits _ (raise (Exception _)) => apply emits_raise
  | |- emits _ (sys_exit _) => apply emits_sys_exit; reflexivity
  | |- emits _ (call _ _) => apply emits_call; reflexivity
  | |- emits _ (emit _) => apply emits_emit; reflexivity
  | |- emits _ get_self => apply emits_get_self
  | |- emits _ (try_except _ _) => apply emits_try_except; [ | intros ? ]
  | |- emits _ (try_except_all _ _) => apply emits_try_except_all
  | |- emits _ (try_finally _ _) => apply emits_try_finally
  | |- emits _ (for_each _ _) => apply emits_for_each; intros ?
  | |- emits _ (if ?b then _ else _) => destruct b
  | |- emits _ (match ?x with _ => _ end) => destruct x
  | |- emits _ _ =>
      eapply emits_weaken; [ solve [ eauto with emits ] | reflexivity ]
  end.

Ltac emits_auto := repeat emits_step.

Section ScriptEffects.

Variable w : World.

Lemma emits_log (message : string) (level : Level) : emits [KPrint] (log message level).
Proof.
  intros st. unfold log, print, emit, bind, get_self, set_self; simpl. split.
  - repeat split; simpl; try (exists []; now rewrite ?app_nil_r).
    + exists [EvPrint (log_line message level)]. split; reflexivity.
    + eexists; reflexivity.
  - discriminate.
Qed.

Lemma emits_screenshot (name : string) : emits [KPrint; KShot] (screenshot w name).
Proof.
  intros st.
  unfold screenshot, page_screenshot, call, log, print, emit, bind, get_self, set_self, ret;
    simpl.
  destruct (w_screenshot w (tick st) _) as [[] | msg]; simpl.
  - split; [| discriminate].
    repeat split; simpl; try (exists []; now rewrite ?app_nil_r).
    + eexists [_; _]. split; reflexivity.
    + eexists; reflexivity.
    + eexists; reflexivity.
  - split; [| discriminate].
    repeat split; simpl; try (exists []; now rewrite ?app_nil_r).
    eexists [_]. split; reflexivity.
Qed.

End ScriptEffects.

#[export] Hint Resolve emits_log emits_screenshot : emits.

Ltac unfold_calls :=
  unfold page_url, page_title, page_content, page_goto, wait_for_load_state,
    page_screenshot, context_cookies, is_visible, inner_text, click, fill,
    strftime, path_exists, open_rb, requests_post, json_dump, print, sleep, credential.

Ltac emits_script := intros; unfold_calls; cbv zeta; repeat (emits_step; cbv zeta).

Lemma emits_validate_credentials : emits [KPrint] validate_credentials.
Proof. unfold validate_credentials. emits_script. Qed.

Lemma emits_find_and_click (w : World) (selectors : list string) (description : string) :
  emits [KPrint; KDom] (find_and_click w selectors description).
Proof.
  induction selectors as [| selector rest IH]; simpl.
  - apply emits_ret.
  - emits_script.
Qed.

Lemma emits_check_github_error_in (w : World) (selectors : list string) :
  emits [KDom] (check_github_error_in w selectors).
Proof.
  induction selectors as [| selector rest IH]; simpl.
  - apply emits_ret.
  - emits_script.
Qed.

Lemma emits_check_github_error (w : World) : emits [KDom] (check_github_error w).
Proof. apply emits_check_github_error_in. Qed.

Lemma emits_check_device_verification (w : World) :
  emits [KRead] (check_device_verification w).
Proof. unfold check_device_verification. emits_script. Qed.

Lemma emits_check_2fa (w : World) : emits [KRead; KDom] (check_2fa w).
Proof. unfold check_2fa. emits_script. Qed.

#[export] Hint Resolve emits_validate_credentials emits_find_and_click
  emits_check_github_error emits_check_device_verification emits_check_2fa : emits.

Lemma emits_login_github_checks (w : World) (current_url : string) :
  emits [KPrint; KShot; KDom; KRead] (login_github_checks w current_url).
Proof. unfold login_github_checks. emits_script. Qed.

#[export] Hint Resolve emits_login_github_checks : emits.

Lemma emits_login_github (w : World) : emits page_kinds (login_github w).
Proof. unfold login_github. emits_script. Qed.

Lemma emits_handle_oauth (w : World) : emits page_kinds (handle_oauth w).
Proof. unfold handle_oauth. emits_script. Qed.

#[export] Hint Resolve emits_login_github emits_handle_oauth : emits.

Lemma emits_wait_redirect_iter (w : World) (i : nat) :
  emits (KSleep1 :: page_kinds) (wait_redirect_iter w i).
Proof. unfold wait_redirect_iter. emits_script. Qed.

#[export] Hint Resolve emits_wait_redirect_iter : emits.

Lemma emits_wait_redirect_loop (w : World) (remaining i : nat) :
  emits (KSleep1 :: page_kinds) (wait_redirect_loop w remaining i).
Proof.
  revert i. induction remaining as [| rest IH]; intros i; simpl.
  - emits_script.
  - emits_script.
Qed.

#[export] Hint Resolve emits_wait_redirect_loop : emits.

Lemma emits_wait_redirect (w : World) (max_wait : nat) :
  emits (KSleep1 :: page_kinds) (wait_redirect w max_wait).
Proof. unfold wait_redirect. emits_script. Qed.

Lemma emits_verify_login (w : World) :
  emits [KPrint; KRead; KCookies; KDump] (verify_login w).
Proof. unfold verify_login. emits_script. Qed.

Lemma emits_keepalive_visits (w : World) (pages : list (string * string)) :
  emits [KPrint; KNav; KRead; KSleep] (keepalive_visits w pages).
Proof.
  induction pages as [| [url name] rest IH]; simpl.
  - apply emits_ret.
  - emits_script.
Qed.

#[export] Hint Resolve emits_wait_redirect emits_verify_login emits_keepalive_visits : emits.

Lemma emits_keepalive (w : World) :
  emits [KPrint; KNav; KRead; KSleep; KShot] (keepalive w).
Proof. unfold keepalive. emits_script. Qed.

Lemma emits_send_message (w : World) (tg : TelegramNotifier) (message : string) :
  emits [KHttp; KPrint] (send_message w tg message).
Proof. unfold send_message. emits_script. Qed.

Lemma emits_send_photo (w : World) (tg : TelegramNotifier) (path caption : string) :
  emits [KFs; KHttp; KPrint] (send_photo w tg path caption).
Proof. unfold send_photo. emits_script. Qed.

Lemma emits_send_document (w : World) (tg : TelegramNotifier) (path caption : string) :
  emits [KFs; KHttp; KPrint] (send_document w tg path caption).
Proof. unfold send_document. emits_script. Qed.

#[export] Hint Resolve emits_keepalive emits_send_message emits_send_photo
  emits_send_document : emits.

Lemma emits_send_notification (w : World) (success : bool) (error_msg : string) :
  emits notify_kinds (send_notification w success error_msg).
Proof. unfold send_notification. emits_script. Qed.

Lemma emits_open_signin_page (w : World) :
  emits [KPrint; KNav; KSleep; KShot; KRead] (open_signin_page w).
Proof. unfold open_signin_page. emits_script. Qed.

#[export] Hint Resolve emits_send_notification emits_open_signin_page : emits.

(** ** Stepping through [bind] *)

Lemma bind_ok {A B} (m : M A) (k : A -> M B) (st s1 : St) (a : A) :
  m st = (Ok a, s1) -> bind m k st = k a s1.
Proof. intros H. unfold bind. now rewrite H. Qed.

Lemma bind_raise {A B} (m : M A) (k : A -> M B) (st s1 : St) (e : Exn) :
  m st = (Raise e, s1) -> bind m k st = (Raise e, s1).
Proof. intros H. unfold bind. now rewrite H. Qed.

Lemma emits_extends {A} (ks : list Kind) (m : M A) (st s1 : St) (r : Res A) :
  emits ks m -> m st = (r, s1) -> extends ks st s1.
Proof. intros H E. destruct (H st) as [X _]. now rewrite E in X. Qed.

Lemma emits_no_exit {A} (ks : list Kind) (m : M A) (st s1 : St) (c : Z) :
  emits ks m -> has_kind ks KExit = false -> m st <> (Raise (SystemExit c), s1).
Proof.
  intros H Hk E. destruct (H st) as [_ X]. rewrite E in X. simpl in X.
  rewrite X in Hk; [discriminate | reflexivity].
Qed.

Lemma extends_trace (ks : list Kind) (st s1 : St) :
  extends ks st s1 -> exists evs, trace s1 = (evs ++ trace st)%list /\ only ks evs = true.
Proof. intros [H _]. exact H. Qed.

Lemma only_forallb (ks : list Kind) (p : Event -> bool) (evs : list Event) :
  (forall e, has_kind ks (kind_of e) = true -> p e = true) ->
  only ks evs = true -> forallb p evs = true.
Proof.
  intros Hp. unfold only. rewrite !forallb_forall. intros H e He. auto.
Qed.

(** ** The notifier *)

Section NotifierFacts.

Variable w : World.

Lemma send_message_returns (tg : TelegramNotifier) (message : string) (st : St) :
  exists b s1, send_message w tg message st = (Ok b, s1).
Proof.
  unfold send_message. destruct (enabled tg); simpl; [| unfold ret; now eauto].
  unfold try_except, bind, requests_post, call, print, emit, ret; simpl.
  destruct (w_http_post w (tick st) _); simpl; eauto.
Qed.

Lemma send_photo_returns (tg : TelegramNotifier) (path caption : string) (st : St) :
  exists b s1, send_photo w tg path caption st = (Ok b, s1).
Proof.
  unfold send_photo. destruct (enabled tg); simpl; [| unfold ret; now eauto].
  unfold try_except, bind, path_exists, open_rb, requests_post, call, print, emit, ret; simpl.
  destruct (w_path_exists w (tick st) path); simpl; [| now eauto].
  destruct (w_open w (S (tick st)) path); simpl; [| now eauto].
  destruct (w_http_post w (S (S (tick st))) _); simpl; eauto.
Qed.

Lemma send_photos_return (tg : TelegramNotifier) (caption : string -> string)
      (paths : list string) (st : St) :
  exists s1,
    for_each paths (fun s => send_photo w tg s (caption s) ;; ret tt) st = (Ok tt, s1).
Proof.
  revert st. induction paths as [| p rest IH]; intros st; simpl.
  - unfold ret. eauto.
  - destruct (send_photo_returns tg p (caption p) st) as [b [s1 E]].
    unfold bind at 1. unfold bind at 1. rewrite E. unfold ret at 1. apply IH.
Qed.

Lemma send_notification_returns (success : bool) (error_msg : string) (st : St) :
  exists s1, send_notification w success error_msg st = (Ok tt, s1).
Proof.
  unfold send_notification.
  unfold bind at 1, emit. unfold bind at 1, get_self. cbn [self].
  destruct (enabled (telegram (self st))); cbn [negb]; [| unfold ret; now eauto].
  unfold bind at 1, strftime, call. cbn [res_of_answer].
  match goal with
  | |- context [send_message w ?tg ?m] =>
      match goal with
      | |- exists s1, bind _ _ ?s = _ =>
          destruct (send_message_returns tg m s) as [b [s1 E]]
      end
  end.
  erewrite bind_ok by exact E.
  destruct (screenshots (self st)) as [| x rest] eqn:Hs; [unfold ret; now eauto |].
  match goal with
  | |- context [send_photo w ?tg ?p ?c] =>
      destruct (send_photo_returns tg p c s1) as [b2 [s2 E2]]
  end.
  erewrite bind_ok by exact E2.
  destruct (negb success && (1 <? length (x :: rest))%nat);
    [apply send_photos_return with (caption := fun s => "调试截图: " ++ s)
    | unfold ret; eauto].
Qed.

(** The state [send_notification] is called in is left behind untouched
    but for the trace and the tick. *)
Lemma send_notification_marks (success : bool) (error_msg : string) (st : St) :
  notify_flags (trace (snd (send_notification w success error_msg st)))
  = success :: notify_flags (trace st).
Proof.
  unfold send_notification. unfold bind at 1, emit.
  set (st1 := {| self := self st; tick := tick st;
                 trace := EvNotify success error_msg :: trace st |}).
  set (rest := bind get_self _).
  assert (Hr : emits [KTime; KHttp; KFs; KPrint] rest).
  { subst rest. emits_script. }
  destruct (Hr st1) as [[[evs [T O]] _] _]. rewrite T.
  clear - O. induction evs as [| e evs IH]; simpl in *.
  - reflexivity.
  - apply andb_prop in O. destruct O as [Oe O].
    destruct e; simpl in Oe; try discriminate; auto.
Qed.

End NotifierFacts.

(** C8 — Without [TG_BOT_TOKEN] (or without [TG_CHAT_ID]) the notifier is
    built disabled and says so, and [send_message], [send_photo] and
    [send_document] each return [False] at once: the state, and with it
    the trace of outbound calls, is left exactly as it was. *)
Theorem notifier_disabled_when_unconfigured (w : World) :
  environ w "TG_BOT_TOKEN" = None \/ environ w "TG_CHAT_ID" = None ->
  enabled (fst (TelegramNotifier_init w)) = false
  /\ snd (TelegramNotifier_init w) = [EvPrint "⚠️ Telegram 通知未配置，跳过通知功能"]
  /\ forall (st : St) (message path caption : string),
       send_message w (fst (TelegramNotifier_init w)) message st = (Ok false, st)
       /\ send_photo w (fst (TelegramNotifier_init w)) path caption st = (Ok false, st)
       /\ send_document w (fst (TelegramNotifier_init w)) path caption st = (Ok false, st).
Proof.
  intros H.
  assert (En : Py.truthy_opt (environ w "TG_BOT_TOKEN")
               && Py.truthy_opt (environ w "TG_CHAT_ID") = false).
  { destruct H as [H | H]; rewrite H; simpl; [reflexivity | apply andb_false_r]. }
  unfold TelegramNotifier_init, send_message, send_photo, send_document.
  cbn [fst snd enabled]. rewrite En. cbn [negb].
  repeat split.
Qed.

Lemma notifier_disabled_witness :
  enabled (fst (TelegramNotifier_init world_no_telegram)) = false.
Proof.
  exact (proj1 (notifier_disabled_when_unconfigured world_no_telegram
                  (or_introl eq_refl))).
Defined.

(** ** Credential validation *)

Lemma validate_credentials_spec (st : St) :
  exists s1,
    validate_credentials st
    = (Ok (Py.truthy_opt (username (self st)) && Py.truthy_opt (token (self st))), s1).
Proof.
  unfold validate_credentials. unfold bind at 1, get_self.
  destruct (Py.truthy_opt (username (self st))); cbn [negb andb].
  - destruct (Py.truthy_opt (token (self st))); cbn [negb];
      unfold bind, log, print, emit, get_self, set_self, ret; simpl; eauto.
  - unfold bind, log, print, emit, get_self, set_self, ret; simpl; eauto.
Qed.

Lemma non_browser_kinds (ks : list Kind) (evs : list Event) :
  forallb (fun k => negb (has_kind browser_kinds k)) ks = true ->
  only ks evs = true ->
  forallb (fun e => negb (is_browser_event e)) evs = true.
Proof.
  intros Hks. apply only_forallb. intros e He.
  rewrite forallb_forall in Hks. unfold is_browser_event.
  apply Hks. now apply has_kind_In.
Qed.

(** The state after the three lines of the banner are printed. *)
Lemma banner_printed_trace (st : St) :
  trace (banner_printed st)
  = EvPrint (banner ++ Py.newline) :: EvPrint "🚀 ClawCloud 自动登录脚本"
      :: EvPrint (Py.newline ++ banner) :: trace st
  /\ self (banner_printed st) = self st /\ tick (banner_printed st) = tick st.
Proof. repeat split. Qed.

Lemma run_prologue_unfold (w : World) (st : St) :
  run_prologue w st
  = (valid <- validate_credentials ;;
     (if negb valid then
        send_notification w false "凭据未配置" ;; sys_exit 1
      else ret tt) ;;
     call EvLaunch (w_launch w) ;;
     call EvNewContext (w_new_context w) ;;
     call EvNewPage (w_new_page w) ;;
     ret tt) (banner_printed st).
Proof. reflexivity. Qed.

(** Missing credentials: the prologue reports and leaves. *)
Lemma run_prologue_invalid (w : World) (st : St) :
  Py.truthy_opt (username (self st)) && Py.truthy_opt (token (self st)) = false ->
  exists s1 s2,
    validate_credentials (banner_printed st) = (Ok false, s1)
    /\ send_notification w false "凭据未配置" s1 = (Ok tt, s2)
    /\ run_prologue w st = (Raise (SystemExit 1), s2).
Proof.
  intros Hcred. rewrite run_prologue_unfold.
  destruct (validate_credentials_spec (banner_printed st)) as [s1 V].
  cbn [banner_printed self] in V. rewrite Hcred in V.
  destruct (send_notification_returns w false "凭据未配置" s1) as [s2 N].
  exists s1, s2. repeat split; try assumption.
  rewrite (bind_ok _ _ _ _ _ V). cbn [negb].
  erewrite bind_raise; [reflexivity |].
  rewrite (bind_ok _ _ _ _ _ N). reflexivity.
Qed.

(** Credentials present: the prologue goes on to start the browser. *)
Lemma run_prologue_valid (w : World) (st : St) :
  Py.truthy_opt (username (self st)) && Py.truthy_opt (token (self st)) = true ->
  exists s1,
    validate_credentials (banner_printed st) = (Ok true, s1)
    /\ run_prologue w st
       = (call EvLaunch (w_launch w) ;;
          call EvNewContext (w_new_context w) ;;
          call EvNewPage (w_new_page w) ;;
          ret tt) s1.
Proof.
  intros Hcred. rewrite run_prologue_unfold.
  destruct (validate_credentials_spec (banner_printed st)) as [s1 V].
  cbn [banner_printed self] in V. rewrite Hcred in V.
  exists s1. split; [assumption |].
  rewrite (bind_ok _ _ _ _ _ V). cbn [negb].
  erewrite bind_ok; reflexivity.
Qed.

(** C3 — Whenever [GH_USERNAME] or [GH_PAT] (or both) is missing from the
    environment, the run ends with [sys.exit(1)], exit status 1, and no
    event of the whole trace touches the browser: the browser is never
    launched. *)
Theorem missing_credentials_exit_before_browser (w : World) :
  environ w "GH_USERNAME" = None \/ environ w "GH_PAT" = None ->
  fst (main w) = Raise (SystemExit 1)
  /\ exit_status (fst (main w)) = 1%Z
  /\ forallb (fun e => negb (is_browser_event e)) (trace (snd (main w))) = true.
Proof.
  intros H. unfold main.
  set (st0 := initial_state w).
  assert (Hcred : Py.truthy_opt (username (self st0))
                  && Py.truthy_opt (token (self st0)) = false).
  { subst st0. unfold initial_state, AutoLogin_init.
    destruct (TelegramNotifier_init w) as [tg printed]. cbn [self username token].
    destruct H as [H | H]; rewrite H; simpl; [reflexivity | apply andb_false_r]. }
  assert (Htr0 : forallb (fun e => negb (is_browser_event e)) (trace st0) = true).
  { subst st0. unfold initial_state, AutoLogin_init, TelegramNotifier_init.
    cbn [trace]. destruct (negb _); reflexivity. }
  assert (Hrun : exists s2,
             run w st0 = (Raise (SystemExit 1), s2)
             /\ forallb (fun e => negb (is_browser_event e)) (trace s2) = true).
  { destruct (run_prologue_invalid w st0 Hcred) as [s1 [s2 [V [N E]]]].
    exists s2. split; [unfold run; now rewrite (bind_raise _ _ _ _ _ E) |].
    pose proof (emits_extends _ _ _ _ _ emits_validate_credentials V) as X1.
    pose proof (emits_extends _ _ _ _ _ (emits_send_notification w _ _) N) as X2.
    apply extends_trace in X1. apply extends_trace in X2.
    destruct X1 as [e1 [T1 O1]]. destruct X2 as [e2 [T2 O2]].
    rewrite T2, T1. cbn [trace snd banner_printed]. rewrite !forallb_app.
    rewrite (non_browser_kinds [KPrint] e1 eq_refl O1).
    rewrite (non_browser_kinds notify_kinds e2 eq_refl O2).
    cbn [trace andb forallb]. rewrite Htr0. reflexivity. }
  destruct Hrun as [s2 [E T]]. rewrite E. cbn [fst snd exit_status].
  repeat split. exact T.
Qed.

Lemma missing_credentials_witness :
  fst (main world_no_credentials) = Raise (SystemExit 1).
Proof.
  exact (proj1 (missing_credentials_exit_before_browser world_no_credentials
                  (or_introl eq_refl))).
Defined.

(** ** The redirect waiter *)

Lemma count_sleep1_only (ks : list Kind) (evs tr : list Event) :
  has_kind ks KSleep1 = false -> only ks evs = true ->
  count_sleep1 (evs ++ tr) = count_sleep1 tr.
Proof.
  intros Hk. induction evs as [| e evs IH]; simpl; intros O.
  - reflexivity.
  - apply andb_prop in O. destruct O as [Oe O]. specialize (IH O).
    destruct e; try exact IH.
    destruct seconds as [| [| n]]; try exact IH.
    simpl in Oe. rewrite Oe in Hk. discriminate.
Qed.

Section RedirectWaiter.

Variable w : World.

(** What one turn of the loop does, by the URL it polls. *)
Lemma wait_redirect_iter_cases (i : nat) (s : St) :
  (redirected (polled_url w s) = true
   /\ exists s', wait_redirect_iter w i s = (Ok (Some true), s'))
  \/ (redirected (polled_url w s) = false
      /\ (10 <? i)%nat && on_github_login (polled_url w s) = true
      /\ exists s', wait_redirect_iter w i s = (Ok (Some false), s'))
  \/ (redirected (polled_url w s) = false
      /\ (10 <? i)%nat && on_github_login (polled_url w s) = false
      /\ ((exists s', wait_redirect_iter w i s = (Ok None, s')
                      /\ count_sleep1 (trace s') = S (count_sleep1 (trace s)))
          \/ (exists msg s', wait_redirect_iter w i s = (Raise (Exception msg), s')))).
Proof.
  unfold polled_url.
  remember (wait_redirect_iter w i s) as res eqn:E0.
  unfold wait_redirect_iter in E0.
  unfold bind at 1, page_url, call in E0. cbn [res_of_answer] in E0.
  set (u := w_url w (tick s)) in *.
  set (s1 := {| self := self s; tick := S (tick s); trace := EvUrl :: trace s |}) in *.
  destruct (redirected u) eqn:R.
  { left. split; [reflexivity |]. subst res.
    unfold bind, log, print, emit, get_self, set_self, ret. simpl.
    eexists; reflexivity. }
  right. destruct ((10 <? i)%nat && on_github_login u) eqn:G.
  { left. repeat split. subst res.
    unfold bind, log, print, emit, get_self, set_self, ret. simpl.
    eexists; reflexivity. }
  right. repeat split.
  assert (Tail : forall s2,
             count_sleep1 (trace s2) = count_sleep1 (trace s) ->
             exists s',
               (sleep 1 ;;
                (if (i mod 5 =? 0)%nat
                 then log ("  等待中... (" ++ Py.str_nat i ++ "秒)") INFO
                 else ret tt) ;;
                ret None) s2 = (Ok (@None bool), s')
               /\ count_sleep1 (trace s') = S (count_sleep1 (trace s))).
  { intros s2 C. destruct (i mod 5 =? 0)%nat;
      unfold bind, sleep, log, print, emit, get_self, set_self, ret; simpl;
      eexists; (split; [reflexivity |]); simpl; now rewrite C. }
  subst res. destruct (Py.contains "github.com/login/oauth/authorize" u).
  - destruct (handle_oauth w s1) as [[b | [msg | c]] s2] eqn:H.
    + left.
      assert (H2 : (handle_oauth w ;; ret tt) s1 = (Ok tt, s2))
        by (unfold bind; rewrite H; reflexivity).
      rewrite (bind_ok _ _ _ _ _ H2). apply Tail.
      apply (emits_extends _ _ _ _ _ (emits_handle_oauth w)) in H.
      apply extends_trace in H. destruct H as [evs [T O]]. rewrite T.
      rewrite (count_sleep1_only page_kinds _ _ eq_refl O). reflexivity.
    + right.
      assert (H2 : (handle_oauth w ;; ret tt) s1 = (Raise (Exception msg), s2))
        by (unfold bind; rewrite H; reflexivity).
      rewrite (bind_raise _ _ _ _ _ H2). do 2 eexists; reflexivity.
    + exfalso.
      eapply (emits_no_exit _ _ _ _ _ (emits_handle_oauth w)); [reflexivity | exact H].
  - left. unfold bind at 1, ret at 1. apply Tail. reflexivity.
Qed.

Lemma reaches_le (i : nat) (s : St) (j : nat) (s' : St) :
  reaches w i s j s' -> i <= j.
Proof. induction 1; lia. Qed.

Lemma reaches_inv (i : nat) (s : St) (j : nat) (s' : St) :
  reaches w i s j s' ->
  (i = j /\ s = s')
  \/ (exists s1, wait_redirect_iter w i s = (Ok None, s1) /\ reaches w (S i) s1 j s').
Proof. destruct 1; [left; auto | right; eauto]. Qed.

(** A turn that returns, or raises, is the last one reached. *)
Lemma reaches_stops (i : nat) (s : St) (j : nat) (s' : St) (r : Res (option bool)) (s1 : St) :
  reaches w i s j s' ->
  wait_redirect_iter w i s = (r, s1) -> r <> Ok None ->
  i = j /\ s = s'.
Proof.
  intros H E N. apply reaches_inv in H. destruct H as [H | [s2 [E2 _]]]; [exact H |].
  rewrite E in E2. congruence.
Qed.

Lemma wait_redirect_loop_true (n i : nat) (s : St) :
  fst (wait_redirect_loop w n i s) = Ok true
  <-> exists j sj, j < i + n /\ reaches w i s j sj
                   /\ redirected (polled_url w sj) = true.
Proof.
  revert i s. induction n as [| n IH]; intros i s.
  - simpl. split.
    + unfold bind, log, print, emit, get_self, set_self, ret. simpl. discriminate.
    + intros [j [sj [Hj [Hr _]]]]. apply reaches_le in Hr. lia.
  - cbn [wait_redirect_loop]. unfold bind at 1.
    destruct (wait_redirect_iter_cases i s)
      as [[R [s1 E]] | [[R [G [s1 E]]] | [R [G [[s1 [E _]] | [msg [s1 E]]]]]]];
      rewrite E.
    + unfold ret. simpl. split; [| reflexivity].
      intros _. exists i, s. repeat split; [lia | constructor | exact R].
    + unfold ret. simpl. split; [discriminate |].
      intros [j [sj [Hj [Hr Hred]]]].
      destruct (reaches_stops _ _ _ _ _ _ Hr E) as [-> ->]; congruence.
    + rewrite IH. split.
      * intros [j [sj [Hj [Hr Hred]]]]. exists j, sj.
        repeat split; [lia | econstructor; eauto | exact Hred].
      * intros [j [sj [Hj [Hr Hred]]]].
        apply reaches_inv in Hr. destruct Hr as [[-> ->] | [s2 [E2 Hr]]]; [congruence |].
        rewrite E in E2. injection E2 as <-.
        exists j, sj. repeat split; [lia | exact Hr | exact Hred].
    + simpl. split; [discriminate |].
      intros [j [sj [Hj [Hr Hred]]]].
      destruct (reaches_stops _ _ _ _ _ _ Hr E) as [-> ->]; congruence.
Qed.

Lemma wait_redirect_loop_false (n i : nat) (s : St) :
  fst (wait_redirect_loop w n i s) = Ok false
  <-> (exists j sj, 10 < j < i + n /\ reaches w i s j sj
                    /\ redirected (polled_url w sj) = false
                    /\ on_github_login (polled_url w sj) = true)
      \/ (exists sj, reaches w i s (i + n) sj).
Proof.
  revert i s. induction n as [| n IH]; intros i s.
  - simpl. split.
    + intros _. right. exists s. rewrite Nat.add_0_r. constructor.
    + intros _. unfold bind, log, print, emit, get_self, set_self, ret. reflexivity.
  - cbn [wait_redirect_loop]. unfold bind at 1.
    destruct (wait_redirect_iter_cases i s)
      as [[R [s1 E]] | [[R [G [s1 E]]] | [R [G [[s1 [E _]] | [msg [s1 E]]]]]]];
      rewrite E.
    + unfold ret. simpl. split; [discriminate |].
      intros [[j [sj [Hj [Hr [Hred _]]]]] | [sj Hr]].
      * destruct (reaches_stops _ _ _ _ _ _ Hr E) as [-> ->]; congruence.
      * destruct (reaches_stops _ _ _ _ _ _ Hr E) as [Hi _]; [congruence | lia].
    + unfold ret. simpl. split; [| reflexivity].
      intros _. left. exists i, s. apply andb_prop in G. destruct G as [G1 G2].
      apply Nat.ltb_lt in G1. repeat split; [lia | lia | constructor | exact R | exact G2].
    + rewrite IH. split.
      * intros [[j [sj [Hj [Hr Hrest]]]] | [sj Hr]].
        -- left. exists j, sj. repeat split; try lia; [econstructor; eauto | apply Hrest ..].
        -- right. exists sj. econstructor; [exact E |].
           now replace (i + S n) with (S i + n) by lia.
      * intros [[j [sj [Hj [Hr [Hred Hgh]]]]] | [sj Hr]].
        -- apply reaches_inv in Hr. destruct Hr as [[-> ->] | [s2 [E2 Hr]]].
           ++ exfalso. destruct Hj as [Hj _]. apply Nat.ltb_lt in Hj.
              rewrite Hj, Hgh in G. discriminate.
           ++ rewrite E in E2. injection E2 as <-.
              left. exists j, sj. repeat split; try lia; assumption.
        -- apply reaches_inv in Hr. destruct Hr as [[Hi _] | [s2 [E2 Hr]]]; [lia |].
           rewrite E in E2. injection E2 as <-.
           right. exists sj. now replace (S i + n) with (i + S n) by lia.
    + simpl. split; [discriminate |].
      intros [[j [sj [Hj [Hr [Hred Hgh]]]]] | [sj Hr]].
      * destruct (reaches_stops _ _ _ _ _ _ Hr E) as [-> ->]; [congruence |].
        exfalso. destruct Hj as [Hj _]. apply Nat.ltb_lt in Hj.
        rewrite Hj, Hgh in G. discriminate.
      * destruct (reaches_stops _ _ _ _ _ _ Hr E) as [Hi _]; [congruence | lia].
Qed.

End RedirectWaiter.

Lemma wait_redirect_enters_loop (w : World) (max_wait : nat) (st : St) :
  wait_redirect w max_wait st = wait_redirect_loop w max_wait 0 (loop_start max_wait st).
Proof. reflexivity. Qed.

(** C1 (amended) — [wait_redirect] returns [True] exactly when, within the
    bound, the URL polled at the head of some turn it gets to contains
    "claw.cloud" and, lowercased, does not contain "signin".  It returns
    [False] exactly when either a turn [i > 10] that it gets to (before the
    bound) polls a URL on GitHub's login or session path -- it then
    returns at that turn, not after the full bound -- or all [max_wait]
    turns fall through.  Every turn that falls through sleeps one second
    exactly once, and the default bound is 45. *)
Theorem wait_redirect_outcome (w : World) (max_wait : nat) (st : St) :
  (fst (wait_redirect w max_wait st) = Ok true
   <-> exists i s, i < max_wait
                   /\ reaches w 0 (loop_start max_wait st) i s
                   /\ redirected (polled_url w s) = true)
  /\ (fst (wait_redirect w max_wait st) = Ok false
      <-> (exists i s, 10 < i < max_wait
                       /\ reaches w 0 (loop_start max_wait st) i s
                       /\ redirected (polled_url w s) = false
                       /\ on_github_login (polled_url w s) = true)
          \/ (exists s, reaches w 0 (loop_start max_wait st) max_wait s))
  /\ (forall i s s', wait_redirect_iter w i s = (Ok None, s') ->
        count_sleep1 (trace s') = S (count_sleep1 (trace s)))
  /\ max_wait_default = 45.
Proof.
  rewrite wait_redirect_enters_loop. repeat split.
  - apply (wait_redirect_loop_true w max_wait 0).
  - apply (wait_redirect_loop_true w max_wait 0).
  - apply (wait_redirect_loop_false w max_wait 0).
  - apply (wait_redirect_loop_false w max_wait 0).
  - intros i s s' E.
    destruct (wait_redirect_iter_cases w i s)
      as [[_ [s1 E1]] | [[_ [_ [s1 E1]]] | [_ [_ [[s1 [E1 C]] | [msg [s1 E1]]]]]]];
      rewrite E in E1; try discriminate.
    injection E1 as <-. exact C.
Qed.

Lemma wait_redirect_outcome_witness :
  fst (wait_redirect world_signed_in 45 (initial_state world_signed_in)) = Ok true.
Proof.
  apply (proj1 (wait_redirect_outcome world_signed_in 45 (initial_state world_signed_in))).
  exists 0, (loop_start 45 (initial_state world_signed_in)).
  repeat split; [lia | constructor].
Defined.

(** C1, as stated, fails: when the browser stays on GitHub's login page
    the waiter, called with the bound 45, returns [False] in its twelfth
    turn, after 11 one-second sleeps and 12 polls, not after 45 turns. *)
Lemma wait_redirect_fails_before_bound :
  fst (wait_redirect world_stuck_on_github 45 (initial_state world_stuck_on_github))
  = Ok false
  /\ count_sleep1
       (trace (snd (wait_redirect world_stuck_on_github 45
                      (initial_state world_stuck_on_github)))) = 11
  /\ tick (snd (wait_redirect world_stuck_on_github 45
                  (initial_state world_stuck_on_github))) = 12
  /\ count_sleep1
       (trace (snd (wait_redirect world_stuck_on_github 45
                      (initial_state world_stuck_on_github)))) <> 45.
Proof. repeat split; try (vm_compute; reflexivity). vm_compute. discriminate. Qed.

(** ** Verification and the cookie file *)

(** The cases of [verify_login] in which no write is attempted. *)
Ltac verify_login_no_write :=
  let N := fresh "N" in
  match goal with
  | |- _ /\ (_ -> _ /\ ?P) /\ _ =>
      assert (N : P)
        by (let V := fresh "V" in
            intros ? V; decompose [and ex] V; congruence)
  end;
  split; [discriminate |];
  split; [first [discriminate | intros _; split; [reflexivity | exact N]] |];
  split; [let He := fresh "He" in
          intros ? He;
          first [discriminate He | left; split; [reflexivity | exact N]] |];
  split; [discriminate |];
  let V := fresh "V" in
  intros [? [V _]]; exact (False_ind _ (N _ V)).

(** C2 -- [verify_login] writes [cookies.json] only when it returns
    [True], and what it writes is exactly the cookies of the browser
    context whose [domain] contains "claw".  The write is attempted only
    once every check has passed: the page is on "claw.cloud", off every
    signin/login path, and at least one cookie matches.  On each failure
    branch (wrong domain, a signin/login path, no matching cookie: the
    result is [False]) and when [page.title()] or [context.cookies()]
    raises, nothing is written.  [verify_login] returns [True] exactly
    when the checks pass and the write returns; a write that raises makes
    [verify_login] raise the same exception. *)
Theorem cookies_written_iff_verified (w : World) (st : St) :
  let verified cookies :=
    (exists title, w_title w (S (tick st)) = Returns title)
    /\ Py.contains "claw.cloud" (w_url w (tick st)) = true
    /\ Py.contains "signin" (Py.lower (w_url w (tick st))) = false
    /\ Py.contains "login" (Py.lower (w_url w (tick st))) = false
    /\ w_cookies w (S (S (tick st))) = Returns cookies
    /\ filter is_claw_cookie cookies <> [] in
  let write cookies :=
    w_json_dump w (S (S (S (tick st)))) "cookies.json" (filter is_claw_cookie cookies) in
  (fst (verify_login w st) = Ok true ->
   exists cookies,
     verified cookies
     /\ write cookies = Returns tt
     /\ dumps (trace (snd (verify_login w st)))
        = ("cookies.json", filter is_claw_cookie cookies) :: dumps (trace st))
  /\ (fst (verify_login w st) = Ok false ->
      dumps (trace (snd (verify_login w st))) = dumps (trace st)
      /\ forall cookies, ~ verified cookies)
  /\ (forall e,
        fst (verify_login w st) = Raise e ->
        (dumps (trace (snd (verify_login w st))) = dumps (trace st)
         /\ forall cookies, ~ verified cookies)
        \/ exists cookies msg,
             verified cookies
             /\ write cookies = Throws msg
             /\ e = Exception msg
             /\ dumps (trace (snd (verify_login w st)))
                = ("cookies.json", filter is_claw_cookie cookies) :: dumps (trace st))
  /\ (fst (verify_login w st) = Ok true
      <-> exists cookies, verified cookies /\ write cookies = Returns tt).
Proof.
  intros verified write. subst verified write. cbv beta.
  destruct (verify_login w st) as [r s'] eqn:E. cbn [fst snd].
  unfold verify_login, log, print, page_url, page_title, context_cookies, json_dump,
    call, emit, get_self, set_self, ret, bind in E.
  cbn [res_of_answer self tick trace] in E.
  destruct (w_title w (S (tick st))) as [title | msg] eqn:Ht; cbn [res_of_answer] in E.
  2: { injection E as <- <-. cbn [trace dumps]. verify_login_no_write. }
  cbn [self tick trace logs set_logs] in E.
  destruct (Py.contains "claw.cloud" (w_url w (tick st))) eqn:Hc; cbn [negb] in E.
  2: { injection E as <- <-. cbn [trace dumps]. verify_login_no_write. }
  destruct (Py.contains "signin" (Py.lower (w_url w (tick st)))) eqn:Hs; cbn [orb] in E.
  { injection E as <- <-. cbn [trace dumps]. verify_login_no_write. }
  destruct (Py.contains "login" (Py.lower (w_url w (tick st)))) eqn:Hl.
  { injection E as <- <-. cbn [trace dumps]. verify_login_no_write. }
  cbn [self tick trace] in E.
  destruct (w_cookies w (S (S (tick st)))) as [cookies | msg] eqn:Hk;
    cbn [res_of_answer] in E.
  2: { injection E as <- <-. cbn [trace dumps]. verify_login_no_write. }
  destruct (filter is_claw_cookie cookies) as [| c rest] eqn:Hf; cbn [length Nat.eqb] in E.
  { injection E as <- <-. cbn [trace dumps]. verify_login_no_write. }
  cbn [self tick trace logs set_logs] in E.
  assert (V : (exists title0, Returns title = Returns title0)
              /\ true = true /\ false = false /\ false = false
              /\ Returns cookies = Returns cookies
              /\ filter is_claw_cookie cookies <> [])
    by (rewrite Hf; repeat split; try discriminate; now exists title).
  destruct (w_json_dump w (S (S (S (tick st)))) "cookies.json" (c :: rest))
    as [[] | msg] eqn:Hd; cbn [res_of_answer] in E; injection E as <- <-;
    cbn [trace dumps]; rewrite <- Hf in Hd |- *.
  - split; [intros _; exists cookies; auto |].
    split; [discriminate |]. split; [discriminate |].
    split; [intros _; exists cookies; auto | reflexivity].
  - split; [discriminate |]. split; [discriminate |].
    split.
    + intros e He. injection He as <-. right. exists cookies, msg. auto.
    + split; [discriminate |].
      intros [cookies' [[_ [_ [_ [_ [Hk' _]]]]] Hw]].
      injection Hk' as <-. rewrite Hd in Hw. discriminate.
Qed.

Lemma cookies_written_witness :
  dumps (trace (snd (verify_login world_signed_in (initial_state world_signed_in))))
  = [("cookies.json", [[("name", "sid"); ("domain", ".claw.cloud")]])].
Proof.
  destruct (proj1 (cookies_written_iff_verified world_signed_in
                     (initial_state world_signed_in)) eq_refl)
    as [cookies [[_ [_ [_ [_ [Hk _]]]]] [_ Hd]]].
  injection Hk as <-. exact Hd.
Defined.

(** ** The error banner *)

Lemma check_github_error_in_hit (w : World) (sel : string) (rest : list string)
      (st : St) (text : string) :
  w_is_visible w (tick st) sel = Returns true ->
  w_inner_text w (S (tick st)) sel = Returns text ->
  fst (check_github_error_in w (sel :: rest) st) = Ok (Some text).
Proof.
  intros Hv Ht. cbn [check_github_error_in].
  unfold try_except_all, is_visible, inner_text, call, ret, bind.
  cbn [tick]. rewrite Hv. cbn [res_of_answer tick]. rewrite Ht. reflexivity.
Qed.

Lemma check_github_error_in_miss (w : World) (sel : string) (rest : list string) (st : St) :
  w_is_visible w (tick st) sel <> Returns true ->
  check_github_error_in w (sel :: rest) st
  = check_github_error_in w rest (snd (is_visible w sel 1000%Z st)).
Proof.
  intros Hv. cbn [check_github_error_in].
  unfold try_except_all, is_visible, inner_text, call, ret, bind.
  cbn [tick snd].
  destruct (w_is_visible w (tick st) sel) as [[|] | msg]; cbn [res_of_answer];
    [congruence | reflexivity | reflexivity].
Qed.

(** Rewrite with the answer of one call and go on to the next. *)
Ltac answered H :=
  rewrite H;
  cbn [res_of_answer negb tick self trace username token logs screenshots
       screenshot_count telegram debug set_logs set_screenshots set_screenshot_count].

(** With the form gone through, [login_github] is at its checks. *)
Lemma login_github_after_form (w : World) (st : St) (u p : string) :
  form_goes_through w st u p ->
  login_github w st
  = login_github_checks w (w_url w (7 + tick st))
      (form_submitted u p (w_url w (7 + tick st)) st).
Proof.
  intros [Hu [Hp [H1 [H2 [H3 [H4 [H5 [H6 H7]]]]]]]].
  unfold form_submitted. cbv zeta. unfold shot_file in *. cbn [Nat.add] in *.
  unfold login_github, screenshot, credential.
  cbv [try_except bind call log print sleep emit get_self set_self ret raise
       page_url wait_for_load_state page_screenshot click fill].
  cbn [tick self trace res_of_answer screenshot_count set_screenshot_count
       set_logs set_screenshots username token logs screenshots].
  answered H1. answered Hu. answered H2. answered Hp. answered H3. answered H4.
  answered H5. answered H6. answered H7.
  repeat rewrite <- app_assoc. reflexivity.
Qed.

(** C6 -- The error-banner check tries its selectors in the order
    [.flash-error], [.flash.flash-error], [#js-flash-container .flash-error]
    and returns the text of the first visible one; a selector that is not
    visible is passed over.  When the form of [login_github] has gone
    through and the check, made in the state the form left, returns a
    text (a non-empty one, as Python's [if error:] asks), [login_github]
    logs the error and returns [False] at once: its final state is the
    state left by the check plus that one log line, so neither the
    device-verification, nor the two-factor, nor the login-page check is
    attempted.  With the first selector visible, the run of
    [login_github] ends with [is_visible], [inner_text] and the log
    line. *)
Theorem error_banner_fails_login (w : World) :
  error_selectors = [".flash-error"; ".flash.flash-error"; "#js-flash-container .flash-error"]
  /\ (forall sel rest st text,
         w_is_visible w (tick st) sel = Returns true ->
         w_inner_text w (S (tick st)) sel = Returns text ->
         fst (check_github_error_in w (sel :: rest) st) = Ok (Some text))
  /\ (forall sel rest st,
         w_is_visible w (tick st) sel <> Returns true ->
         check_github_error_in w (sel :: rest) st
         = check_github_error_in w rest (snd (is_visible w sel 1000%Z st)))
  /\ (forall st u p text s1,
         form_goes_through w st u p ->
         check_github_error w (form_submitted u p (w_url w (7 + tick st)) st)
         = (Ok (Some text), s1) ->
         text <> EmptyString ->
         login_github w st
         = (Ok false, snd (log ("GitHub 错误: " ++ text) ERROR s1))
         /\ trace (snd (log ("GitHub 错误: " ++ text) ERROR s1))
            = EvPrint (log_line ("GitHub 错误: " ++ text) ERROR) :: trace s1
         /\ tick (snd (log ("GitHub 错误: " ++ text) ERROR s1)) = tick s1)
  /\ (forall st u p text,
         form_goes_through w st u p ->
         w_is_visible w (8 + tick st) ".flash-error" = Returns true ->
         w_inner_text w (9 + tick st) ".flash-error" = Returns text ->
         text <> EmptyString ->
         exists s',
           login_github w st = (Ok false, s')
           /\ trace s'
              = EvPrint (log_line ("GitHub 错误: " ++ text) ERROR)
                  :: EvInnerText ".flash-error"
                  :: EvIsVisible ".flash-error" 1000%Z
                  :: trace (form_submitted u p (w_url w (7 + tick st)) st)
           /\ tick s' = 10 + tick st
           /\ logs (self s')
              = (logs (self (form_submitted u p (w_url w (7 + tick st)) st))
                   ++ [log_line ("GitHub 错误: " ++ text) ERROR])%list).
Proof.
  assert (K : forall st u p text s1,
             form_goes_through w st u p ->
             check_github_error w (form_submitted u p (w_url w (7 + tick st)) st)
             = (Ok (Some text), s1) ->
             text <> EmptyString ->
             login_github w st
             = (Ok false, snd (log ("GitHub 错误: " ++ text) ERROR s1))).
  { intros st u p text s1 F E Hne.
    rewrite (login_github_after_form w st u p F).
    unfold login_github_checks. rewrite (bind_ok _ _ _ _ _ E).
    destruct text as [| c text]; [congruence |].
    cbn [Py.truthy_opt Py.truthy Py.fmt_opt].
    unfold bind, log, print, emit, get_self, set_self, ret. reflexivity. }
  split; [reflexivity |].
  split; [intros; now apply check_github_error_in_hit |].
  split; [intros; now apply check_github_error_in_miss |].
  split.
  - intros st u p text s1 F E Hne.
    split; [now apply (K st u p) | split; reflexivity].
  - intros st u p text F Hv Ht Hne.
    set (s0 := form_submitted u p (w_url w (7 + tick st)) st).
    assert (E : check_github_error w s0
                = (Ok (Some text),
                   {| self := self s0; tick := 10 + tick st;
                      trace := EvInnerText ".flash-error"
                                 :: EvIsVisible ".flash-error" 1000%Z :: trace s0 |})).
    { unfold check_github_error, error_selectors. cbn [check_github_error_in].
      unfold try_except_all, is_visible, inner_text, call, ret, bind.
      change (tick s0) with (8 + tick st). rewrite Hv. cbn [res_of_answer tick].
      change (S (8 + tick st)) with (9 + tick st). rewrite Ht. reflexivity. }
    eexists. split; [exact (K st u p text _ F E Hne) |].
    split; [reflexivity | split; reflexivity].
Qed.

Lemma error_banner_witness :
  fst (login_github world_error_banner (initial_state world_error_banner)) = Ok false.
Proof.
  destruct (error_banner_fails_login world_error_banner) as [_ [_ [_ [_ H]]]].
  destruct (H (initial_state world_error_banner) "alice" "ghp_secret1234"
              "Incorrect username or password.")
    as [s' [E _]].
  - repeat split; reflexivity.
  - reflexivity.
  - reflexivity.
  - discriminate.
  - rewrite E. reflexivity.
Defined.

(** ** The [debug] flag is never consulted *)

Section BlindRules.

Context {A B : Type}.

Lemma blind_ret (a : A) : blind (ret a).
Proof. intros b st. reflexivity. Qed.

Lemma blind_raise (e : Exn) : blind (@raise A e).
Proof. intros b st. reflexivity. Qed.

Lemma blind_bind (m : M A) (k : A -> M B) :
  blind m -> (forall a, blind (k a)) -> blind (bind m k).
Proof.
  intros Hm Hk b st. unfold bind. rewrite Hm.
  destruct (m st) as [[a | e] s1]; cbn [fst snd]; [apply Hk | reflexivity].
Qed.

(** Reading [self] is harmless when what follows does not look at [debug]. *)
Lemma blind_get_self_bind (k : AutoLogin -> M B) :
  (forall a b st, k (set_debug b a) st = k a st) ->
  (forall a, blind (k a)) ->
  blind (bind get_self k).
Proof.
  intros Hd Hk b st. unfold bind, get_self. cbn [self st_set_debug].
  rewrite Hd. apply Hk.
Qed.

Lemma blind_call (ev : Event) (answer : nat -> Answer A) : blind (call ev answer).
Proof. intros b st. reflexivity. Qed.

Lemma blind_try_except (m : M A) (h : string -> M A) :
  blind m -> (forall e, blind (h e)) -> blind (try_except m h).
Proof.
  intros Hm Hh b st. unfold try_except. rewrite Hm.
  destruct (m st) as [[a | [msg | c]] s1]; cbn [fst snd]; [reflexivity | apply Hh | reflexivity].
Qed.

Lemma blind_try_except_all (m h : M A) :
  blind m -> blind h -> blind (try_except_all m h).
Proof.
  intros Hm Hh b st. unfold try_except_all. rewrite Hm.
  destruct (m st) as [[a | e] s1]; cbn [fst snd]; [reflexivity | apply Hh].
Qed.

Lemma blind_try_finally (m : M A) (f : M unit) :
  blind m -> blind f -> blind (try_finally m f).
Proof.
  intros Hm Hf b st. unfold try_finally. rewrite Hm.
  destruct (m st) as [r s1]; cbn [fst snd]. rewrite Hf.
  destruct (f s1) as [[u | e] s2]; reflexivity.
Qed.

End BlindRules.

Lemma blind_emit (ev : Event) : blind (emit ev).
Proof. intros b st. reflexivity. Qed.

Lemma blind_for_each {A} (l : list A) (f : A -> M unit) :
  (forall x, blind (f x)) -> blind (for_each l f).
Proof.
  intros Hf. induction l as [| x rest IH]; simpl.
  - apply blind_ret.
  - apply blind_bind; [apply Hf | intros _; exact IH].
Qed.

Lemma blind_log (message : string) (level : Level) : blind (log message level).
Proof. intros b st. reflexivity. Qed.

Lemma blind_screenshot (w : World) (name : string) : blind (screenshot w name).
Proof.
  intros b st.
  unfold screenshot, page_screenshot, call, log, print, emit, bind, get_self, set_self, ret.
  cbn [self tick trace st_set_debug set_debug set_screenshot_count screenshot_count].
  destruct (w_screenshot w (tick st) _) as [[] | msg]; reflexivity.
Qed.

Create HintDb blind discriminated.
#[export] Hint Resolve blind_log blind_screenshot : blind.

Ltac blind_step :=
  lazymatch goal with
  | |- blind (bind get_self _) =>
      apply blind_get_self_bind; [ intros; reflexivity | intros ? ]
  | |- blind (bind _ _) => apply blind_bind; [ | intros ? ]
  | |- blind (ret _) => apply blind_ret
  | |- blind (raise _) => apply blind_raise
  | |- blind (sys_exit _) => apply blind_raise
  | |- blind (call _ _) => apply blind_call
  | |- blind (emit _) => apply blind_emit
  | |- blind (try_except _ _) => apply blind_try_except; [ | intros ? ]
  | |- blind (try_except_all _ _) => apply blind_try_except_all
  | |- blind (try_finally _ _) => apply blind_try_finally
  | |- blind (for_each _ _) => apply blind_for_each; intros ?
  | |- blind (if ?b then _ else _) => destruct b
  | |- blind (match ?x with _ => _ end) => destruct x
  | |- blind _ => solve [ eauto with blind ]
  end.

Ltac blind_script := intros; unfold_calls; cbv zeta; repeat (blind_step; cbv zeta).

Lemma blind_validate_credentials : blind validate_credentials.
Proof. unfold validate_credentials. blind_script. Qed.

Lemma blind_find_and_click (w : World) (selectors : list string) (description : string) :
  blind (find_and_click w selectors description).
Proof.
  induction selectors as [| selector rest IH]; simpl.
  - apply blind_ret.
  - blind_script.
Qed.

Lemma blind_check_github_error (w : World) : blind (check_github_error w).
Proof.
  unfold check_github_error.
  induction error_selectors as [| selector rest IH]; simpl.
  - apply blind_ret.
  - blind_script.
Qed.

Lemma blind_check_device_verification (w : World) : blind (check_device_verification w).
Proof. unfold check_device_verification. blind_script. Qed.

Lemma blind_check_2fa (w : World) : blind (check_2fa w).
Proof. unfold check_2fa. blind_script. Qed.

#[export] Hint Resolve blind_validate_credentials blind_find_and_click
  blind_check_github_error blind_check_device_verification blind_check_2fa : blind.

Lemma blind_login_github_checks (w : World) (current_url : string) :
  blind (login_github_checks w current_url).
Proof. unfold login_github_checks. blind_script. Qed.

#[export] Hint Resolve blind_login_github_checks : blind.

Lemma blind_login_github (w : World) : blind (login_github w).
Proof. unfold login_github. blind_script. Qed.

Lemma blind_handle_oauth (w : World) : blind (handle_oauth w).
Proof. unfold handle_oauth. blind_script. Qed.

#[export] Hint Resolve blind_login_github blind_handle_oauth : blind.

Lemma blind_wait_redirect_loop (w : World) (remaining i : nat) :
  blind (wait_redirect_loop w remaining i).
Proof.
  revert i. induction remaining as [| rest IH]; intros i; simpl.
  - blind_script.
  - unfold wait_redirect_iter. blind_script.
Qed.

#[export] Hint Resolve blind_wait_redirect_loop : blind.

Lemma blind_wait_redirect (w : World) (max_wait : nat) : blind (wait_redirect w max_wait).
Proof. unfold wait_redirect. blind_script. Qed.

Lemma blind_verify_login (w : World) : blind (verify_login w).
Proof. unfold verify_login. blind_script. Qed.

Lemma blind_keepalive_visits (w : World) (pages : list (string * string)) :
  blind (keepalive_visits w pages).
Proof.
  induction pages as [| [url name] rest IH]; simpl.
  - apply blind_ret.
  - blind_script.
Qed.

#[export] Hint Resolve blind_wait_redirect blind_verify_login blind_keepalive_visits : blind.

Lemma blind_keepalive (w : World) : blind (keepalive w).
Proof. unfold keepalive. blind_script. Qed.

Lemma blind_send_message (w : World) (tg : TelegramNotifier) (message : string) :
  blind (send_message w tg message).
Proof. unfold send_message. blind_script. Qed.

Lemma blind_send_photo (w : World) (tg : TelegramNotifier) (path caption : string) :
  blind (send_photo w tg path caption).
Proof. unfold send_photo. blind_script. Qed.

#[export] Hint Resolve blind_keepalive blind_send_message blind_send_photo : blind.

Lemma blind_send_notification (w : World) (success : bool) (error_msg : string) :
  blind (send_notification w success error_msg).
Proof. unfold send_notification. blind_script. Qed.

#[export] Hint Resolve blind_send_notification : blind.

Lemma blind_run (w : World) : blind (run w).
Proof.
  unfold run, run_prologue, browser_session, run_session, run_on_exception,
    open_signin_page, run_already_logged_in, run_login_flow, run_login_steps,
    run_keepalive_and_report.
  blind_script.
Qed.

Lemma run_ignores_environ (w : World) (env : string -> option string) (st : St) :
  run (with_environ env w) st = run w st.
Proof. reflexivity. Qed.

Lemma initial_state_debug_mode (w : World) (v : option string) :
  exists b,
    initial_state (with_environ (setenv "DEBUG_MODE" v (environ w)) w)
    = st_set_debug b (initial_state w).
Proof.
  unfold initial_state, AutoLogin_init, TelegramNotifier_init.
  cbn [environ with_environ]. unfold setenv. cbn [String.eqb Ascii.eqb Bool.eqb].
  eexists. unfold st_set_debug, set_debug. cbn [self tick trace username token debug
    screenshot_count screenshots telegram logs]. reflexivity.
Qed.

Lemma main_debug_mode (w : World) (v : option string) :
  observable (main (with_environ (setenv "DEBUG_MODE" v (environ w)) w))
  = observable (main w).
Proof.
  unfold main. destruct (initial_state_debug_mode w v) as [b E]. rewrite E.
  rewrite run_ignores_environ. rewrite blind_run. reflexivity.
Qed.

(** C10 — Two runs in the same world that differ only in the value of
    [DEBUG_MODE] (set to anything, or unset) show the same behaviour: the
    same exit status, the same trace of output, browser calls, files and
    notifications, the same log lines and the same screenshots.  The flag
    is stored in [self.debug] and no operation reads it. *)
Theorem debug_mode_unobservable (w : World) (v1 v2 : option string) :
  observable (main (with_environ (setenv "DEBUG_MODE" v1 (environ w)) w))
  = observable (main (with_environ (setenv "DEBUG_MODE" v2 (environ w)) w)).
Proof. now rewrite !main_debug_mode. Qed.

(** ** Stepping through the script *)

Lemma extends_flags (ks : list Kind) (st s' : St) :
  has_kind ks KNotify = false -> extends ks st s' ->
  notify_flags (trace s') = notify_flags (trace st).
Proof.
  intros Hk [[evs [T O]] _]. rewrite T. clear T.
  induction evs as [| e evs IH]; simpl in *; [reflexivity |].
  apply andb_prop in O. destruct O as [Oe O]. specialize (IH O).
  destruct e; try exact IH. simpl in Oe. rewrite Oe in Hk. discriminate.
Qed.

Lemma error_added_after (ks : list Kind) (st s1 s2 : St) :
  error_added st s1 -> extends ks s1 s2 -> error_added st s2.
Proof.
  intros [pre [m [post L]]] [_ [[ls L2] _]].
  exists pre, m, (post ++ ls)%list. rewrite L2, L.
  now rewrite <- !app_assoc.
Qed.

Lemma error_added_before (ks : list Kind) (st s1 s2 : St) :
  extends ks st s1 -> error_added s1 s2 -> error_added st s2.
Proof.
  intros [_ [[ls L1] _]] [pre [m [post L]]].
  exists (ls ++ pre)%list, m, post. rewrite L, L1.
  now rewrite <- !app_assoc.
Qed.

Lemma log_error_added (message : string) (s s1 : St) (r : Res unit) :
  log message ERROR s = (r, s1) -> error_added s s1.
Proof.
  intros H. unfold log, print, emit, bind, get_self, set_self in H. cbn in H.
  injection H as Hr Hs. subst s1. exists [], message, []. reflexivity.
Qed.

Lemma log_returns (message : string) (level : Level) (s : St) :
  exists s1, log message level s = (Ok tt, s1).
Proof. eexists. reflexivity. Qed.

(** [H : m s = (_, s1)] gives [extends quiet_kinds s s1] when [m] is quiet. *)
Ltac quiet_of H N :=
  match type of H with
  | ?m ?s = (_, ?s1) =>
      assert (N : extends quiet_kinds s s1)
        by (eapply emits_extends; [ | exact H ]; emits_script)
  end.

(** Carry what is known between [st0] and [s] over to [s1]. *)
Ltac carry st0 s s1 N :=
  try match goal with
      | A : extends quiet_kinds st0 s |- _ =>
          pose proof (extends_trans _ _ _ _ A N)
      end;
  try match goal with
      | Er : error_added st0 s |- _ =>
          pose proof (error_added_after _ _ _ _ Er N)
      end.

Ltac note_error st0 s H :=
  match type of H with
  | log _ ERROR _ = _ =>
      match goal with
      | A : extends quiet_kinds st0 s |- _ =>
          pose proof (error_added_before _ _ _ _ A (log_error_added _ _ _ _ H))
      end
  end.

(** One step of symbolic execution of the equation [E], which describes
    a run from the state [st0] on. *)
Ltac sym_step E st0 :=
  lazymatch type of E with
  | bind ?m ?k ?s = _ =>
      let H := fresh "H" in
      let N := fresh "N" in
      let s1 := fresh "s" in
      destruct (m s) as [[? | ?] s1] eqn:H;
      [ rewrite (bind_ok _ _ _ _ _ H) in E | rewrite (bind_raise _ _ _ _ _ H) in E ];
      cbv beta in E;
      try (quiet_of H N; carry st0 s s1 N);
      try note_error st0 s H
  | (if ?b then _ else _) _ = _ => destruct b eqn:?
  | ret _ _ = _ => unfold ret in E
  end.

Ltac sym_init st0 := pose proof (extends_refl quiet_kinds st0).

Ltac sym E st0 := repeat (sym_step E st0; try discriminate E).

Lemma verify_login_false_logged (w : World) (st s' : St) :
  verify_login w st = (Ok false, s') -> error_added st s'.
Proof.
  intros E. unfold verify_login in E. sym_init st. sym E st;
    inversion E; subst; assumption.
Qed.

Ltac sym_match E :=
  lazymatch type of E with
  | (match ?x with _ => _ end) _ = _ => destruct x eqn:?
  end.

(** A [try] block that answers [False] only from its handler, which logs
    an error: told of [H : try_except body h s = (Ok false, s1)], leave
    [error_added s s1] in the context. *)
Ltac handler_logged H s s1 :=
  let B := fresh "B" in
  let s2 := fresh "s" in
  let N := fresh "N" in
  unfold try_except in H;
  match type of H with
  | match ?body s with _ => _ end = _ =>
      destruct (body s) as [[[|] | [? | ?]] s2] eqn:B;
      [ discriminate H
      | exfalso; sym_init s; sym B s
      | quiet_of B N; cbv beta in H; sym_init s2; sym H s2;
        match goal with
        | Er : error_added s2 _ |- _ =>
            pose proof (error_added_before _ _ _ _ N Er)
        end;
        inversion H; subst
      | discriminate H ]
  end.

Ltac close_error :=
  match goal with
  | Er : error_added ?st ?y |- error_added ?st ?y => exact Er
  | Er : error_added ?x ?y, A : extends _ ?st ?x |- error_added ?st ?y =>
      exact (error_added_before _ _ _ _ A Er)
  end.

Lemma login_github_checks_false_logged (w : World) (url : string) (st s' : St) :
  login_github_checks w url st = (Ok false, s') -> error_added st s'.
Proof.
  intros E. unfold login_github_checks in E. sym_init st. sym E st;
    inversion E; subst; assumption.
Qed.

Lemma login_github_false_logged (w : World) (st s' : St) :
  login_github w st = (Ok false, s') -> error_added st s'.
Proof.
  intros E. unfold login_github in E. sym_init st.
  do 3 (sym_step E st; try discriminate E).
  sym_step E st.
  { inversion E; subst.
    match goal with
    | Hb : negb ?b = true, Ht : try_except _ _ ?s = (Ok ?b, ?s1) |- _ =>
        destruct b; [discriminate Hb |]; handler_logged Ht s s1
    end.
    close_error. }
  do 2 (sym_step E st; try discriminate E).
  sym_step E st.
  { inversion E; subst.
    match goal with
    | Hb : negb ?b = true, Ht : try_except _ _ ?s = (Ok ?b, ?s1) |- _ =>
        destruct b; [discriminate Hb |]; handler_logged Ht s s1
    end.
    close_error. }
  do 5 (sym_step E st; try discriminate E).
  match goal with
  | A : extends _ st ?x |- _ =>
      apply (error_added_before _ _ _ _ A);
      now apply (login_github_checks_false_logged w _ _ _ E)
  end.
Qed.

Lemma wait_redirect_iter_false_logged (w : World) (i : nat) (st s' : St) :
  wait_redirect_iter w i st = (Ok (Some false), s') -> error_added st s'.
Proof.
  intros E. unfold wait_redirect_iter in E. sym_init st. sym E st;
    inversion E; subst; assumption.
Qed.

Lemma wait_redirect_loop_false_logged (w : World) (n i : nat) (st s' : St) :
  wait_redirect_loop w n i st = (Ok false, s') -> error_added st s'.
Proof.
  revert i st. induction n as [| n IH]; intros i st E; cbn [wait_redirect_loop] in E.
  - sym_init st. sym E st. inversion E; subst; assumption.
  - sym_init st. sym_step E st; [| discriminate E].
    match goal with
    | H : wait_redirect_iter w i st = (Ok ?r, ?s1) |- _ => destruct r as [[|] |]
    end.
    + discriminate E.
    + inversion E; subst. eapply wait_redirect_iter_false_logged; eassumption.
    + apply IH in E. close_error.
Qed.

Lemma wait_redirect_false_logged (w : World) (max_wait : nat) (st s' : St) :
  wait_redirect w max_wait st = (Ok false, s') -> error_added st s'.
Proof.
  intros E. unfold wait_redirect in E. sym_init st. sym_step E st; [| discriminate E].
  apply wait_redirect_loop_false_logged in E. close_error.
Qed.

(** ** The run, path by path *)

Lemma bind_assoc {A B C} (m : M A) (f : A -> M B) (k : B -> M C) (s : St) :
  bind (bind m f) k s = bind m (fun a => bind (f a) k) s.
Proof. unfold bind. destruct (m s) as [[a | e] s1]; reflexivity. Qed.

Lemma bind_ret_r {A} (m : M A) (s : St) : bind m (fun a => ret a) s = m s.
Proof. unfold bind, ret. destruct (m s) as [[a | e] s1]; reflexivity. Qed.

Lemma validate_credentials_false_logged (st s' : St) :
  validate_credentials st = (Ok false, s') -> error_added st s'.
Proof.
  intros E. unfold validate_credentials in E. sym_init st. sym E st;
    inversion E; subst; assumption.
Qed.

(** Propagate every [extends K _ s] along [N : extends K s s1]. *)
Ltac carry_from K s s1 N :=
  repeat match goal with
         | A : extends K ?a s |- _ =>
             tryif (match goal with
                    | X : extends K a s1 |- _ =>
                        tryif constr_eq X N then fail else idtac
                    end)
             then fail
             else pose proof (extends_trans _ _ _ _ A N)
         end.

Ltac carry_errors s s1 N :=
  repeat match goal with
         | Er : error_added ?a s |- _ =>
             lazymatch goal with
             | _ : error_added a s1 |- _ => fail
             | _ => pose proof (error_added_after _ _ _ _ Er N)
             end
         end.

(** [Er : error_added s s1] holds from every origin of [s] on. *)
Ltac spread_error s s1 Er :=
  repeat match goal with
         | A : extends quiet_kinds ?a s |- _ =>
             lazymatch goal with
             | _ : error_added a s1 |- _ => fail
             | _ => pose proof (error_added_before _ _ _ _ A Er)
             end
         end.

Ltac note_errors s s1 H :=
  lazymatch type of H with
  | log _ ERROR _ = _ => spread_error s s1 (log_error_added _ _ _ _ H)
  | _ => idtac
  end.

(** A step that answered [False] has logged why. *)
Ltac note_failures :=
  repeat match goal with
         | H : login_github ?w ?s = (Ok false, ?s1) |- _ =>
             lazymatch goal with
             | _ : error_added s s1 |- _ => fail
             | _ => pose proof (login_github_false_logged w s s1 H) as Er;
                    spread_error s s1 Er
             end
         | H : wait_redirect ?w ?n ?s = (Ok false, ?s1) |- _ =>
             lazymatch goal with
             | _ : error_added s s1 |- _ => fail
             | _ => pose proof (wait_redirect_false_logged w n s s1 H) as Er;
                    spread_error s s1 Er
             end
         | H : verify_login ?w ?s = (Ok false, ?s1) |- _ =>
             lazymatch goal with
             | _ : error_added s s1 |- _ => fail
             | _ => pose proof (verify_login_false_logged w s s1 H) as Er;
                    spread_error s s1 Er
             end
         | H : validate_credentials ?s = (Ok false, ?s1) |- _ =>
             lazymatch goal with
             | _ : error_added s s1 |- _ => fail
             | _ => pose proof (validate_credentials_false_logged s s1 H) as Er;
                    spread_error s s1 Er
             end
         end.

(** After [H : m s = (_, s1)] for a quiet [m]: record what is known of [s1]. *)
Ltac after_quiet s s1 H :=
  let N := fresh "N" in
  quiet_of H N;
  carry_from quiet_kinds s s1 N;
  carry_errors s s1 N;
  note_errors s s1 H;
  clear N;
  try (let P := fresh "P" in
       assert (P : extends [KPrint] s s1)
         by (eapply emits_extends; [ | exact H ]; emits_script);
       carry_from [KPrint] s s1 P; clear P);
  lazymatch type of H with
  | screenshot _ _ _ = _ => pose proof (extends_refl [KPrint] s1)
  | _ => idtac
  end.

Ltac split_bool x E :=
  tryif is_var x
  then (destruct x; cbn [negb] in E; note_failures)
  else (destruct x eqn:?; cbn [negb] in E).

(** [H] says that a step which always returns has raised. *)
Ltac never_raises H :=
  solve [ exfalso;
          cbv [log print sleep emit bind get_self set_self page_url strftime
               path_exists json_dump call res_of_answer] in H;
          discriminate H ].

(** One step of the run described by [E]. *)
Ltac run_step E :=
  lazymatch type of E with
  | bind (bind ?m ?f) ?k ?s = _ => rewrite (bind_assoc m f k s) in E
  | bind (if negb ?x then _ else _) _ _ = _ => split_bool x E
  | bind (if ?x then _ else _) _ _ = _ => split_bool x E
  | bind (sys_exit ?c) ?k ?s = _ =>
      change (bind (sys_exit c) k s) with (@Raise unit (SystemExit c), s) in E
  | bind (ret ?a) ?k ?s = _ =>
      change (bind (ret a) k s) with (k a s) in E; cbv beta iota in E
  | bind (send_notification ?w ?b ?msg) ?k ?s = _ =>
      let H := fresh "Hn" in
      let s1 := fresh "s" in
      destruct (send_notification_returns w b msg s) as [s1 H];
      rewrite (bind_ok _ _ _ _ _ H) in E; cbv beta in E;
      pose proof (extends_refl [KPrint] s1)
  | bind ?m ?k ?s = _ =>
      let H := fresh "H" in
      let s1 := fresh "s" in
      destruct (m s) as [[? | [? | ?]] s1] eqn:H;
      [ rewrite (bind_ok _ _ _ _ _ H) in E; cbv beta in E; after_quiet s s1 H
      | first [ never_raises H
              | rewrite (bind_raise _ _ _ _ _ H) in E; after_quiet s s1 H ]
      | exfalso; eapply (emits_no_exit quiet_kinds);
        [ | reflexivity | exact H ]; emits_script ]
  | (if negb ?x then _ else _) _ = _ => split_bool x E
  | (if ?x then _ else _) _ = _ => split_bool x E
  | ret _ _ = _ => unfold ret in E
  | sys_exit _ _ = _ => unfold sys_exit, raise in E
  | print ?l ?s = _ => rewrite <- (bind_ret_r (print l) s) in E
  end.

Ltac run_sym E := repeat run_step E.

Ltac leaf_screenshot w sn :=
  first [ match goal with
          | Hs : screenshot w ?name ?s0 = (Ok ?f, ?s1), P : extends [KPrint] ?s1 sn |- _ =>
              left; exists s0, name, f, s1; split; [exact Hs | exact P]
          end
        | right; left; reflexivity
        | right; right; reflexivity ].

Ltac after_notification Hn sc s' :=
  rewrite Hn; cbn [snd];
  match goal with
  | P : extends [KPrint] sc s' |- _ =>
      exact (extends_weaken [KPrint] [KPrint; KBrowser] _ _ eq_refl P)
  end.

(** Close a path whose result [E] is known. *)
Ltac leaf E :=
  inversion E; subst; clear E;
  cbn beta iota;
  first
    [ assumption
    | match goal with
      | Hn : send_notification ?w true _ ?sn = (Ok tt, ?sc)
        |- success_reported _ ?st ?s' =>
          exists sn; split; [assumption | after_notification Hn sc s']
      end
    | match goal with
      | Hn : send_notification ?w false ?msg ?sn = (Ok tt, ?sc)
        |- _ /\ failure_reported _ ?st ?s' =>
          split; [reflexivity |];
          exists sn, msg;
          split; [assumption |];
          split; [assumption |];
          split; [leaf_screenshot w sn | after_notification Hn sc s']
      end ].

Lemma run_session_report (w : World) (st0 st : St) :
  extends quiet_kinds st0 st ->
  match run_session w st with
  | (Ok _, s') => success_reported w st0 s'
  | (Raise (SystemExit c), s') => c = 1%Z /\ failure_reported w st0 s'
  | (Raise (Exception _), s') => extends quiet_kinds st0 s'
  end.
Proof.
  intros X. destruct (run_session w st) as [r s'] eqn:E.
  unfold run_session, open_signin_page, run_already_logged_in, run_login_flow,
    run_login_steps, run_keepalive_and_report in E.
  run_sym E; leaf E.
Qed.

(** The [except Exception] handler reports the failure, unless its own
    screenshot raises. *)
Lemma run_on_exception_report (w : World) (st0 st : St) (e : string) :
  extends quiet_kinds st0 st ->
  match run_on_exception w e st with
  | (Ok _, s') => False
  | (Raise (SystemExit c), s') => c = 1%Z /\ failure_reported w st0 s'
  | (Raise (Exception _), s') => extends quiet_kinds st0 s'
  end.
Proof.
  intros X. destruct (run_on_exception w e st) as [r s'] eqn:E.
  unfold run_on_exception in E.
  run_sym E; leaf E.
Qed.

Lemma closed_after (ks : list Kind) (s : St) :
  has_kind ks KBrowser = true ->
  extends ks s (snd (emit EvClose s)).
Proof. intros H. now apply extends_event. Qed.

Lemma success_reported_then (w : World) (st0 s s' : St) :
  success_reported w st0 s -> extends [KPrint; KBrowser] s s' ->
  success_reported w st0 s'.
Proof.
  intros [sn [A B]] C. exists sn. split; [exact A | eapply extends_trans; eauto].
Qed.

Lemma failure_reported_then (w : World) (st0 s s' : St) :
  failure_reported w st0 s -> extends [KPrint; KBrowser] s s' ->
  failure_reported w st0 s'.
Proof.
  intros [sn [msg [A [B [C D]]]]] F. exists sn, msg.
  repeat (split; [assumption |]). eapply extends_trans; eauto.
Qed.

Lemma browser_session_report (w : World) (st0 st : St) :
  extends quiet_kinds st0 st ->
  match browser_session w st with
  | (Ok _, s') => success_reported w st0 s'
  | (Raise (SystemExit c), s') => c = 1%Z /\ failure_reported w st0 s'
  | (Raise (Exception _), s') => extends quiet_kinds st0 s'
  end.
Proof.
  intros X. unfold browser_session, try_finally, try_except.
  pose proof (run_session_report w st0 st X) as R.
  destruct (run_session w st) as [[u | [msg | c]] s1].
  - cbn. eapply success_reported_then; [exact R | now apply closed_after].
  - pose proof (run_on_exception_report w st0 s1 msg R) as R2.
    destruct (run_on_exception w msg s1) as [[u | [msg2 | c]] s2]; cbn.
    + contradiction.
    + eapply extends_trans; [exact R2 | now apply closed_after].
    + destruct R2 as [-> R2]. split; [reflexivity |].
      eapply failure_reported_then; [exact R2 | now apply closed_after].
  - cbn. destruct R as [-> R]. split; [reflexivity |].
    eapply failure_reported_then; [exact R | now apply closed_after].
Qed.

(** Every run: a return has reported success, a [sys.exit] is a
    [sys.exit(1)] that has reported the failure, and an exception that
    escapes has notified nobody. *)
Lemma run_report (w : World) (st : St) :
  match run w st with
  | (Ok _, s') => success_reported w st s'
  | (Raise (SystemExit c), s') => c = 1%Z /\ failure_reported w st s'
  | (Raise (Exception _), s') => extends quiet_kinds st s'
  end.
Proof.
  destruct (run w st) as [r s'] eqn:E.
  unfold run, run_prologue in E.
  pose proof (extends_refl quiet_kinds st).
  run_sym E; try (leaf E).
  match goal with
  | X : extends quiet_kinds st ?s |- _ =>
      pose proof (browser_session_report w st s X) as R
  end.
  rewrite E in R. exact R.
Qed.

Lemma success_reported_flags (w : World) (st s' : St) :
  success_reported w st s' ->
  notify_flags (trace s') = true :: notify_flags (trace st).
Proof.
  intros [sn [A B]].
  rewrite (extends_flags [KPrint; KBrowser] _ _ eq_refl B), send_notification_marks.
  now rewrite (extends_flags quiet_kinds _ _ eq_refl A).
Qed.

Lemma failure_reported_flags (w : World) (st s' : St) :
  failure_reported w st s' ->
  notify_flags (trace s') = false :: notify_flags (trace st).
Proof.
  intros [sn [msg [A [_ [_ B]]]]].
  rewrite (extends_flags [KPrint; KBrowser] _ _ eq_refl B), send_notification_marks.
  now rewrite (extends_flags quiet_kinds _ _ eq_refl A).
Qed.

(** ** What a notification sends *)

Section NotificationContent.

Variable w : World.

Lemma send_message_trace (tg : TelegramNotifier) (message : string) (st : St) :
  enabled tg = true ->
  posted_texts (trace (snd (send_message w tg message st)))
  = message :: posted_texts (trace st)
  /\ photo_calls (trace (snd (send_message w tg message st))) = photo_calls (trace st).
Proof.
  intros En. unfold send_message. rewrite En. cbn [negb].
  unfold try_except, bind, requests_post, call, print, emit, ret.
  destruct (w_http_post w (tick st) _); split; reflexivity.
Qed.

Lemma send_photo_trace (tg : TelegramNotifier) (path caption : string) (st : St) :
  enabled tg = true ->
  posted_texts (trace (snd (send_photo w tg path caption st))) = posted_texts (trace st)
  /\ photo_calls (trace (snd (send_photo w tg path caption st)))
     = path :: photo_calls (trace st).
Proof.
  intros En. unfold send_photo. rewrite En. cbn [negb].
  unfold try_except, bind, path_exists, open_rb, requests_post, call, print, emit, ret.
  cbn [res_of_answer tick].
  destruct (w_path_exists w (tick st) path); cbn [negb tick self trace].
  - destruct (w_open w (S (tick st)) path); cbn [res_of_answer];
      [| split; reflexivity].
    destruct (w_http_post w (S (S (tick st))) (api_url tg "sendPhoto"));
      split; reflexivity.
  - split; reflexivity.
Qed.

Lemma send_photos_trace (tg : TelegramNotifier) (caption : string -> string)
      (paths : list string) (st : St) :
  enabled tg = true ->
  posted_texts
    (trace (snd (for_each paths (fun s => send_photo w tg s (caption s) ;; ret tt) st)))
  = posted_texts (trace st)
  /\ photo_calls
       (trace (snd (for_each paths (fun s => send_photo w tg s (caption s) ;; ret tt) st)))
     = (List.rev paths ++ photo_calls (trace st))%list.
Proof.
  intros En. revert st. induction paths as [| p rest IH]; intros st.
  - split; reflexivity.
  - cbn [for_each].
    destruct (send_photo_returns w tg p (caption p) st) as [b [s1 E]].
    destruct (send_photo_trace tg p (caption p) st En) as [T P].
    rewrite E in T, P. cbn [snd] in T, P.
    erewrite bind_ok; [| erewrite bind_ok; [reflexivity | exact E]].
    destruct (IH s1) as [T1 P1]. rewrite T1, P1, T, P. cbn [List.rev].
    split; [reflexivity | now rewrite <- app_assoc].
Qed.

(** With the notifier enabled, a notification posts one text, built from
    the last 10 log lines, and then the photos of [photos_sent]. *)
Lemma send_notification_content (success : bool) (error_msg : string) (st : St) :
  enabled (telegram (self st)) = true ->
  posted_texts (trace (snd (send_notification w success error_msg st)))
  = notification_message success (username (self st)) (w_strftime w (tick st))
      error_msg (Py.last_items 10 (logs (self st)))
    :: posted_texts (trace st)
  /\ photo_calls (trace (snd (send_notification w success error_msg st)))
     = (List.rev (photos_sent success (screenshots (self st))) ++ photo_calls (trace st))%list.
Proof.
  intros En.
  destruct (send_notification w success error_msg st) as [r s'] eqn:E0. cbn [snd].
  unfold send_notification in E0.
  unfold bind at 1, emit in E0. unfold bind at 1, get_self in E0. cbn [self] in E0.
  rewrite En in E0. cbn [negb] in E0.
  unfold bind at 1, strftime, call in E0. cbn [res_of_answer tick] in E0.
  set (st1 := {| self := self st; tick := S (tick st);
                 trace := EvStrftime :: EvNotify success error_msg :: trace st |}) in *.
  set (message := notification_message _ _ _ _ _) in *.
  destruct (send_message_returns w (telegram (self st)) message st1) as [b [s1 E]].
  destruct (send_message_trace (telegram (self st)) message st1 En) as [T P].
  rewrite E in T, P. cbn [snd] in T, P.
  rewrite (bind_ok _ _ _ _ _ E) in E0.
  unfold photos_sent.
  destruct (screenshots (self st)) as [| x rest] eqn:Hs.
  { unfold ret in E0. injection E0 as _ <-. cbn [List.rev app].
    rewrite T, P. split; reflexivity. }
  set (shots := x :: rest) in *.
  set (caption := if success then _ else _) in *.
  destruct (send_photo_returns w (telegram (self st)) (last shots EmptyString) caption s1)
    as [b2 [s2 E2]].
  destruct (send_photo_trace (telegram (self st)) (last shots EmptyString) caption s1 En)
    as [T2 P2].
  rewrite E2 in T2, P2. cbn [snd] in T2, P2.
  rewrite (bind_ok _ _ _ _ _ E2) in E0.
  destruct (negb success && (1 <? length shots)%nat).
  - destruct (send_photos_trace (telegram (self st)) (fun s => "调试截图: " ++ s)
                (Py.but_last shots) s2 En) as [T3 P3].
    rewrite E0 in T3, P3. cbn [snd] in T3, P3.
    rewrite T3, P3, T2, P2, T, P. cbn [List.rev]. split; [reflexivity |].
    now rewrite <- app_assoc.
  - unfold ret in E0. injection E0 as _ <-. cbn [List.rev app].
    rewrite T2, P2, T, P. split; reflexivity.
Qed.

(** With the notifier disabled, nothing is sent: only the call is marked. *)
Lemma send_notification_disabled (success : bool) (error_msg : string) (st : St) :
  enabled (telegram (self st)) = false ->
  send_notification w success error_msg st = emit (EvNotify success error_msg) st.
Proof.
  intros En. unfold send_notification.
  unfold bind at 1, emit. unfold bind at 1, get_self. cbn [self].
  rewrite En. reflexivity.
Qed.

End NotificationContent.

(** On failure the photos sent are all the screenshots taken. *)
Lemma photos_sent_false_all (shots : list string) :
  Permutation (photos_sent false shots) shots.
Proof.
  unfold photos_sent. destruct shots as [| x rest]; [constructor |].
  set (shots := x :: rest). cbn [negb andb].
  assert (Hne : shots <> []) by discriminate.
  destruct (1 <? length shots)%nat eqn:L.
  - rewrite (app_removelast_last EmptyString Hne) at 3.
    unfold Py.but_last. apply Permutation_cons_append.
  - apply Nat.ltb_ge in L. subst shots. destruct rest; [| simpl in L; lia].
    constructor. constructor.
Qed.

(** ** Failure paths and notifications *)




(** C5 (amended) -- A run that returns has attempted the notification
    exactly once, as a success; a run that leaves through [sys.exit] has
    attempted it exactly once, as a failure.  A notification sends a photo
    only when there is a screenshot: the last one; the others follow only
    on failure and only when there are more than one.  With the notifier
    disabled the attempt sends nothing. *)
Theorem notification_attempted_once (w : World) :
  (forall st s',
      run w st = (Ok tt, s') ->
      notify_flags (trace s') = true :: notify_flags (trace st))
  /\ (forall st c s',
         run w st = (Raise (SystemExit c), s') ->
         notify_flags (trace s') = false :: notify_flags (trace st))
  /\ (forall success msg st,
         enabled (telegram (self st)) = true ->
         photo_calls (trace (snd (send_notification w success msg st)))
         = (List.rev (photos_sent success (screenshots (self st)))
              ++ photo_calls (trace st))%list)
  /\ (forall success msg st,
         enabled (telegram (self st)) = false ->
         send_notification w success msg st = emit (EvNotify success msg) st)
  /\ (forall success, photos_sent success [] = [])
  /\ (forall x rest,
         photos_sent true (x :: rest) = [last (x :: rest) EmptyString])
  /\ (forall x, photos_sent false [x] = [x])
  /\ (forall x y rest,
         photos_sent false (x :: y :: rest)
         = last (x :: y :: rest) EmptyString :: Py.but_last (x :: y :: rest)).
Proof.
  split.
  { intros st s' E. pose proof (run_report w st) as R. rewrite E in R.
    now apply (success_reported_flags w). }
  split.
  { intros st c s' E. pose proof (run_report w st) as R. rewrite E in R.
    destruct R as [_ R]. now apply (failure_reported_flags w). }
  split.
  { intros success msg st En. apply (send_notification_content w success msg st En). }
  split.
  { intros success msg st En. now apply send_notification_disabled. }
  repeat split.
Qed.

Lemma notification_attempted_once_witness :
  notify_flags (trace (snd (main world_signed_in))) = [true].
Proof.
  refine (proj1 (notification_attempted_once world_signed_in)
            (initial_state world_signed_in) (snd (main world_signed_in)) _).
  vm_compute. reflexivity.
Defined.

(** C5, as stated, fails: when the browser cannot be launched the run
    fails with exit status 1 -- the exception leaves [run] before the
    [try] is entered -- and no notification is attempted, although the
    notifier is enabled. *)
Lemma no_notification_when_launch_fails :
  enabled (telegram (self (initial_state world_no_browser))) = true
  /\ fst (main world_no_browser) = Raise (Exception "Executable doesn't exist")
  /\ exit_status (fst (main world_no_browser)) = 1%Z
  /\ notify_flags (trace (snd (main world_no_browser))) = [].
Proof. repeat split; vm_compute; reflexivity. Qed.

(** ** The two ways to the keep-alive step *)

Section KeepalivePaths.

Variable w : World.

Lemma run_after_prologue (st0 st : St) :
  run_prologue w st0 = (Ok tt, st) -> run w st0 = browser_session w st.
Proof. intros H. unfold run. now rewrite (bind_ok _ _ _ _ _ H). Qed.

Lemma session_signed_in (st : St) (u : string) (s1 : St) :
  open_signin_page w st = (Ok u, s1) ->
  Py.contains "signin" (Py.lower u) = false ->
  browser_session w st = signed_in_session w s1.
Proof.
  intros H Hu.
  unfold browser_session, signed_in_session, try_finally, try_except, run_session.
  rewrite (bind_ok _ _ _ _ _ H), Hu. reflexivity.
Qed.

Lemma session_login_flow (st : St) (u : string) (s1 : St) :
  open_signin_page w st = (Ok u, s1) ->
  Py.contains "signin" (Py.lower u) = true ->
  run_session w st = run_login_flow w s1.
Proof.
  intros H Hu. unfold run_session. rewrite (bind_ok _ _ _ _ _ H), Hu. reflexivity.
Qed.

Lemma emits_signed_in_session : emits no_dom_kinds (signed_in_session w).
Proof.
  unfold signed_in_session, run_already_logged_in, run_on_exception. emits_script.
Qed.

Lemma emits_run_prologue : emits no_dom_kinds (run_prologue w).
Proof. unfold run_prologue. emits_script. Qed.

(** The end of both success paths: notify success, print, return. *)
Lemma report_success (sk : St) (lines : list string) :
  exists s2,
    send_notification w true EmptyString sk = (Ok tt, s2)
    /\ (send_notification w true EmptyString ;; for_each lines print) sk
       = (Ok tt, snd (for_each lines print s2))
    /\ extends [KPrint; KBrowser] s2 (snd (emit EvClose (snd (for_each lines print s2)))).
Proof.
  destruct (send_notification_returns w true EmptyString sk) as [s2 N].
  exists s2. split; [exact N |].
  assert (P : forall s, exists s3,
               for_each lines print s = (Ok tt, s3) /\ extends [KPrint; KBrowser] s s3).
  { induction lines as [| l rest IH]; intros s; cbn [for_each].
    - exists s. split; [reflexivity | apply extends_refl].
    - destruct (IH (snd (print l s))) as [s3 [E X]]. exists s3. split.
      + erewrite bind_ok; [exact E | reflexivity].
      + eapply extends_trans; [| exact X]. now apply extends_event. }
  destruct (P s2) as [s3 [E X]]. rewrite (bind_ok _ _ _ _ _ N), E. cbn [snd].
  split; [reflexivity |].
  eapply extends_trans; [exact X | now apply extends_event].
Qed.

(** Signed in already, verified: whatever [keepalive] answers, the
    session returns after a success notification. *)
Lemma signed_in_session_succeeds (s1 sv sk : St) (b : bool) :
  verify_login w (snd (log "已经登录！" SUCCESS s1)) = (Ok true, sv) ->
  keepalive w sv = (Ok b, sk) ->
  exists s2,
    send_notification w true EmptyString sk = (Ok tt, s2)
    /\ fst (signed_in_session w s1) = Ok tt
    /\ extends [KPrint; KBrowser] s2 (snd (signed_in_session w s1)).
Proof.
  intros Hv Hk.
  destruct (report_success sk [Py.newline ++ "✅ 成功：已经是登录状态！" ++ Py.newline])
    as [s2 [N [E X]]].
  exists s2. split; [exact N |].
  assert (R : run_already_logged_in w s1
              = (Ok tt, snd (for_each [Py.newline ++ "✅ 成功：已经是登录状态！" ++ Py.newline]
                               print s2))).
  { unfold run_already_logged_in.
    erewrite bind_ok; [| reflexivity].
    rewrite (bind_ok _ _ _ _ _ Hv). cbv iota.
    rewrite (bind_ok _ _ _ _ _ Hk).
    rewrite (bind_ok _ _ _ _ _ N). reflexivity. }
  unfold signed_in_session, try_finally, try_except. rewrite R.
  split; [reflexivity | exact X].
Qed.

(** Signed in already, not verified: the session reports the failure and
    leaves; the keep-alive step is not run. *)
Lemma signed_in_session_fails (s1 sv : St) :
  verify_login w (snd (log "已经登录！" SUCCESS s1)) = (Ok false, sv) ->
  signed_in_session w s1
  = (Raise (SystemExit 1),
     snd (emit EvClose (snd (send_notification w false "验证登录状态失败" sv)))).
Proof.
  intros Hv.
  destruct (send_notification_returns w false "验证登录状态失败" sv) as [s2 N].
  assert (R : run_already_logged_in w s1 = (Raise (SystemExit 1), s2)).
  { unfold run_already_logged_in.
    erewrite bind_ok; [| reflexivity].
    rewrite (bind_ok _ _ _ _ _ Hv). cbv iota.
    rewrite (bind_ok _ _ _ _ _ N). reflexivity. }
  unfold signed_in_session, try_finally, try_except. rewrite R, N. reflexivity.
Qed.

(** Steps 2 to 5 done: whatever [keepalive] answers, the session returns
    after a success notification. *)
Lemma login_flow_succeeds (st : St) (u : string) (s1 s5 sk : St) (b : bool) :
  open_signin_page w st = (Ok u, s1) ->
  Py.contains "signin" (Py.lower u) = true ->
  run_login_steps w s1 = (Ok tt, s5) ->
  keepalive w (snd (log "步骤 6: 保持账户活跃" STEP s5)) = (Ok b, sk) ->
  exists s2,
    send_notification w true EmptyString sk = (Ok tt, s2)
    /\ fst (browser_session w st) = Ok tt
    /\ extends [KPrint; KBrowser] s2 (snd (browser_session w st)).
Proof.
  intros Ho Hu H5 Hk.
  destruct (report_success sk
              [Py.newline ++ banner; "✅ 自动登录成功！"; banner ++ Py.newline])
    as [s2 [N [E X]]].
  exists s2. split; [exact N |].
  assert (R : run_session w st
              = (Ok tt, snd (for_each [Py.newline ++ banner; "✅ 自动登录成功！";
                                       banner ++ Py.newline] print s2))).
  { rewrite (session_login_flow _ _ _ Ho Hu). unfold run_login_flow.
    rewrite (bind_ok _ _ _ _ _ H5). unfold run_keepalive_and_report.
    erewrite bind_ok; [| reflexivity].
    rewrite (bind_ok _ _ _ _ _ Hk).
    rewrite (bind_ok _ _ _ _ _ N). reflexivity. }
  unfold browser_session, try_finally, try_except. rewrite R.
  split; [reflexivity | exact X].
Qed.

Lemma run_ok_flags (st s' : St) :
  run w st = (Ok tt, s') -> notify_flags (trace s') = true :: notify_flags (trace st).
Proof.
  intros E. pose proof (run_report w st) as R. rewrite E in R.
  now apply (success_reported_flags w).
Qed.

Lemma run_returns_flags (st : St) :
  fst (run w st) = Ok tt ->
  notify_flags (trace (snd (run w st))) = true :: notify_flags (trace st).
Proof.
  intros E. apply run_ok_flags. destruct (run w st) as [r s']. cbn in *. now subst.
Qed.

End KeepalivePaths.




(** C9 -- Once the verification has succeeded -- on the "already logged
    in" branch, or as the last of steps 2 to 5 -- the run's outcome does
    not depend on what [keepalive] returns: if it returns at all, [True]
    or [False], the success notification is sent in the state it leaves
    and the run returns with exit status 0, having notified exactly once.
    The caller never looks at the value. *)
Theorem keepalive_result_ignored (w : World) (st0 st : St) (u : string)
        (s1 sk : St) (b : bool) :
  run_prologue w st0 = (Ok tt, st) ->
  open_signin_page w st = (Ok u, s1) ->
  (Py.contains "signin" (Py.lower u) = false
   /\ exists sv,
        verify_login w (snd (log "已经登录！" SUCCESS s1)) = (Ok true, sv)
        /\ keepalive w sv = (Ok b, sk))
  \/ (Py.contains "signin" (Py.lower u) = true
      /\ exists s5,
           run_login_steps w s1 = (Ok tt, s5)
           /\ keepalive w (snd (log "步骤 6: 保持账户活跃" STEP s5)) = (Ok b, sk)) ->
  fst (run w st0) = Ok tt
  /\ exit_status (fst (run w st0)) = 0%Z
  /\ notify_flags (trace (snd (run w st0))) = true :: notify_flags (trace st0)
  /\ exists s2,
       send_notification w true EmptyString sk = (Ok tt, s2)
       /\ extends [KPrint; KBrowser] s2 (snd (run w st0)).
Proof.
  intros Hp Ho [[Hu [sv [Hv Hk]]] | [Hu [s5 [H5 Hk]]]].
  - assert (R : run w st0 = signed_in_session w s1).
    { rewrite (run_after_prologue w _ _ Hp). now apply (session_signed_in w _ u). }
    destruct (signed_in_session_succeeds w s1 sv sk b Hv Hk) as [s2 [N [E X]]].
    assert (E' : fst (run w st0) = Ok tt) by now rewrite R.
    split; [exact E' |]. split; [now rewrite E' |].
    split; [now apply run_returns_flags |].
    exists s2. split; [exact N | now rewrite R].
  - pose proof (run_after_prologue w _ _ Hp) as R.
    destruct (login_flow_succeeds w st u s1 s5 sk b Ho Hu H5 Hk) as [s2 [N [E X]]].
    assert (E' : fst (run w st0) = Ok tt) by now rewrite R.
    split; [exact E' |]. split; [now rewrite E' |].
    split; [now apply run_returns_flags |].
    exists s2. split; [exact N | now rewrite R].
Qed.

Lemma keepalive_result_ignored_witness :
  exit_status (fst (run world_github_flow (initial_state world_github_flow))) = 0%Z.
Proof.
  refine (proj1 (proj2
    (keepalive_result_ignored world_github_flow
       (initial_state world_github_flow)
       (snd (run_prologue world_github_flow (initial_state world_github_flow)))
       SIGNIN_URL
       (snd (open_signin_page world_github_flow
               (snd (run_prologue world_github_flow (initial_state world_github_flow)))))
       (snd (keepalive world_github_flow
               (snd (log "步骤 6: 保持账户活跃" STEP
                       (snd (run_login_steps world_github_flow
                               (snd (open_signin_page world_github_flow
                                       (snd (run_prologue world_github_flow
                                               (initial_state world_github_flow)))))))))))
       false _ _ _))).
  - vm_compute; reflexivity.
  - vm_compute; reflexivity.
  - right. split; [vm_compute; reflexivity |].
    eexists. split; vm_compute; reflexivity.
Defined.

(** * Further properties of the script *)

(** ** Tools *)

Ltac exec_script :=
  cbv [try_except try_except_all try_finally bind call log print sleep emit get_self
       set_self ret raise sys_exit page_url page_title page_content page_goto
       wait_for_load_state page_screenshot context_cookies is_visible inner_text
       click fill strftime path_exists open_rb requests_post json_dump];
  cbn [tick self trace res_of_answer].

Ltac exec_script_in H :=
  cbv [try_except try_except_all try_finally bind call log print sleep emit get_self
       set_self ret raise sys_exit page_url page_title page_content page_goto
       wait_for_load_state page_screenshot context_cookies is_visible inner_text
       click fill strftime path_exists open_rb requests_post json_dump] in H;
  cbn [tick self trace res_of_answer] in H.

Lemma bind_inv_ok {A B} (m : M A) (k : A -> M B) (st : St) (b : B) (s' : St) :
  bind m k st = (Ok b, s') ->
  exists a s1, m st = (Ok a, s1) /\ k a s1 = (Ok b, s').
Proof.
  unfold bind. destruct (m st) as [[a | e] s1]; [eauto | discriminate].
Qed.

(** ** The notifier's three operations *)

Section NotifierOutcome.
Variable w : World.
Variable tg : TelegramNotifier.

Lemma send_message_outcome (message : string) (st : St) :
  exists s',
    send_message w tg message st
    = (Ok (enabled tg && delivered (w_http_post w (tick st) (api_url tg "sendMessage"))), s')
    /\ self s' = self st.
Proof.
  unfold send_message. destruct (enabled tg); cbn [negb andb].
  - exec_script.
    destruct (w_http_post w (tick st) (api_url tg "sendMessage")); cbn [res_of_answer delivered];
      eexists; split; reflexivity.
  - exists st. split; reflexivity.
Qed.

Lemma send_photo_outcome (path caption : string) (st : St) :
  exists s',
    send_photo w tg path caption st
    = (Ok (enabled tg && w_path_exists w (tick st) path
           && opened (w_open w (S (tick st)) path)
           && delivered (w_http_post w (S (S (tick st))) (api_url tg "sendPhoto"))), s')
    /\ self s' = self st.
Proof.
  unfold send_photo. destruct (enabled tg); cbn [negb andb].
  - exec_script.
    destruct (w_path_exists w (tick st) path); cbn [negb andb tick self trace].
    + destruct (w_open w (S (tick st)) path); cbn [res_of_answer opened andb];
        [| eexists; split; reflexivity].
      destruct (w_http_post w (S (S (tick st))) (api_url tg "sendPhoto"));
        cbn [res_of_answer delivered]; eexists; split; reflexivity.
    + eexists; split; reflexivity.
  - exists st. split; reflexivity.
Qed.

Lemma send_document_outcome (path caption : string) (st : St) :
  exists s',
    send_document w tg path caption st
    = (Ok (enabled tg && w_path_exists w (tick st) path
           && opened (w_open w (S (tick st)) path)
           && delivered (w_http_post w (S (S (tick st))) (api_url tg "sendDocument"))), s')
    /\ self s' = self st.
Proof.
  unfold send_document. destruct (enabled tg); cbn [negb andb].
  - exec_script.
    destruct (w_path_exists w (tick st) path); cbn [negb andb tick self trace].
    + destruct (w_open w (S (tick st)) path); cbn [res_of_answer opened andb];
        [| eexists; split; reflexivity].
      destruct (w_http_post w (S (S (tick st))) (api_url tg "sendDocument"));
        cbn [res_of_answer delivered]; eexists; split; reflexivity.
    + eexists; split; reflexivity.
  - exists st. split; reflexivity.
Qed.

Lemma unreadable_file_not_sent (path caption msg : string) (st : St) :
  enabled tg = true ->
  w_path_exists w (tick st) path = true ->
  w_open w (S (tick st)) path = Throws msg ->
  send_photo w tg path caption st
  = (Ok false,
     {| self := self st; tick := S (S (tick st));
        trace := EvPrint ("发送 Telegram 图片失败: " ++ msg)
                   :: EvOpen path :: EvPathExists path :: trace st |})
  /\ send_document w tg path caption st
     = (Ok false,
        {| self := self st; tick := S (S (tick st));
           trace := EvPrint ("发送 Telegram 文件失败: " ++ msg)
                      :: EvOpen path :: EvPathExists path :: trace st |}).
Proof.
  intros En Hp Ho. unfold send_photo, send_document. rewrite En. cbn [negb].
  exec_script. rewrite Hp. cbn [negb tick self trace]. rewrite Ho.
  cbn [res_of_answer]. split; reflexivity.
Qed.

End NotifierOutcome.

(** X1 -- The three operations of the notifier never raise and never touch
    the object's fields: each returns a boolean, [True] exactly when the
    notifier is enabled, the file (for a photo or a document) exists and
    can be opened, and [requests.post] answered with status 200; an
    exception of the transport, like any other status, gives [False].  A
    file that exists but cannot be opened is not posted: the exception of
    [open] is printed and the answer is [False]. *)
Theorem notifier_best_effort (w : World) (tg : TelegramNotifier)
        (message path caption : string) (st : St) :
  (exists s',
      send_message w tg message st
      = (Ok (enabled tg
             && delivered (w_http_post w (tick st) (api_url tg "sendMessage"))), s')
      /\ self s' = self st)
  /\ (exists s',
         send_photo w tg path caption st
         = (Ok (enabled tg && w_path_exists w (tick st) path
                && opened (w_open w (S (tick st)) path)
                && delivered (w_http_post w (S (S (tick st))) (api_url tg "sendPhoto"))),
            s')
         /\ self s' = self st)
  /\ (exists s',
         send_document w tg path caption st
         = (Ok (enabled tg && w_path_exists w (tick st) path
                && opened (w_open w (S (tick st)) path)
                && delivered (w_http_post w (S (S (tick st)))
                                (api_url tg "sendDocument"))),
            s')
         /\ self s' = self st)
  /\ (forall msg,
         enabled tg = true ->
         w_path_exists w (tick st) path = true ->
         w_open w (S (tick st)) path = Throws msg ->
         send_photo w tg path caption st
         = (Ok false,
            {| self := self st; tick := S (S (tick st));
               trace := EvPrint ("发送 Telegram 图片失败: " ++ msg)
                          :: EvOpen path :: EvPathExists path :: trace st |})
         /\ send_document w tg path caption st
            = (Ok false,
               {| self := self st; tick := S (S (tick st));
                  trace := EvPrint ("发送 Telegram 文件失败: " ++ msg)
                             :: EvOpen path :: EvPathExists path :: trace st |})).
Proof.
  split; [apply send_message_outcome |].
  split; [apply send_photo_outcome |].
  split; [apply send_document_outcome |].
  intros msg. apply unreadable_file_not_sent.
Qed.

(** X2 -- A file that does not exist is not sent: an enabled notifier asks
    [os.path.exists] and makes no request; [send_photo] prints that the
    picture is missing, [send_document] says nothing. *)
Theorem missing_file_not_sent (w : World) (tg : TelegramNotifier)
        (path caption : string) (st : St) :
  enabled tg = true ->
  w_path_exists w (tick st) path = false ->
  send_photo w tg path caption st
  = (Ok false,
     {| self := self st; tick := S (tick st);
        trace := EvPrint ("图片不存在: " ++ path) :: EvPathExists path :: trace st |})
  /\ send_document w tg path caption st
     = (Ok false,
        {| self := self st; tick := S (tick st);
           trace := EvPathExists path :: trace st |}).
Proof.
  intros En Hp. unfold send_photo, send_document. rewrite En. cbn [negb].
  exec_script. rewrite Hp. cbn [negb]. split; reflexivity.
Qed.

Lemma missing_file_not_sent_witness :
  fst (send_photo world_files_gone (telegram (self (initial_state world_files_gone)))
         "01_clawcloud_登录页.png" "错误截图" (initial_state world_files_gone))
  = Ok false.
Proof.
  rewrite (proj1 (missing_file_not_sent world_files_gone
                    (telegram (self (initial_state world_files_gone)))
                    "01_clawcloud_登录页.png" "错误截图"
                    (initial_state world_files_gone) eq_refl eq_refl)).
  reflexivity.
Defined.

(** ** Sending a notification *)

Lemma send_photos_self (w : World) (tg : TelegramNotifier) (caption : string -> string)
      (paths : list string) (st : St) :
  self (snd (for_each paths (fun s => send_photo w tg s (caption s) ;; ret tt) st))
  = self st.
Proof.
  revert st. induction paths as [| p rest IH]; intros st; [reflexivity |].
  cbn [for_each].
  destruct (send_photo_outcome w tg p (caption p) st) as [s1 [E Hs]].
  erewrite bind_ok; [| erewrite bind_ok; [reflexivity | exact E]].
  now rewrite IH.
Qed.

(** X3 -- [send_notification] never raises and never touches the object
    or the browser: whatever Telegram does, it returns, with the log, the
    screenshots and the counter as they were, having read the clock,
    looked for files, posted requests and printed, nothing else. *)
Theorem notification_never_fails (w : World) (success : bool) (error_msg : string)
        (st : St) :
  exists s' evs,
    send_notification w success error_msg st = (Ok tt, s')
    /\ self s' = self st
    /\ trace s' = (evs ++ EvNotify success error_msg :: trace st)%list
    /\ only [KTime; KHttp; KFs; KPrint] evs = true.
Proof.
  unfold send_notification. unfold bind at 1, emit.
  set (st1 := {| self := self st; tick := tick st;
                 trace := EvNotify success error_msg :: trace st |}).
  set (rest := bind get_self _).
  assert (Hr : emits [KTime; KHttp; KFs; KPrint] rest) by (subst rest; emits_script).
  destruct (Hr st1) as [[[evs [T O]] _] _].
  assert (H0 : self st1 = self st) by reflexivity.
  assert (Hs : exists s', rest st1 = (Ok tt, s') /\ self s' = self st).
  { subst rest. unfold bind at 1, get_self. cbn [self st1].
    destruct (enabled (telegram (self st))); cbn [negb];
      [| exists st1; split; reflexivity].
    unfold bind at 1, strftime, call. cbn [res_of_answer].
    match goal with
    | |- context [send_message w ?tg ?m] =>
        match goal with
        | |- exists s', bind _ _ ?s = _ /\ _ =>
            destruct (send_message_outcome w tg m s) as [s1 [E1 H1]]
        end
    end.
    cbn [self] in H1. rewrite (bind_ok _ _ _ _ _ E1).
    destruct (screenshots (self st)) as [| x files];
      [exists s1; split; [reflexivity | congruence] |].
    match goal with
    | |- context [send_photo w ?tg ?p ?c] =>
        destruct (send_photo_outcome w tg p c s1) as [s2 [E2 H2]]
    end.
    rewrite (bind_ok _ _ _ _ _ E2).
    destruct (negb success && (1 <? length (x :: files))%nat).
    - destruct (send_photos_return w (telegram (self st)) (fun s => "调试截图: " ++ s)
                  (Py.but_last (x :: files)) s2) as [s3 E3].
      exists s3. split; [exact E3 |].
      pose proof (send_photos_self w (telegram (self st)) (fun s => "调试截图: " ++ s)
                    (Py.but_last (x :: files)) s2) as H3.
      cbv beta in E3, H3. rewrite E3 in H3. cbn [snd] in H3. congruence.
    - exists s2. split; [reflexivity | congruence]. }
  destruct Hs as [s' [E Hs]]. exists s', evs. rewrite E in T. cbn [snd] in T.
  repeat split; assumption.
Qed.

(** ** Finding and clicking a button *)

Lemma visible_queries_app (a b : list Event) :
  visible_queries (a ++ b) = (visible_queries a ++ visible_queries b)%list.
Proof.
  induction a as [| e a IH]; [reflexivity |].
  destruct e; cbn; rewrite ?IH; reflexivity.
Qed.

(** One turn of the loop of [find_and_click]. *)
Lemma find_and_click_turn (w : World) (description sel : string) (st : St) :
  exists r s1 pre,
    try_except_all
      (v <- is_visible w sel 3000%Z ;;
       if v then
         click w sel ;;
         log ("已点击: " ++ description) SUCCESS ;;
         ret (Some true)
       else ret None)
      (ret None) st = (Ok r, s1)
    /\ trace s1 = (pre ++ EvIsVisible sel 3000%Z :: trace st)%list
    /\ visible_queries pre = []
    /\ match r with
       | None => self s1 = self st /\ passed_over w (tick st) [sel] (tick s1)
       | Some b =>
           b = true
           /\ pre = [EvPrint (log_line ("已点击: " ++ description) SUCCESS); EvClick sel]
           /\ logs (self s1)
              = (logs (self st) ++ [log_line ("已点击: " ++ description) SUCCESS])%list
           /\ w_is_visible w (tick st) sel = Returns true
           /\ w_click w (S (tick st)) sel = Returns tt
           /\ tick s1 = S (S (tick st))
       end.
Proof.
  cbv [try_except_all bind is_visible click call log print emit get_self set_self ret].
  cbn [tick self trace passed_over].
  destruct (w_is_visible w (tick st) sel) as [[|] | msg]; cbn [res_of_answer].
  - cbn [tick self trace].
    destruct (w_click w (S (tick st)) sel) as [[] | msg]; cbn [res_of_answer].
    + do 2 eexists. eexists [_; _]. split; [reflexivity |]. cbn. repeat split.
    + do 2 eexists. eexists [_]. split; [reflexivity |]. cbn. repeat split.
      now exists msg.
  - do 2 eexists. exists []. split; [reflexivity |]. cbn. repeat split.
  - do 2 eexists. exists []. split; [reflexivity |]. cbn. repeat split.
Qed.

(** A selector passed over, then more of them. *)
Lemma passed_over_cons (w : World) (t t1 t' : nat) (sel : string) (rest : list string) :
  passed_over w t [sel] t1 -> passed_over w t1 rest t' ->
  passed_over w t (sel :: rest) t'.
Proof.
  cbn [passed_over].
  destruct (w_is_visible w t sel) as [[|] | msg].
  - intros [C ->] R. now split.
  - now intros ->.
  - now intros ->.
Qed.

(** X4 -- [find_and_click] never raises.  It asks for the selectors in
    the order given and stops at the first that is visible and takes the
    click, which it logs: it answers [True], and asks for no selector
    after that one.  Every selector before it was passed over: not
    visible, or its [is_visible] or its click raised.  It answers
    [False], without a word in the log, when every selector has been
    asked for and passed over. *)
Theorem find_and_click_outcome (w : World) (description : string)
        (selectors : list string) (st : St) :
  exists b s' evs,
    find_and_click w selectors description st = (Ok b, s')
    /\ trace s' = (evs ++ trace st)%list
    /\ logs (self s')
       = (logs (self st)
            ++ (if b then [log_line ("已点击: " ++ description) SUCCESS] else []))%list
    /\ (b = false ->
        passed_over w (tick st) selectors (tick s')
        /\ List.rev (visible_queries evs) = selectors)
    /\ (b = true ->
        exists pre sel post t evs',
          selectors = (pre ++ sel :: post)%list
          /\ passed_over w (tick st) pre t
          /\ w_is_visible w t sel = Returns true
          /\ w_click w (S t) sel = Returns tt
          /\ tick s' = S (S t)
          /\ evs = EvPrint (log_line ("已点击: " ++ description) SUCCESS)
                     :: EvClick sel :: EvIsVisible sel 3000%Z :: evs'
          /\ List.rev (visible_queries evs') = pre).
Proof.
  revert st. induction selectors as [| sel more IH]; intros st.
  - exists false, st, []. cbn. rewrite app_nil_r. repeat split; auto; discriminate.
  - cbn [find_and_click].
    destruct (find_and_click_turn w description sel st) as [r [s1 [pre [E [T [Q R]]]]]].
    rewrite (bind_ok _ _ _ _ _ E).
    destruct r as [b |].
    + destruct R as [-> [-> [L [Hv [Hc Ht]]]]].
      exists true, s1,
        [EvPrint (log_line ("已点击: " ++ description) SUCCESS); EvClick sel;
         EvIsVisible sel 3000%Z].
      split; [reflexivity |]. split; [exact T |]. split; [exact L |].
      split; [discriminate |].
      intros _. exists [], sel, more, (tick st), []. cbn. repeat split; assumption.
    + destruct R as [R P].
      destruct (IH s1) as [b [s' [evs [E' [T' [L [F Tr]]]]]]].
      exists b, s', (evs ++ pre ++ [EvIsVisible sel 3000%Z])%list.
      split; [exact E' |].
      split; [rewrite T', T; now rewrite <- !app_assoc |].
      split; [now rewrite L, R |].
      split.
      * intros Hb. destruct (F Hb) as [Po Qs]. split.
        { exact (passed_over_cons _ _ _ _ _ _ P Po). }
        { rewrite !visible_queries_app, Q. cbn [visible_queries app].
          rewrite rev_app_distr. cbn [List.rev app]. now rewrite Qs. }
      * intros Hb.
        destruct (Tr Hb) as [pr [sl [post [t [evs' [-> [Po [Hv [Hc [Ht [-> Qs]]]]]]]]]]].
        exists (sel :: pr), sl, post, t, (evs' ++ pre ++ [EvIsVisible sel 3000%Z])%list.
        split; [reflexivity |].
        split; [exact (passed_over_cons _ _ _ _ _ _ P Po) |].
        split; [exact Hv |]. split; [exact Hc |]. split; [exact Ht |].
        split; [reflexivity |].
        rewrite !visible_queries_app, Q. cbn [visible_queries app].
        rewrite rev_app_distr. cbn [List.rev app]. now rewrite Qs.
Qed.

Lemma find_and_click_turn_returns (w : World) (description sel : string) (st : St) :
  exists r s1,
    try_except_all
      (v <- is_visible w sel 3000%Z ;;
       if v then
         click w sel ;;
         log ("已点击: " ++ description) SUCCESS ;;
         ret (Some true)
       else ret None)
      (ret None) st = (Ok r, s1)
    /\ screenshots (self s1) = screenshots (self st).
Proof.
  exec_script.
  destruct (w_is_visible w (tick st) sel) as [[|] | msg]; cbn [res_of_answer].
  - cbn [tick self trace].
    destruct (w_click w (S (tick st)) sel) as [[] | msg]; cbn [res_of_answer];
      do 2 eexists; split; reflexivity.
  - do 2 eexists; split; reflexivity.
  - do 2 eexists; split; reflexivity.
Qed.

Lemma find_and_click_returns (w : World) (description : string)
      (selectors : list string) (st : St) :
  exists b s',
    find_and_click w selectors description st = (Ok b, s')
    /\ screenshots (self s') = screenshots (self st).
Proof.
  revert st. induction selectors as [| sel more IH]; intros st.
  - exists false, st. split; reflexivity.
  - cbn [find_and_click].
    destruct (find_and_click_turn_returns w description sel st) as [r [s1 [E Sh]]].
    rewrite (bind_ok _ _ _ _ _ E). destruct r as [b |]; [now exists b, s1 |].
    destruct (IH s1) as [b [s' [E' Sh']]]. exists b, s'. split; congruence.
Qed.

(** ** Checks made with locators *)

Lemma check_github_error_in_returns (w : World) (selectors : list string) (st : St) :
  exists r s',
    check_github_error_in w selectors st = (Ok r, s')
    /\ self s' = self st
    /\ ((forall t sel, exists msg, w_is_visible w t sel = Throws msg) -> r = None).
Proof.
  revert st. induction selectors as [| sel rest IH]; intros st.
  - exists None, st. repeat split.
  - cbn [check_github_error_in].
    cbv [try_except_all bind is_visible inner_text call ret]. cbn [tick self trace].
    destruct (w_is_visible w (tick st) sel) as [[|] | msg] eqn:V; cbn [res_of_answer].
    + cbn [tick self trace].
      destruct (w_inner_text w (S (tick st)) sel) as [text | msg]; cbn [res_of_answer].
      * do 2 eexists. split; [reflexivity |]. split; [reflexivity |].
        intros H. destruct (H (tick st) sel) as [m Hm]. congruence.
      * match goal with
        | |- context [check_github_error_in w rest ?s] => destruct (IH s) as [r [s' [E [Hs Hn]]]]
        end.
        exists r, s'. split; [exact E |]. split; [exact Hs | exact Hn].
    + match goal with
      | |- context [check_github_error_in w rest ?s] => destruct (IH s) as [r [s' [E [Hs Hn]]]]
      end.
      exists r, s'. split; [exact E |]. split; [exact Hs | exact Hn].
    + match goal with
      | |- context [check_github_error_in w rest ?s] => destruct (IH s) as [r [s' [E [Hs Hn]]]]
      end.
      exists r, s'. split; [exact E |]. split; [exact Hs | exact Hn].
Qed.

(** X5 -- The checks made with locators never raise and never touch the
    object: a locator that raises (a timeout, a detached element) counts
    as an element that is not there.  When every [is_visible] raises, the
    error-banner check finds no error, the two-factor check answers from
    the URL alone, and [find_and_click] answers [False]. *)
Theorem locator_failures_are_absence (w : World) (st : St) :
  (exists r s', check_github_error w st = (Ok r, s') /\ self s' = self st)
  /\ (exists b s', check_2fa w st = (Ok b, s') /\ self s' = self st)
  /\ ((forall t sel, exists msg, w_is_visible w t sel = Throws msg) ->
      fst (check_github_error w st) = Ok None
      /\ fst (check_2fa w st) = Ok (Py.contains "two-factor" (w_url w (tick st)))
      /\ forall selectors description,
           fst (find_and_click w selectors description st) = Ok false).
Proof.
  split.
  { destruct (check_github_error_in_returns w error_selectors st) as [r [s' [E [Hs _]]]].
    now exists r, s'. }
  split.
  { unfold check_2fa. exec_script.
    destruct (Py.contains "two-factor" (w_url w (tick st))).
    - do 2 eexists. split; reflexivity.
    - cbn [tick self trace].
      destruct (w_is_visible w (S (tick st)) otp_selector) as [b | msg];
        cbn [res_of_answer]; do 2 eexists; split; reflexivity. }
  intros H. split; [| split].
  - destruct (check_github_error_in_returns w error_selectors st) as [r [s' [E [_ Hn]]]].
    unfold check_github_error. rewrite E. cbn [fst]. now rewrite (Hn H).
  - unfold check_2fa. exec_script.
    destruct (Py.contains "two-factor" (w_url w (tick st))); [reflexivity |].
    cbn [tick self trace]. destruct (H (S (tick st)) otp_selector) as [m ->]. reflexivity.
  - intros selectors description. revert st.
    induction selectors as [| sel rest IH]; intros st; [reflexivity |].
    cbn [find_and_click]. cbv [try_except_all bind is_visible call ret].
    cbn [tick self trace]. destruct (H (tick st) sel) as [m ->]. cbn [res_of_answer].
    apply IH.
Qed.

Lemma locator_failures_are_absence_witness :
  fst (find_and_click world_locators_fail github_selectors "GitHub 按钮"
         (initial_state world_locators_fail)) = Ok false.
Proof.
  refine (proj2 (proj2 (proj2 (proj2
    (locator_failures_are_absence world_locators_fail
       (initial_state world_locators_fail))) _)) github_selectors "GitHub 按钮").
  intros t sel. eexists. reflexivity.
Defined.

(** ** The device-verification check *)

(** X6 -- [check_device_verification] answers [True] from the URL alone
    when it names a device-verification page, without reading the page;
    otherwise it reads the page and looks for its four phrases in the
    lowercased content, lowered as Python lowers it (a KELVIN SIGN counts
    as a "k").  Unlike the checks made with locators, it does not catch
    what [page.content()] raises. *)
Theorem device_verification_outcome (w : World) (st : St) :
  (Py.contains "sessions/verified-device" (w_url w (tick st)) = true ->
   check_device_verification w st
   = (Ok true, {| self := self st; tick := S (tick st); trace := EvUrl :: trace st |}))
  /\ (Py.contains "sessions/verified-device" (w_url w (tick st)) = false ->
      Py.contains "device-verification" (w_url w (S (tick st))) = true ->
      check_device_verification w st
      = (Ok true,
         {| self := self st; tick := S (S (tick st));
            trace := EvUrl :: EvUrl :: trace st |}))
  /\ (Py.contains "sessions/verified-device" (w_url w (tick st)) = false ->
      Py.contains "device-verification" (w_url w (S (tick st))) = false ->
      (forall content,
          w_content w (S (S (tick st))) = Returns content ->
          check_device_verification w st
          = (Ok (existsb (fun kw => Py.contains kw (Py.lower content)) device_keywords),
             {| self := self st; tick := S (S (S (tick st)));
                trace := EvContent :: EvUrl :: EvUrl :: trace st |}))
      /\ (forall msg,
             w_content w (S (S (tick st))) = Throws msg ->
             check_device_verification w st
             = (Raise (Exception msg),
                {| self := self st; tick := S (S (S (tick st)));
                   trace := EvContent :: EvUrl :: EvUrl :: trace st |}))).
Proof.
  unfold check_device_verification. exec_script.
  split; [| split].
  - intros ->. reflexivity.
  - intros -> H. cbn [tick self trace]. rewrite H. reflexivity.
  - intros -> H. cbn [tick self trace]. rewrite H. cbn [tick self trace]. split.
    + intros content ->. reflexivity.
    + intros msg ->. reflexivity.
Qed.

Lemma device_verification_outcome_witness :
  fst (check_device_verification world_signed_in (initial_state world_signed_in))
  = Ok false.
Proof.
  rewrite (proj1 (proj2 (proj2 (device_verification_outcome world_signed_in
                                  (initial_state world_signed_in))) eq_refl eq_refl)
             "<html></html>" eq_refl).
  reflexivity.
Defined.


(** ** Taking a screenshot *)

(** X7 -- [screenshot] advances the counter before it asks the page for
    the picture.  When the page answers, the file [NN_name.png] is put on
    record and logged, and its name returned; when the page raises, the
    exception goes on to the caller, nothing is put on record or logged,
    and the number stays used up. *)
Theorem screenshot_outcome (w : World) (name : string) (st : St) :
  let n := S (screenshot_count (self st)) in
  let file := shot_file n name in
  let counted := set_screenshot_count n (self st) in
  (w_screenshot w (tick st) file = Returns tt ->
   screenshot w name st
   = (Ok file,
      {| self := set_logs (logs (self st) ++ [log_line ("截图已保存: " ++ file) INFO])
                   (set_screenshots (screenshots (self st) ++ [file]) counted);
         tick := S (tick st);
         trace := EvPrint (log_line ("截图已保存: " ++ file) INFO)
                    :: EvScreenshot file :: trace st |}))
  /\ (forall msg,
         w_screenshot w (tick st) file = Throws msg ->
         screenshot w name st
         = (Raise (Exception msg),
            {| self := counted; tick := S (tick st);
               trace := EvScreenshot file :: trace st |})).
Proof.
  cbv zeta. unfold screenshot, shot_file. exec_script.
  cbn [screenshot_count set_screenshot_count].
  split.
  - intros ->. reflexivity.
  - intros msg ->. reflexivity.
Qed.

Lemma screenshot_outcome_witness :
  screenshot_count
    (self (snd (screenshot world_browser_crashed "异常"
                  (initial_state world_browser_crashed)))) = 1
  /\ screenshots
       (self (snd (screenshot world_browser_crashed "异常"
                     (initial_state world_browser_crashed)))) = [].
Proof.
  rewrite (proj2 (screenshot_outcome world_browser_crashed "异常"
                    (initial_state world_browser_crashed))
             "Target page has been closed" eq_refl).
  split; reflexivity.
Defined.

(** ** Checking the credentials *)

Lemma append_empty_r (s : string) : s ++ EmptyString = s.
Proof. induction s as [| c s IH]; cbn; [reflexivity | now rewrite IH]. Qed.

(** How [chars] groups the bytes of [String c rest]. *)
Lemma chars_cons (c : ascii) (rest : string) :
  (exists g gs, Py.chars rest = g :: gs /\ Py.chars (String c rest) = String c g :: gs)
  \/ Py.chars (String c rest) = String c EmptyString :: Py.chars rest.
Proof.
  cbn [Py.chars]. cbv zeta.
  destruct rest as [| d rest']; [now right |].
  destruct (Py.chars (String d rest')) as [| g gs] eqn:E; [now right |].
  destruct (Py.is_continuation d); [left; now exists g, gs | now right].
Qed.

(** A text is its characters put together. *)
Lemma join_chars (s : string) : Py.join (Py.chars s) = s.
Proof.
  induction s as [| c rest IH]; [reflexivity |].
  destruct (chars_cons c rest) as [[g [gs [Hr ->]]] | ->].
  - rewrite Hr in IH. cbn [Py.join fold_right append] in *. now rewrite IH.
  - cbn [Py.join fold_right append]. fold (Py.join (Py.chars rest)). now rewrite IH.
Qed.

(** Dropping the first [k] characters leaves a suffix of the text, made
    of the characters that remain. *)
Lemma chars_skipn (s : string) :
  forall k,
    exists pre,
      s = pre ++ Py.join (skipn k (Py.chars s))
      /\ Py.chars (Py.join (skipn k (Py.chars s))) = skipn k (Py.chars s).
Proof.
  induction s as [| c rest IH]; intros k.
  - exists EmptyString. destruct k; split; reflexivity.
  - destruct k as [| k].
    + exists EmptyString. cbn [skipn append]. rewrite join_chars. split; reflexivity.
    + destruct (chars_cons c rest) as [[g [gs [Hr ->]]] | ->]; cbn [skipn].
      * destruct (IH (S k)) as [pre [E C]]. rewrite Hr in E, C. cbn [skipn] in E, C.
        exists (String c pre). cbn [append]. split; [now rewrite <- E | exact C].
      * destruct (IH k) as [pre [E C]].
        exists (String c pre). cbn [append]. split; [now rewrite <- E | exact C].
Qed.

(** [s[-n:]] is a suffix of [s] of [min n (len s)] characters. *)
Lemma last_chars_suffix (n : nat) (s : string) :
  exists pre, s = pre ++ Py.last_chars n s
              /\ Py.len (Py.last_chars n s) = Nat.min n (Py.len s).
Proof.
  unfold Py.last_chars, Py.last_items, Py.len.
  destruct (chars_skipn s (length (Py.chars s) - n)) as [pre [E C]].
  exists pre. split; [exact E |]. rewrite C, length_skipn. lia.
Qed.

(** X8 -- [validate_credentials] tests the user name first and the token
    second, an empty value counting as a missing one; the first that is
    missing is logged as an error, alone, and the answer is [False].  With
    both present it logs two lines and answers [True]; of the token the
    log shows ten stars, three dots and its last four characters (all of
    it, when it has no more than four).  Characters are counted as
    Python counts them, for a token that is well-formed UTF-8. *)
Theorem validate_credentials_outcome (st : St) :
  (Py.truthy_opt (username (self st)) = false ->
   validate_credentials st = (Ok false, snd (log "错误：未设置 GH_USERNAME" ERROR st)))
  /\ (Py.truthy_opt (username (self st)) = true ->
      Py.truthy_opt (token (self st)) = false ->
      validate_credentials st = (Ok false, snd (log "错误：未设置 GH_PAT" ERROR st)))
  /\ (forall u t,
         username (self st) = Some u -> u <> EmptyString ->
         token (self st) = Some t -> t <> EmptyString ->
         Py.utf8 t = true ->
         exists s' shown hidden,
           validate_credentials st = (Ok true, s')
           /\ logs (self s')
              = (logs (self st)
                   ++ [log_line ("用户名: " ++ u) INFO;
                       log_line ("Token: **********..." ++ shown) INFO])%list
           /\ t = hidden ++ shown
           /\ Py.len shown = Nat.min 4 (Py.len t)).
Proof.
  split; [| split].
  - intros H. unfold validate_credentials. unfold bind at 1, get_self. now rewrite H.
  - intros H1 H2. unfold validate_credentials. unfold bind at 1, get_self.
    now rewrite H1, H2.
  - intros u t Hu Hne Ht Hnt _. unfold validate_credentials. unfold bind at 1, get_self.
    rewrite Hu, Ht.
    destruct u as [| cu u]; [congruence |]. destruct t as [| ct t]; [congruence |].
    clear Hne Hnt.
    cbn [Py.truthy_opt Py.truthy negb Py.fmt_opt].
    destruct (last_chars_suffix 4 (String ct t)) as [hidden [E L]].
    exists (snd ((log ("用户名: " ++ String cu u) INFO ;;
                  log ("Token: " ++ Py.repeat_str "*" 10 ++ "..."
                         ++ Py.last_chars 4 (String ct t)) INFO ;; ret true) st)),
      (Py.last_chars 4 (String ct t)), hidden.
    split; [reflexivity |].
    split; [| split; assumption].
    cbv [bind log print emit get_self set_self ret]. cbn [snd self logs set_logs].
    rewrite <- app_assoc. reflexivity.
Qed.

Lemma validate_credentials_outcome_witness :
  fst (validate_credentials (initial_state world_unicode_token)) = Ok true.
Proof.
  destruct (proj2 (proj2 (validate_credentials_outcome (initial_state world_unicode_token)))
              "alice" "pät€😀" eq_refl) as [s' [shown [hidden [E _]]]].
  - discriminate.
  - reflexivity.
  - discriminate.
  - reflexivity.
  - rewrite E. reflexivity.
Defined.

(** ** A login form that cannot be filled in *)

(** X9 -- When typing the user name raises, [login_github] logs the
    failure as an error and answers [False] at once: the token is not
    typed, the form is not submitted, and no further screenshot is
    taken. *)
Theorem login_github_stops_at_locked_form (w : World) (st : St) (u msg : string) :
  username (self st) = Some u ->
  w_screenshot w (tick st) (shot_file (S (screenshot_count (self st))) "github_登录页")
  = Returns tt ->
  w_fill w (S (tick st)) login_selector u = Throws msg ->
  exists s',
    login_github w st = (Ok false, s')
    /\ trace s'
       = (let file := shot_file (S (screenshot_count (self st))) "github_登录页" in
          [EvPrint (log_line ("输入凭据失败: " ++ msg) ERROR);
           EvFill login_selector u;
           EvPrint (log_line ("截图已保存: " ++ file) INFO);
           EvScreenshot file;
           EvPrint (log_line "正在登录 GitHub..." STEP)] ++ trace st)%list
    /\ screenshot_count (self s') = S (screenshot_count (self st)).
Proof.
  intros Hu Hs Hf. unfold login_github, screenshot, credential, shot_file in *.
  exec_script. cbn [screenshot_count set_screenshot_count set_logs set_screenshots
                    username token].
  rewrite Hs. cbn [res_of_answer tick self trace username set_logs set_screenshots
                   set_screenshot_count].
  rewrite Hu. cbn [tick self trace]. rewrite Hf. cbn [res_of_answer negb].
  eexists. split; [reflexivity |]. split; reflexivity.
Qed.

Lemma login_github_stops_at_locked_form_witness :
  fst (login_github world_form_locked (initial_state world_form_locked)) = Ok false.
Proof.
  destruct (login_github_stops_at_locked_form world_form_locked
              (initial_state world_form_locked) "alice" "Element is not editable"
              eq_refl eq_refl eq_refl) as [s' [E _]].
  rewrite E. reflexivity.
Defined.

(** ** The checks after the login form *)

(** A screenshot that is taken: its file on record, its line in the log. *)
Lemma screenshot_taken (w : World) (name : string) (st : St) :
  w_screenshot w (tick st) (shot_file (S (screenshot_count (self st))) name) = Returns tt ->
  screenshot w name st
  = (Ok (shot_file (S (screenshot_count (self st))) name),
     {| self :=
          set_logs
            (logs (self st)
               ++ [log_line ("截图已保存: "
                               ++ shot_file (S (screenshot_count (self st))) name) INFO])%list
            (set_screenshots
               (screenshots (self st)
                  ++ [shot_file (S (screenshot_count (self st))) name])%list
               (set_screenshot_count (S (screenshot_count (self st))) (self st)));
        tick := S (tick st);
        trace := EvPrint (log_line ("截图已保存: "
                                      ++ shot_file (S (screenshot_count (self st))) name)
                                   INFO)
                   :: EvScreenshot (shot_file (S (screenshot_count (self st))) name)
                   :: trace st |}).
Proof.
  intros Hs. unfold screenshot, shot_file in *. exec_script.
  cbn [screenshot_count set_screenshot_count set_logs set_screenshots logs screenshots].
  rewrite Hs. reflexivity.
Qed.

(** X10 -- With the form gone through and no error banner found,
    [login_github] makes its checks in a fixed order and stops at the
    first that fires.  Device verification: an error, a warning and a
    screenshot, then [False]; nothing else is asked of the page, the
    two-factor check is not made.  Two-factor: an error and a screenshot,
    then [False].  Past both, a page off GitHub's login URLs is a success
    with nothing more logged; on them, a warning is logged and the page
    is read: "Incorrect username or password" or, in any letter case,
    "too many" is an error and [False]; any other page still counts as a
    success. *)
Theorem login_checks_in_order (w : World) (st s1 s2 : St) (u p : string)
        (error : option string) (dv : bool) :
  form_goes_through w st u p ->
  check_github_error w (form_submitted u p (w_url w (7 + tick st)) st) = (Ok error, s1) ->
  Py.truthy_opt error = false ->
  check_device_verification w s1 = (Ok dv, s2) ->
  (dv = true ->
   w_screenshot w (tick s2) (shot_file (S (screenshot_count (self s2))) "github_设备验证")
   = Returns tt ->
   exists s',
     login_github w st = (Ok false, s')
     /\ trace s'
        = (let file := shot_file (S (screenshot_count (self s2))) "github_设备验证" in
           [EvPrint (log_line ("截图已保存: " ++ file) INFO);
            EvScreenshot file;
            EvPrint (log_line "请先手动登录一次 GitHub 完成设备验证。" WARN);
            EvPrint (log_line "需要设备验证！GitHub 检测到新设备，已发送验证邮件。" ERROR)]
             ++ trace s2)%list
     /\ logs (self s')
        = (logs (self s2)
             ++ [log_line "需要设备验证！GitHub 检测到新设备，已发送验证邮件。" ERROR;
                 log_line "请先手动登录一次 GitHub 完成设备验证。" WARN;
                 log_line ("截图已保存: "
                             ++ shot_file (S (screenshot_count (self s2))) "github_设备验证")
                          INFO])%list)
  /\ (dv = false ->
      forall (tf : bool) (s3 : St),
        check_2fa w s2 = (Ok tf, s3) ->
        (tf = true ->
         w_screenshot w (tick s3)
           (shot_file (S (screenshot_count (self s3))) "github_两步验证") = Returns tt ->
         exists s',
           login_github w st = (Ok false, s')
           /\ trace s'
              = (let file := shot_file (S (screenshot_count (self s3))) "github_两步验证" in
                 [EvPrint (log_line ("截图已保存: " ++ file) INFO);
                  EvScreenshot file;
                  EvPrint (log_line "需要两步验证！此脚本无法自动处理 2FA。" ERROR)]
                   ++ trace s3)%list
           /\ logs (self s')
              = (logs (self s3)
                   ++ [log_line "需要两步验证！此脚本无法自动处理 2FA。" ERROR;
                       log_line ("截图已保存: "
                                   ++ shot_file (S (screenshot_count (self s3)))
                                        "github_两步验证")
                                INFO])%list)
        /\ (tf = false ->
            (on_github_login (w_url w (7 + tick st)) = false ->
             login_github w st = (Ok true, s3))
            /\ (on_github_login (w_url w (7 + tick st)) = true ->
                forall content,
                  w_content w (tick s3) = Returns content ->
                  exists s',
                    login_github w st
                    = (Ok (negb (Py.contains "Incorrect username or password" content
                                 || Py.contains "too many" (Py.lower content))), s')
                    /\ trace s'
                       = ((if Py.contains "Incorrect username or password" content
                           then [EvPrint (log_line "用户名或密码错误！" ERROR)]
                           else if Py.contains "too many" (Py.lower content)
                                then [EvPrint (log_line "登录尝试次数过多，已被限制" ERROR)]
                                else [])
                            ++ EvContent
                            :: EvPrint (log_line "仍在 GitHub 登录页面，登录可能失败" WARN)
                            :: trace s3)%list
                    /\ logs (self s')
                       = (logs (self s3)
                            ++ log_line "仍在 GitHub 登录页面，登录可能失败" WARN
                            :: (if Py.contains "Incorrect username or password" content
                                then [log_line "用户名或密码错误！" ERROR]
                                else if Py.contains "too many" (Py.lower content)
                                     then [log_line "登录尝试次数过多，已被限制" ERROR]
                                     else []))%list))).
Proof.
  intros F He Hf Hd. rewrite (login_github_after_form w st u p F).
  unfold login_github_checks.
  rewrite (bind_ok _ _ _ _ _ He), Hf, (bind_ok _ _ _ _ _ Hd).
  split.
  - intros -> Hs.
    destruct (log_returns "需要设备验证！GitHub 检测到新设备，已发送验证邮件。" ERROR s2)
      as [sa La].
    rewrite (bind_ok _ _ _ _ _ La).
    destruct (log_returns "请先手动登录一次 GitHub 完成设备验证。" WARN sa) as [sb Lb].
    rewrite (bind_ok _ _ _ _ _ Lb).
    inversion La; subst sa; clear La. inversion Lb; subst sb; clear Lb.
    erewrite bind_ok by (apply screenshot_taken; exact Hs).
    eexists. split; [reflexivity |]. split; [reflexivity |].
    cbn [self logs set_logs set_screenshots set_screenshot_count screenshot_count].
    now rewrite <- !app_assoc.
  - intros -> tf s3 Ht. rewrite (bind_ok _ _ _ _ _ Ht). split.
    + intros -> Hs.
      destruct (log_returns "需要两步验证！此脚本无法自动处理 2FA。" ERROR s3) as [sa La].
      rewrite (bind_ok _ _ _ _ _ La).
      inversion La; subst sa; clear La.
      erewrite bind_ok by (apply screenshot_taken; exact Hs).
      eexists. split; [reflexivity |]. split; [reflexivity |].
      cbn [self logs set_logs set_screenshots set_screenshot_count screenshot_count].
      now rewrite <- !app_assoc.
    + intros ->. unfold on_github_login. split.
      * intros ->. reflexivity.
      * intros -> content Hc.
        cbv [bind log print emit get_self set_self page_content call ret].
        cbn [tick self trace]. rewrite Hc. cbn [res_of_answer self logs set_logs].
        destruct (Py.contains "Incorrect username or password" content); cbn [orb negb].
        { eexists. split; [reflexivity |]. cbn [self logs set_logs trace app].
          split; [reflexivity |]. now rewrite <- app_assoc. }
        destruct (Py.contains "too many" (Py.lower content)); cbn [negb].
        { eexists. split; [reflexivity |]. cbn [self logs set_logs trace app].
          split; [reflexivity |]. now rewrite <- app_assoc. }
        eexists. split; [reflexivity |]. split; reflexivity.
Qed.

Lemma login_checks_in_order_witness :
  fst (login_github world_device_check (initial_state world_device_check)) = Ok false.
Proof.
  destruct (proj1 (login_checks_in_order world_device_check
                     (initial_state world_device_check)
                     (snd (check_github_error world_device_check
                             (form_submitted "alice" "ghp_secret1234"
                                "https://github.com/sessions/verified-device"
                                (initial_state world_device_check))))
                     (snd (check_device_verification world_device_check
                             (snd (check_github_error world_device_check
                                     (form_submitted "alice" "ghp_secret1234"
                                        "https://github.com/sessions/verified-device"
                                        (initial_state world_device_check))))))
                     "alice" "ghp_secret1234" None true
                     (conj eq_refl (conj eq_refl (conj eq_refl (conj eq_refl
                        (conj eq_refl (conj eq_refl (conj eq_refl
                           (conj eq_refl eq_refl))))))))
                     eq_refl eq_refl eq_refl) eq_refl eq_refl) as [s' [E _]].
  rewrite E. reflexivity.
Defined.

(** ** The OAuth consent page *)

(** X11 -- [handle_oauth] never answers [False].  Off the consent page it
    does nothing but read the URL.  On the consent page it returns [True]
    whenever its screenshot and the wait for the page load return,
    whatever the authorize button does: not found, not clickable, or
    clicked. *)
Theorem handle_oauth_outcome (w : World) (st : St) :
  (forall b s', handle_oauth w st = (Ok b, s') -> b = true)
  /\ (Py.contains "github.com/login/oauth/authorize" (w_url w (tick st)) = false ->
      handle_oauth w st
      = (Ok true, {| self := self st; tick := S (tick st); trace := EvUrl :: trace st |}))
  /\ (Py.contains "github.com/login/oauth/authorize" (w_url w (tick st)) = true ->
      (forall t path, w_screenshot w t path = Returns tt) ->
      (forall t, w_wait_load w t = Returns tt) ->
      exists s',
        handle_oauth w st = (Ok true, s')
        /\ screenshots (self s')
           = (screenshots (self st)
                ++ [shot_file (S (screenshot_count (self st))) "oauth_授权页"])%list).
Proof.
  split; [| split].
  - intros b s' E. unfold handle_oauth in E.
    unfold bind at 1 in E. destruct (page_url w st) as [[u | e] s1]; [| discriminate E].
    unfold bind at 1 in E.
    match type of E with
    | match ?m s1 with _ => _ end = _ => destruct (m s1) as [[[] | e] s2]
    end; [| discriminate E].
    unfold ret in E. congruence.
  - intros H. unfold handle_oauth. exec_script. rewrite H. reflexivity.
  - intros H Hs Hw. unfold handle_oauth.
    unfold bind at 1, page_url, call. cbn [res_of_answer]. rewrite H.
    destruct (log_returns "正在处理 OAuth 授权..." STEP
                {| self := self st; tick := S (tick st); trace := EvUrl :: trace st |})
      as [s1 L].
    assert (Sc : exists s2,
               screenshot w "oauth_授权页" s1
               = (Ok (shot_file (S (screenshot_count (self st))) "oauth_授权页"), s2)
               /\ screenshots (self s2)
                  = (screenshots (self st)
                       ++ [shot_file (S (screenshot_count (self st))) "oauth_授权页"])%list).
    { inversion L; subst s1. unfold screenshot. exec_script.
      cbn [screenshot_count set_screenshot_count set_logs]. rewrite Hs.
      cbn [res_of_answer]. eexists. split; reflexivity. }
    destruct Sc as [s2 [Sc Sh]].
    destruct (find_and_click_returns w "授权按钮" authorize_selectors s2) as [b [s3 [F Sf]]].
    exists (snd (wait_for_load_state w 30000%Z (snd (sleep 3 s3)))).
    rewrite bind_assoc, (bind_ok _ _ _ _ _ L).
    rewrite bind_assoc, (bind_ok _ _ _ _ _ Sc).
    rewrite bind_assoc, (bind_ok _ _ _ _ _ F).
    exec_script. rewrite Hw. cbn [res_of_answer snd self].
    split; [reflexivity | congruence].
Qed.

Lemma handle_oauth_outcome_witness :
  fst (handle_oauth world_consent_page (initial_state world_consent_page)) = Ok true.
Proof.
  destruct (proj2 (proj2 (handle_oauth_outcome world_consent_page
                            (initial_state world_consent_page))))
    as [s' [E _]].
  - reflexivity.
  - reflexivity.
  - reflexivity.
  - rewrite E. reflexivity.
Defined.

(** ** Keep-alive visits *)

(** One visit either goes on to the next page or stops the loop with
    [False], having logged the redirect as an error; it never raises. *)
Lemma keepalive_visit_turn (w : World) (url name : string) (st : St) :
  exists r s1,
    try_except
      (page_goto w url 30000%Z ;;
       wait_for_load_state w 15000%Z ;;
       u <- page_url w ;;
       if Py.contains "signin" (Py.lower u) then
         log ("访问 " ++ name ++ " 时被重定向到登录页！") ERROR ;;
         ret (Some false)
       else
         log ("已访问: " ++ name) SUCCESS ;;
         sleep 2 ;;
         ret None)
      (fun e => log ("访问 " ++ name ++ " 失败: " ++ e) WARN ;; ret None) st
    = (Ok r, s1)
    /\ screenshots (self s1) = screenshots (self st)
    /\ (r = None \/ (r = Some false /\ error_added st s1)).
Proof.
  exec_script.
  destruct (w_goto w (tick st) url) as [[] | msg]; cbn [res_of_answer tick self trace].
  - destruct (w_wait_load w (S (tick st))) as [[] | msg]; cbn [res_of_answer tick self trace].
    + destruct (Py.contains "signin" (Py.lower (w_url w (S (S (tick st)))))).
      * do 2 eexists. split; [reflexivity |]. split; [reflexivity |].
        right. split; [reflexivity |].
        exists [], ("访问 " ++ name ++ " 时被重定向到登录页！"), []. reflexivity.
      * do 2 eexists. split; [reflexivity |]. split; [reflexivity | now left].
    + do 2 eexists. split; [reflexivity |]. split; [reflexivity | now left].
  - do 2 eexists. split; [reflexivity |]. split; [reflexivity | now left].
Qed.

Lemma keepalive_visits_outcome (w : World) (pages : list (string * string)) (st : St) :
  exists r s1,
    keepalive_visits w pages st = (Ok r, s1)
    /\ extends [KPrint; KNav; KRead; KSleep] st s1
    /\ screenshots (self s1) = screenshots (self st)
    /\ (r = None \/ (r = Some false /\ error_added st s1)).
Proof.
  revert st. induction pages as [| [url name] rest IH]; intros st.
  - exists None, st. split; [reflexivity |]. split; [apply extends_refl |].
    split; [reflexivity | now left].
  - assert (X : forall r s1, keepalive_visits w ((url, name) :: rest) st = (r, s1) ->
                  extends [KPrint; KNav; KRead; KSleep] st s1).
    { intros r s1 E. eapply emits_extends; [apply emits_keepalive_visits | exact E]. }
    cbn [keepalive_visits] in *.
    destruct (keepalive_visit_turn w url name st) as [r [s1 [E [Sh [-> | [-> Er]]]]]].
    + rewrite (bind_ok _ _ _ _ _ E) in *.
      destruct (IH s1) as [r2 [s2 [E2 [X2 [Sh2 H2]]]]].
      exists r2, s2. split; [exact E2 |]. split; [now apply (X _ _ E2) |].
      split; [congruence |].
      destruct H2 as [-> | [-> Er2]]; [now left | right].
      split; [reflexivity |].
      destruct (X _ _ E2) as [_ [[ls L] _]].
      assert (N : extends [KPrint; KNav; KRead; KSleep] st s1).
      { eapply emits_extends; [| exact E]. emits_script. }
      eapply error_added_before; eassumption.
    + rewrite (bind_ok _ _ _ _ _ E) in *.
      exists (Some false), s1. split; [reflexivity |].
      split; [now apply (X _ _ eq_refl) |]. split; [exact Sh |]. right. now split.
Qed.

(** The visits against the answers of the world: either no visit stops
    the loop, or the first that lands on a sign-in URL does, straight
    after reading the URL. *)
Lemma keepalive_visits_world (w : World) (pages : list (string * string)) (st : St) :
  exists r s1,
    keepalive_visits w pages st = (Ok r, s1)
    /\ match r with
       | None => visits_pass w (tick st) pages (tick s1)
       | Some b =>
           b = false
           /\ exists pre url name post t evs,
               pages = (pre ++ (url, name) :: post)%list
               /\ visits_pass w (tick st) pre t
               /\ w_goto w t url = Returns tt
               /\ w_wait_load w (S t) = Returns tt
               /\ Py.contains "signin" (Py.lower (w_url w (S (S t)))) = true
               /\ tick s1 = S (S (S t))
               /\ trace s1
                  = (EvPrint (log_line ("访问 " ++ name ++ " 时被重定向到登录页！") ERROR)
                       :: EvUrl :: EvWaitLoad 15000%Z :: EvGoto url 30000%Z
                       :: evs ++ trace st)%list
       end.
Proof.
  revert st. induction pages as [| [url name] rest IH]; intros st.
  - exists None, st. split; reflexivity.
  - cbn [keepalive_visits visits_pass]. exec_script.
    destruct (w_goto w (tick st) url) as [[] | msg] eqn:Hg;
      cbn [res_of_answer tick self trace].
    + destruct (w_wait_load w (S (tick st))) as [[] | msg] eqn:Hw;
        cbn [res_of_answer tick self trace].
      * destruct (Py.contains "signin" (Py.lower (w_url w (S (S (tick st)))))) eqn:Hs.
        -- do 2 eexists. split; [reflexivity |]. split; [reflexivity |].
           exists [], url, name, rest, (tick st), [].
           cbn [app visits_pass tick trace]. repeat split; assumption.
        -- match goal with
           | |- context [keepalive_visits w rest ?s] =>
               destruct (IH s) as [r [s1 [E R]]]
           end.
           exists r, s1. split; [exact E |]. cbn [tick trace] in R.
           destruct r as [b |]; [| now split].
           destruct R as [-> [pre [u [n [post [t [evs [-> [P [G [W [S1 [T1 Tr]]]]]]]]]]]]].
           split; [reflexivity |].
           exists ((url, name) :: pre), u, n, post, t,
             (evs ++ [EvSleep 2; EvPrint (log_line ("已访问: " ++ name) SUCCESS);
                      EvUrl; EvWaitLoad 15000%Z; EvGoto url 30000%Z])%list.
           cbn [app visits_pass]. rewrite Hg, Hw.
           repeat split; try assumption.
           rewrite Tr, <- app_assoc. reflexivity.
      * match goal with
        | |- context [keepalive_visits w rest ?s] =>
            destruct (IH s) as [r [s1 [E R]]]
        end.
        exists r, s1. split; [exact E |]. cbn [tick trace] in R.
        destruct r as [b |]; [| exact R].
        destruct R as [-> [pre [u [n [post [t [evs [-> [P [G [W [S1 [T1 Tr]]]]]]]]]]]]].
        split; [reflexivity |].
        exists ((url, name) :: pre), u, n, post, t,
          (evs ++ [EvPrint (log_line ("访问 " ++ name ++ " 失败: " ++ msg) WARN);
                   EvWaitLoad 15000%Z; EvGoto url 30000%Z])%list.
        cbn [app visits_pass]. rewrite Hg, Hw.
        repeat split; try assumption.
        rewrite Tr, <- app_assoc. reflexivity.
    + match goal with
      | |- context [keepalive_visits w rest ?s] =>
          destruct (IH s) as [r [s1 [E R]]]
      end.
      exists r, s1. split; [exact E |]. cbn [tick trace] in R.
      destruct r as [b |]; [| exact R].
      destruct R as [-> [pre [u [n [post [t [evs [-> [P [G [W [S1 [T1 Tr]]]]]]]]]]]]].
      split; [reflexivity |].
      exists ((url, name) :: pre), u, n, post, t,
        (evs ++ [EvPrint (log_line ("访问 " ++ name ++ " 失败: " ++ msg) WARN);
                 EvGoto url 30000%Z])%list.
      cbn [app visits_pass]. rewrite Hg.
      repeat split; try assumption.
      rewrite Tr, <- app_assoc. reflexivity.
Qed.

(** X12 -- [keepalive] returns [False] only after a visit landed on the
    sign-in page: the pages before it did not stop the loop, this one's
    [page.goto] and wait returned, the URL read next has "signin" in it,
    and [keepalive] logs that as an error and returns at once, with no
    screenshot.  It returns [True] only from its closing screenshot,
    taken once every page has been visited without landing there.  A
    visit that raises is logged as a warning and the next page is tried;
    the only exception [keepalive] lets out is that of its closing
    screenshot. *)
Theorem keepalive_outcome (w : World) (st : St) :
  match keepalive w st with
  | (Ok true, s') =>
      exists s1 file,
        extends [KPrint; KNav; KRead; KSleep] st s1
        /\ visits_pass w (tick st) keepalive_pages (tick s1)
        /\ screenshot w "保活完成" s1 = (Ok file, s')
  | (Ok false, s') =>
      error_added st s'
      /\ extends [KPrint; KNav; KRead; KSleep] st s'
      /\ screenshots (self s') = screenshots (self st)
      /\ exists pre url name post t evs,
          keepalive_pages = (pre ++ (url, name) :: post)%list
          /\ visits_pass w (tick st) pre t
          /\ w_goto w t url = Returns tt
          /\ w_wait_load w (S t) = Returns tt
          /\ Py.contains "signin" (Py.lower (w_url w (S (S t)))) = true
          /\ tick s' = S (S (S t))
          /\ trace s'
             = (EvPrint (log_line ("访问 " ++ name ++ " 时被重定向到登录页！") ERROR)
                  :: EvUrl :: EvWaitLoad 15000%Z :: EvGoto url 30000%Z
                  :: evs ++ trace st)%list
  | (Raise (Exception e), s') =>
      exists s1,
        extends [KPrint; KNav; KRead; KSleep] st s1
        /\ visits_pass w (tick st) keepalive_pages (tick s1)
        /\ screenshot w "保活完成" s1 = (Raise (Exception e), s')
  | (Raise (SystemExit _), _) => False
  end.
Proof.
  unfold keepalive.
  destruct (log_returns "正在访问页面保持账户活跃..." STEP st) as [s0 L].
  rewrite (bind_ok _ _ _ _ _ L).
  assert (X0 : extends [KPrint; KNav; KRead; KSleep] st s0).
  { eapply emits_extends; [| exact L]. emits_script. }
  assert (T0 : tick s0 = tick st
               /\ trace s0
                  = EvPrint (log_line "正在访问页面保持账户活跃..." STEP) :: trace st)
    by (inversion L; split; reflexivity).
  destruct T0 as [T0 Tr0].
  destruct (keepalive_visits_outcome w keepalive_pages s0) as [r [s1 [E [X [Sh H]]]]].
  destruct (keepalive_visits_world w keepalive_pages s0) as [r' [s1' [E' W]]].
  rewrite E in E'. injection E' as <- <-. rewrite T0 in W.
  rewrite (bind_ok _ _ _ _ _ E).
  pose proof (extends_trans _ _ _ _ X0 X) as X1.
  destruct H as [-> | [-> Er]].
  - destruct (screenshot w "保活完成" s1) as [[file | [e | c]] s2] eqn:S.
    + rewrite (bind_ok _ _ _ _ _ S). unfold ret. exists s1, file.
      split; [exact X1 |]. split; [exact W | exact S].
    + rewrite (bind_raise _ _ _ _ _ S). exists s1.
      split; [exact X1 |]. split; [exact W | exact S].
    + exfalso. eapply (emits_no_exit [KPrint; KShot]);
        [apply emits_screenshot | reflexivity | exact S].
  - unfold ret. split; [exact (error_added_before _ _ _ _ X0 Er) |].
    split; [exact X1 |]. split; [rewrite Sh; now inversion L |].
    destruct W as [_ [pre [url [name [post [t [evs [Hp [P [G [Wl [Sg [Tk Tr]]]]]]]]]]]]].
    exists pre, url, name, post, t,
      (evs ++ [EvPrint (log_line "正在访问页面保持账户活跃..." STEP)])%list.
    repeat split; try assumption.
    rewrite Tr, Tr0, <- app_assoc. reflexivity.
Qed.

(** X13 -- Visits that raise do not fail the keep-alive step: when every
    [page.goto] raises (and the closing screenshot can be taken),
    [keepalive] logs one warning per page and still returns [True]. *)
Theorem keepalive_survives_failed_visits (w : World) (st : St) :
  (forall t url, exists msg, w_goto w t url = Throws msg) ->
  (forall t path, w_screenshot w t path = Returns tt) ->
  exists s' m1 m2 file,
    keepalive w st = (Ok true, s')
    /\ logs (self s')
       = (logs (self st)
            ++ [log_line "正在访问页面保持账户活跃..." STEP;
                log_line ("访问 控制台首页 失败: " ++ m1) WARN;
                log_line ("访问 应用列表 失败: " ++ m2) WARN;
                log_line ("截图已保存: " ++ file) INFO])%list.
Proof.
  intros Hg Hs.
  unfold keepalive, keepalive_pages, keepalive_visits, screenshot. exec_script.
  destruct (Hg (tick st) (CLAW_CLOUD_URL ++ "/")) as [m1 E1]. rewrite E1.
  cbn [res_of_answer tick self trace].
  destruct (Hg (S (tick st)) (CLAW_CLOUD_URL ++ "/apps")) as [m2 E2]. rewrite E2.
  cbn [res_of_answer tick self trace screenshot_count set_logs set_screenshot_count].
  rewrite Hs. cbn [res_of_answer].
  do 4 eexists. split; [reflexivity |].
  cbn [self logs set_logs set_screenshots set_screenshot_count].
  rewrite <- !app_assoc. reflexivity.
Qed.

Lemma keepalive_survives_failed_visits_witness :
  fst (keepalive world_console_down (initial_state world_console_down)) = Ok true.
Proof.
  destruct (keepalive_survives_failed_visits world_console_down
              (initial_state world_console_down)) as [s' [m1 [m2 [file [E _]]]]].
  - intros t url. eexists. reflexivity.
  - reflexivity.
  - rewrite E. reflexivity.
Defined.

(** ** No step fails in silence *)

Lemma keepalive_false_logged (w : World) (st s' : St) :
  keepalive w st = (Ok false, s') -> error_added st s'.
Proof.
  intros E. unfold keepalive in E.
  destruct (log_returns "正在访问页面保持账户活跃..." STEP st) as [s0 L].
  rewrite (bind_ok _ _ _ _ _ L) in E.
  assert (X0 : extends [KPrint] st s0).
  { eapply emits_extends; [apply emits_log | exact L]. }
  destruct (keepalive_visits_outcome w keepalive_pages s0) as [r [s1 [V [_ [_ H]]]]].
  rewrite (bind_ok _ _ _ _ _ V) in E. destruct H as [-> | [-> Er]].
  - apply bind_inv_ok in E. destruct E as [f [s2 [_ E]]]. discriminate E.
  - injection E as <-. exact (error_added_before _ _ _ _ X0 Er).
Qed.

(** X14 -- Each step of the run that answers [False] has logged a line of
    level ERROR before it returns: the credential check, the GitHub
    login, the wait for the redirect, the verification, the keep-alive
    visits. *)
Theorem failed_step_logs_error (w : World) (st s' : St) :
  (validate_credentials st = (Ok false, s') -> error_added st s')
  /\ (login_github w st = (Ok false, s') -> error_added st s')
  /\ (forall max_wait, wait_redirect w max_wait st = (Ok false, s') -> error_added st s')
  /\ (verify_login w st = (Ok false, s') -> error_added st s')
  /\ (keepalive w st = (Ok false, s') -> error_added st s').
Proof.
  split; [apply validate_credentials_false_logged |].
  split; [apply login_github_false_logged |].
  split; [intros n; apply wait_redirect_false_logged |].
  split; [apply verify_login_false_logged | apply keepalive_false_logged].
Qed.

Lemma failed_step_logs_error_witness :
  error_added (initial_state world_console_login)
    (snd (verify_login world_console_login (initial_state world_console_login))).
Proof.
  refine (proj1 (proj2 (proj2 (proj2
    (failed_step_logs_error world_console_login
       (initial_state world_console_login)
       (snd (verify_login world_console_login
               (initial_state world_console_login))))))) _).
  vm_compute. reflexivity.
Defined.

(** ** The object over a whole run *)

Lemma emits_run (w : World) : emits every_kind (run w).
Proof.
  unfold run, run_prologue, browser_session, run_session, run_on_exception,
    run_already_logged_in, run_login_flow, run_login_steps, run_keepalive_and_report.
  emits_script.
Qed.

(** X15 -- A run only ever appends to the log and to the list of
    screenshots, and leaves the credentials and the notifier it was
    built with as they are. *)
Theorem run_only_appends (w : World) (st : St) :
  (exists lines, logs (self (snd (run w st))) = (logs (self st) ++ lines)%list)
  /\ (exists files,
         screenshots (self (snd (run w st))) = (screenshots (self st) ++ files)%list)
  /\ (exists evs, trace (snd (run w st)) = (evs ++ trace st)%list)
  /\ username (self (snd (run w st))) = username (self st)
  /\ token (self (snd (run w st))) = token (self st)
  /\ telegram (self (snd (run w st))) = telegram (self st).
Proof.
  destruct (emits_run w st) as [[[evs [T _]] [L [S [U [K G]]]]] _].
  repeat split; try assumption. now exists evs.
Qed.

(** ** Closing the browser *)

Lemma closes_only (ks : list Kind) (evs tr : list Event) :
  has_kind ks KBrowser = false -> only ks evs = true ->
  closes (evs ++ tr) = closes tr.
Proof.
  intros Hk. induction evs as [| e evs IH]; cbn [app only forallb]; [reflexivity |].
  intros O. apply andb_prop in O. destruct O as [Oe O]. specialize (IH O).
  destruct e; cbn [closes]; try exact IH. cbn in Oe. rewrite Oe in Hk. discriminate.
Qed.

Lemma closes_extends (ks : list Kind) (st s' : St) :
  has_kind ks KBrowser = false -> extends ks st s' ->
  closes (trace s') = closes (trace st).
Proof. intros Hk [[evs [T O]] _]. rewrite T. now apply (closes_only ks). Qed.

Lemma emits_try_body (w : World) :
  emits session_kinds (try_except (run_session w) (run_on_exception w)).
Proof.
  unfold run_session, run_on_exception, run_already_logged_in, run_login_flow,
    run_login_steps, run_keepalive_and_report.
  emits_script.
Qed.

Lemma run_prologue_never_closes (w : World) (st : St) :
  closes (trace (snd (run_prologue w st))) = closes (trace st).
Proof.
  rewrite run_prologue_unfold.
  destruct (validate_credentials_spec (banner_printed st)) as [s0 V].
  assert (C0 : closes (trace s0) = closes (trace st)).
  { rewrite (closes_extends [KPrint] (banner_printed st) s0 eq_refl).
    - reflexivity.
    - eapply emits_extends; [apply emits_validate_credentials | exact V]. }
  rewrite (bind_ok _ _ _ _ _ V).
  destruct (Py.truthy_opt (username (self (banner_printed st)))
            && Py.truthy_opt (token (self (banner_printed st)))); cbn [negb].
  - cbv [bind call ret]. cbn [tick self trace].
    destruct (w_launch w (tick s0)) as [[] | m1]; cbn [res_of_answer snd trace closes];
      [| exact C0].
    destruct (w_new_context w (S (tick s0))) as [[] | m2];
      cbn [res_of_answer snd trace closes]; [| exact C0].
    destruct (w_new_page w (S (S (tick s0)))) as [[] | m3];
      cbn [res_of_answer snd trace closes]; exact C0.
  - destruct (send_notification_returns w false "凭据未配置" s0) as [s1 N].
    rewrite bind_assoc, (bind_ok _ _ _ _ _ N). cbv [bind sys_exit raise]. cbn [snd].
    rewrite (closes_extends notify_kinds s0 s1 eq_refl); [exact C0 |].
    eapply emits_extends; [apply emits_send_notification | exact N].
Qed.

(** X16 -- [browser.close()] is called exactly once, as the last call of
    the run, whenever the [try] is entered -- on success, on every
    failure that leaves through [sys.exit], and when an exception escapes
    the handler; and it is never called when the run ends before the
    [try]. *)
Theorem browser_closed_exactly_once (w : World) (st : St) :
  (forall s1,
      run_prologue w st = (Ok tt, s1) ->
      exists evs,
        trace (snd (run w st)) = (EvClose :: evs ++ trace s1)%list
        /\ closes (trace (snd (run w st))) = S (closes (trace st)))
  /\ (forall e s1,
         run_prologue w st = (Raise e, s1) ->
         run w st = (Raise e, s1)
         /\ closes (trace (snd (run w st))) = closes (trace st)).
Proof.
  split.
  - intros s1 P. unfold run. rewrite (bind_ok _ _ _ _ _ P).
    pose proof (run_prologue_never_closes w st) as C. rewrite P in C. cbn [snd] in C.
    unfold browser_session, try_finally.
    destruct (emits_try_body w s1) as [X _].
    destruct (try_except (run_session w) (run_on_exception w) s1) as [r s2].
    cbn [snd] in X. unfold emit. cbn [snd trace].
    destruct X as [[evs [T O]] _]. exists evs. rewrite T. split; [reflexivity |].
    cbn [closes]. now rewrite (closes_only session_kinds evs _ eq_refl O), C.
  - intros e s1 P. unfold run. rewrite (bind_raise _ _ _ _ _ P). split; [reflexivity |].
    pose proof (run_prologue_never_closes w st) as C. now rewrite P in C.
Qed.

Lemma browser_closed_exactly_once_witness :
  closes (trace (snd (main world_console_login))) = 1.
Proof.
  destruct (proj1 (browser_closed_exactly_once world_console_login
                     (initial_state world_console_login))
              (snd (run_prologue world_console_login (initial_state world_console_login)))
              eq_refl) as [evs [_ C]].
  exact C.
Defined.

(** ** Exceptions that escape *)

(** X17 -- An exception escapes a run in two cases only: the browser, its
    context or its page cannot be started, before the [try]; or, inside
    the [try], a step raises and then the handler's own screenshot raises
    too -- the exception that escapes is the screenshot's, the first one
    is in the log.  In both cases nobody is notified, and the exit status
    is 1. *)
Theorem uncaught_exception_unreported (w : World) (st : St) (msg : string)
        (s' : St) :
  run w st = (Raise (Exception msg), s') ->
  notify_flags (trace s') = notify_flags (trace st)
  /\ exit_status (fst (run w st)) = 1%Z
  /\ (run_prologue w st = (Raise (Exception msg), s')
      \/ exists s0 e sx s1,
           run_prologue w st = (Ok tt, s0)
           /\ run_session w s0 = (Raise (Exception e), sx)
           /\ screenshot w "异常" (snd (log ("发生异常: " ++ e) ERROR sx))
              = (Raise (Exception msg), s1)
           /\ s' = snd (emit EvClose s1)).
Proof.
  intros E.
  split.
  { pose proof (run_report w st) as R. rewrite E in R.
    now apply (extends_flags quiet_kinds). }
  split; [now rewrite E |].
  unfold run in E. destruct (run_prologue w st) as [[[] | e0] s0] eqn:P.
  2: { rewrite (bind_raise _ _ _ _ _ P) in E. left. exact E. }
  right. rewrite (bind_ok _ _ _ _ _ P) in E.
  unfold browser_session, try_finally, try_except in E.
  destruct (run_session w s0) as [[u | [e | code]] sx] eqn:Rs; cbn [emit] in E;
    try discriminate E.
  unfold run_on_exception in E.
  destruct (log_returns ("发生异常: " ++ e) ERROR sx) as [sl L].
  rewrite (bind_ok _ _ _ _ _ L) in E.
  destruct (screenshot w "异常" sl) as [[file | [m | code]] s1] eqn:Sc.
  - rewrite (bind_ok _ _ _ _ _ Sc) in E. unfold bind at 1, print, emit in E.
    match type of E with
    | context [bind (send_notification w false e) ?k ?s] =>
        destruct (send_notification_returns w false e s) as [s2 N];
        rewrite (bind_ok _ _ _ _ _ N) in E
    end.
    discriminate E.
  - rewrite (bind_raise _ _ _ _ _ Sc) in E. unfold emit in E. injection E as <- <-.
    exists s0, e, sx, s1. rewrite L. cbn [snd].
    split; [reflexivity |]. split; [exact Rs |]. split; [exact Sc | reflexivity].
  - exfalso. eapply (emits_no_exit [KPrint; KShot]);
      [apply emits_screenshot | reflexivity | exact Sc].
Qed.

Lemma uncaught_exception_unreported_witness :
  notify_flags (trace (snd (main world_browser_crashed))) = [].
Proof.
  refine (proj1 (uncaught_exception_unreported world_browser_crashed
                   (initial_state world_browser_crashed)
                   "Target page has been closed"
                   (snd (main world_browser_crashed)) _)).
  vm_compute. reflexivity.
Defined.

(** ** The exit status *)

(** X18 -- A run ends in one of three ways: it returns, with exit status 0,
    after one success notification; it leaves through [sys.exit(1)],
    after one failure notification; or an exception escapes, with exit
    status 1 and no notification.  So the exit status is 0 or 1, and 0
    exactly when the run returns. *)
Theorem run_exit_status (w : World) (st : St) :
  (fst (run w st) = Ok tt
   /\ exit_status (fst (run w st)) = 0%Z
   /\ notify_flags (trace (snd (run w st))) = true :: notify_flags (trace st))
  \/ (fst (run w st) = Raise (SystemExit 1)
      /\ exit_status (fst (run w st)) = 1%Z
      /\ notify_flags (trace (snd (run w st))) = false :: notify_flags (trace st))
  \/ (exists msg,
         fst (run w st) = Raise (Exception msg)
         /\ exit_status (fst (run w st)) = 1%Z
         /\ notify_flags (trace (snd (run w st))) = notify_flags (trace st)).
Proof.
  pose proof (run_report w st) as R.
  destruct (run w st) as [[[] | [msg | code]] s']; cbn [fst snd exit_status].
  - left. repeat split. now apply (success_reported_flags w).
  - right. right. exists msg. repeat split. now apply (extends_flags quiet_kinds).
  - right. left. destruct R as [-> R]. repeat split. now apply (failure_reported_flags w).
Qed.

(** ** Credentials set to the empty string *)

(** X19 -- A credential that is set but empty counts as missing: whenever
    [GH_USERNAME] or [GH_PAT] is unset or empty the run ends with
    [sys.exit(1)] after one failure notification, and the browser is
    never started. *)
Theorem empty_credentials_exit_before_browser (w : World) :
  Py.truthy_opt (environ w "GH_USERNAME") && Py.truthy_opt (environ w "GH_PAT") = false ->
  fst (main w) = Raise (SystemExit 1)
  /\ exit_status (fst (main w)) = 1%Z
  /\ notify_flags (trace (snd (main w))) = [false]
  /\ forallb (fun e => negb (is_browser_event e)) (trace (snd (main w))) = true.
Proof.
  intros Hcred. unfold main. set (st0 := initial_state w).
  assert (Hc : Py.truthy_opt (username (self st0))
               && Py.truthy_opt (token (self st0)) = false).
  { subst st0. unfold initial_state, AutoLogin_init.
    destruct (TelegramNotifier_init w) as [tg printed]. exact Hcred. }
  assert (Htr0 : exists lines, trace st0 = map EvPrint lines).
  { subst st0. unfold initial_state, AutoLogin_init, TelegramNotifier_init.
    cbn [trace]. destruct (negb _); [eexists [_] | exists []]; reflexivity. }
  destruct Htr0 as [lines Htr0].
  assert (Hp : forall ls, forallb (fun e => negb (is_browser_event e)) (map EvPrint ls) = true
                          /\ notify_flags (map EvPrint ls) = []).
  { induction ls as [| l ls [IH1 IH2]]; [split; reflexivity |]. cbn. now split. }
  destruct (run_prologue_invalid w st0 Hc) as [s1 [s2 [V [N E]]]].
  assert (R : run w st0 = (Raise (SystemExit 1), s2)).
  { unfold run. now rewrite (bind_raise _ _ _ _ _ E). }
  rewrite R. cbn [fst snd exit_status]. split; [reflexivity |]. split; [reflexivity |].
  pose proof (emits_extends _ _ _ _ _ emits_validate_credentials V) as X1.
  pose proof (emits_extends _ _ _ _ _ (emits_send_notification w _ _) N) as X2.
  split.
  - pose proof (send_notification_marks w false "凭据未配置" s1) as M.
    rewrite N in M. cbn [snd] in M. rewrite M.
    rewrite (extends_flags [KPrint] _ _ eq_refl X1). cbn [banner_printed trace notify_flags].
    rewrite Htr0. now rewrite (proj2 (Hp lines)).
  - apply extends_trace in X1. apply extends_trace in X2.
    destruct X1 as [e1 [T1 O1]]. destruct X2 as [e2 [T2 O2]].
    rewrite T2, T1. cbn [trace snd banner_printed]. rewrite !forallb_app.
    rewrite (non_browser_kinds [KPrint] e1 eq_refl O1).
    rewrite (non_browser_kinds notify_kinds e2 eq_refl O2).
    cbn [trace andb forallb]. rewrite Htr0. now rewrite (proj1 (Hp lines)).
Qed.

Lemma empty_credentials_exit_before_browser_witness :
  fst (main world_empty_credentials) = Raise (SystemExit 1).
Proof.
  exact (proj1 (empty_credentials_exit_before_browser world_empty_credentials eq_refl)).
Defined.

(** ** A run that succeeds has written the cookie file *)

Lemma dumps_extends (ks : list Kind) (st s' : St) :
  has_kind ks KDump = false -> extends ks st s' ->
  dumps (trace s') = dumps (trace st).
Proof.
  intros Hk [[evs [T O]] _]. rewrite T. clear T.
  induction evs as [| e evs IH]; cbn [app only forallb] in *; [reflexivity |].
  apply andb_prop in O. destruct O as [Oe O]. specialize (IH O).
  destruct e; cbn [dumps]; try exact IH. cbn in Oe. rewrite Oe in Hk. discriminate.
Qed.

Lemma verify_login_true_dumps (w : World) (st s' : St) :
  verify_login w st = (Ok true, s') ->
  exists cookies,
    dumps (trace s') = ("cookies.json", filter is_claw_cookie cookies) :: dumps (trace st)
    /\ filter is_claw_cookie cookies <> [].
Proof.
  intros E. unfold verify_login in E. exec_script_in E.
  destruct (w_title w (S (tick st))) as [title | msg]; cbn [res_of_answer] in E;
    [| discriminate E].
  cbn [self tick trace logs set_logs] in E.
  destruct (Py.contains "claw.cloud" (w_url w (tick st))); cbn [negb] in E;
    [| discriminate E].
  destruct (Py.contains "signin" (Py.lower (w_url w (tick st))) ||
            Py.contains "login" (Py.lower (w_url w (tick st)))); [discriminate E |].
  cbn [self tick trace] in E.
  destruct (w_cookies w (S (S (tick st)))) as [cookies | msg]; cbn [res_of_answer] in E;
    [| discriminate E].
  exists cookies.
  destruct (filter is_claw_cookie cookies) as [| ck rest]; cbn [length Nat.eqb] in E;
    [discriminate E |].
  cbn [self tick trace logs set_logs] in E.
  destruct (w_json_dump w (S (S (S (tick st)))) "cookies.json" (ck :: rest));
    cbn [res_of_answer] in E; [| discriminate E].
  injection E as <-. cbn [trace dumps]. split; [reflexivity | discriminate].
Qed.

(** Take apart a computation known to have returned. *)
Ltac inv_ok H :=
  lazymatch type of H with
  | bind ?m ?k ?s = (Ok _, _) =>
      let a := fresh "a" in
      let s1 := fresh "s" in
      let H1 := fresh "H" in
      let H2 := fresh "H" in
      apply bind_inv_ok in H; destruct H as [a [s1 [H1 H2]]]; cbv beta in H2;
      inv_ok H1; inv_ok H2
  | (if negb ?b then _ else _) _ = _ =>
      destruct b; cbn [negb] in H; inv_ok H
  | (if ?b then _ else _) _ = _ =>
      first [ is_var b; destruct b | destruct b eqn:? ]; inv_ok H
  | ret _ _ = (Ok _, _) => unfold ret in H; injection H as ? ?; subst
  | sys_exit _ _ = (Ok _, _) => discriminate H
  | _ => idtac
  end.

(** What each step that returned did to the cookie file. *)
Ltac dump_facts :=
  repeat match goal with
         | H : verify_login ?w ?s = (Ok true, ?s1) |- _ =>
             lazymatch goal with
             | _ : dumps (trace s1) = _ :: dumps (trace s) |- _ => fail
             | _ =>
                 let cookies := fresh "cookies" in
                 let D := fresh "D" in
                 let Ne := fresh "Ne" in
                 destruct (verify_login_true_dumps w s s1 H) as [cookies [D Ne]]
             end
         | H : ?m ?s = (_, ?s1) |- _ =>
             lazymatch goal with
             | _ : dumps (trace s1) = dumps (trace s) |- _ => fail
             | _ =>
                 assert (dumps (trace s1) = dumps (trace s))
                   by (apply (dumps_extends no_dump_kinds); [ reflexivity | ];
                       eapply emits_extends; [ | exact H ]; emits_script)
             end
         end.



(** ** The events of a run *)

Lemma keeps_refl (c : Config) (st : St) : keeps c st st.
Proof. intros H. split; [exact H |]. exists []. split; [reflexivity | constructor]. Qed.

Lemma keeps_trans (c : Config) (s1 s2 s3 : St) :
  keeps c s1 s2 -> keeps c s2 s3 -> keeps c s1 s3.
Proof.
  intros H12 H23 H1. destruct (H12 H1) as [H2 [e1 [T1 F1]]].
  destruct (H23 H2) as [H3 [e2 [T2 F2]]]. split; [exact H3 |].
  exists (e2 ++ e1)%list. split.
  - rewrite T2, T1. now rewrite app_assoc.
  - apply Forall_app. now split.
Qed.

Lemma keeps_event (c : Config) (st : St) (ev : Event) (n : nat) :
  script_event c ev ->
  keeps c st {| self := self st; tick := n; trace := ev :: trace st |}.
Proof.
  intros He H. split; [exact H |]. exists [ev]. split; [reflexivity |].
  constructor; [exact He | constructor].
Qed.

Section ConfinedRules.

Context {A B : Type}.
Variable c : Config.

Lemma confined_ret (a : A) : confined c (ret a).
Proof. intros st. apply keeps_refl. Qed.

Lemma confined_raise (e : Exn) : confined c (@raise A e).
Proof. intros st. apply keeps_refl. Qed.

Lemma confined_bind (m : M A) (k : A -> M B) :
  confined c m -> (forall a, confined c (k a)) -> confined c (bind m k).
Proof.
  intros Hm Hk st. unfold bind. pose proof (Hm st) as H1.
  destruct (m st) as [[a | e] s1]; cbn [snd] in *; [| exact H1].
  eapply keeps_trans; [exact H1 | apply Hk].
Qed.

(** What is read from the object is sound. *)
Lemma confined_get_self_bind (k : AutoLogin -> M B) :
  (forall a, sound c a -> confined c (k a)) -> confined c (bind get_self k).
Proof.
  intros Hk st H. unfold bind, get_self. now apply Hk.
Qed.

Lemma confined_call (ev : Event) (answer : nat -> Answer A) :
  script_event c ev -> confined c (call ev answer).
Proof. intros He st. unfold call; cbn [snd]. now apply keeps_event. Qed.

Lemma confined_try_except (m : M A) (h : string -> M A) :
  confined c m -> (forall e, confined c (h e)) -> confined c (try_except m h).
Proof.
  intros Hm Hh st. unfold try_except. pose proof (Hm st) as H1.
  destruct (m st) as [[a | [msg | code]] s1]; cbn [snd] in *; try exact H1.
  eapply keeps_trans; [exact H1 | apply Hh].
Qed.

Lemma confined_try_except_all (m h : M A) :
  confined c m -> confined c h -> confined c (try_except_all m h).
Proof.
  intros Hm Hh st. unfold try_except_all. pose proof (Hm st) as H1.
  destruct (m st) as [[a | e] s1]; cbn [snd] in *; [exact H1 |].
  eapply keeps_trans; [exact H1 | apply Hh].
Qed.

Lemma confined_try_finally (m : M A) (f : M unit) :
  confined c m -> confined c f -> confined c (try_finally m f).
Proof.
  intros Hm Hf st. unfold try_finally. pose proof (Hm st) as H1.
  destruct (m st) as [r s1]; cbn [snd] in *. pose proof (Hf s1) as H2.
  destruct (f s1) as [[u | e] s2]; cbn [snd] in *; eapply keeps_trans; eauto.
Qed.

(** A credential that is typed is the one of the object. *)
Lemma confined_credential_bind (o : option string) (k : string -> M B) :
  (forall s, o = Some s -> confined c (k s)) -> confined c (bind (credential o) k).
Proof.
  intros Hk st. unfold bind, credential. destruct o as [s |].
  - unfold ret. now apply Hk.
  - apply keeps_refl.
Qed.

End ConfinedRules.

Lemma confined_emit (c : Config) (ev : Event) :
  script_event c ev -> confined c (emit ev).
Proof. intros He st. unfold emit; cbn [snd]. now apply keeps_event. Qed.

Lemma confined_for_each {A} (c : Config) (l : list A) (f : A -> M unit) :
  (forall x, confined c (f x)) -> confined c (for_each l f).
Proof.
  intros Hf. induction l as [| x rest IH]; cbn [for_each].
  - apply confined_ret.
  - apply confined_bind; [apply Hf | intros _; exact IH].
Qed.

Lemma numbered_raise (lo : nat) (files : list string) (hi hi' : nat) :
  hi <= hi' -> numbered lo files hi -> numbered lo files hi'.
Proof.
  intros Hle. revert lo. induction files as [| f rest IH]; intros lo; cbn [numbered].
  - lia.
  - intros [n [name [H1 [H2 H3]]]]. exists n, name. repeat split; auto.
Qed.

Lemma numbered_next (lo : nat) (files : list string) (hi : nat) (name : string) :
  numbered lo files hi -> numbered lo (files ++ [shot_file (S hi) name]) (S hi).
Proof.
  revert lo. induction files as [| f rest IH]; intros lo; cbn [numbered app].
  - intros H. exists (S hi), name. repeat split; [lia | cbn; lia].
  - intros [n [nm [H1 [H2 H3]]]]. exists n, nm. repeat split; auto.
Qed.

Lemma confined_log (c : Config) (message : string) (level : Level) :
  confined c (log message level).
Proof.
  intros st [Hc Hn]. unfold log, print, emit, bind, get_self, set_self; cbn [snd self trace].
  split.
  - split; [exact Hc | exact Hn].
  - exists [EvPrint (log_line message level)]. split; [reflexivity |].
    repeat constructor.
Qed.

Lemma confined_screenshot (c : Config) (w : World) (name : string) :
  confined c (screenshot w name).
Proof.
  intros st [Hc Hn].
  cbv [screenshot page_screenshot call log print emit bind get_self set_self ret].
  cbn [self tick trace screenshot_count set_screenshot_count].
  destruct (w_screenshot w (tick st) _) as [[] | msg]; cbn [res_of_answer snd self trace].
  - split.
    + split; [exact Hc |]. cbn [screenshots screenshot_count set_logs set_screenshots
                                set_screenshot_count].
      now apply numbered_next.
    + eexists [_; _]. split; [reflexivity |].
      constructor; [constructor |]. constructor; [| constructor].
      apply (se_screenshot c (S (screenshot_count (self st))) name).
  - split.
    + split; [exact Hc |]. cbn [screenshots screenshot_count set_screenshot_count].
      eapply numbered_raise; [| exact Hn]. lia.
    + eexists [_]. split; [reflexivity |]. constructor; [| constructor].
      apply (se_screenshot c (S (screenshot_count (self st))) name).
Qed.

Create HintDb confined discriminated.
#[export] Hint Resolve confined_log confined_screenshot : confined.

(** An event of the script, recognised by its shape. *)
Ltac script_event_ok :=
  lazymatch goal with
  | |- script_event _ (EvFill _ _) =>
      first [ apply se_fill_login | apply se_fill_password ];
      match goal with
      | H : sound _ _ |- _ => destruct H as [<- _]; cbn [config_of cfg_username cfg_token];
                              assumption
      end
  | |- script_event _ (EvScreenshot _) => apply se_screenshot
  | |- script_event _ (EvHttpPost _ _ _ _) =>
      first [ apply se_post_message | apply se_post_photo ];
      match goal with
      | H : negb ?x = false |- ?x = true => now apply negb_false_iff
      end
  | |- script_event _ (EvPathExists _) =>
      apply se_path_exists;
      match goal with
      | H : negb ?x = false |- ?x = true => now apply negb_false_iff
      end
  | |- script_event _ (EvOpen _) =>
      apply se_open;
      match goal with
      | H : negb ?x = false |- ?x = true => now apply negb_false_iff
      end
  | |- script_event _ EvStrftime =>
      apply se_strftime;
      match goal with
      | H : negb ?x = false |- ?x = true => now apply negb_false_iff
      end
  | |- script_event _ _ =>
      solve [ econstructor; first [ eassumption | cbn; tauto | reflexivity ] ]
  end.

Ltac confined_step :=
  lazymatch goal with
  | |- confined ?c (bind get_self _) =>
      apply confined_get_self_bind;
      let a := fresh "a" in
      let Ha := fresh "Ha" in
      intros a Ha;
      let Hg := fresh "Hg" in
      assert (Hg : telegram a = cfg_telegram c) by (destruct Ha as [<- _]; reflexivity);
      rewrite ?Hg; clear Hg
  | |- confined _ (bind (credential _) _) =>
      apply confined_credential_bind; intros ? ?
  | |- confined _ (bind _ _) => apply confined_bind; [ | intros ? ]
  | |- confined _ (ret _) => apply confined_ret
  | |- confined _ (raise _) => apply confined_raise
  | |- confined _ (sys_exit _) => apply confined_raise
  | |- confined _ (call _ _) => apply confined_call; script_event_ok
  | |- confined _ (emit _) => apply confined_emit; script_event_ok
  | |- confined _ (try_except _ _) => apply confined_try_except; [ | intros ? ]
  | |- confined _ (try_except_all _ _) => apply confined_try_except_all
  | |- confined _ (try_finally _ _) => apply confined_try_finally
  | |- confined _ (for_each _ _) => apply confined_for_each; intros ?
  | |- confined _ (if ?b then _ else _) => destruct b eqn:?
  | |- confined _ (match ?x with _ => _ end) => destruct x eqn:?
  | |- confined _ _ => solve [ eauto with confined ]
  end.

Ltac confined_script :=
  intros;
  unfold page_url, page_title, page_content, page_goto, wait_for_load_state,
    page_screenshot, context_cookies, is_visible, inner_text, click, fill,
    strftime, path_exists, open_rb, requests_post, json_dump, print, sleep;
  cbv zeta; repeat (confined_step; cbv zeta).

Section ScriptConfined.

Variable w : World.
Variable c : Config.

Lemma confined_validate_credentials : confined c validate_credentials.
Proof. unfold validate_credentials. confined_script. Qed.

Lemma confined_find_and_click (selectors : list string) (description : string) :
  incl selectors (github_selectors ++ authorize_selectors) ->
  confined c (find_and_click w selectors description).
Proof.
  induction selectors as [| selector rest IH]; intros Hin; cbn [find_and_click].
  - apply confined_ret.
  - assert (Hs : In selector (github_selectors ++ authorize_selectors))
      by (apply Hin; now left).
    assert (Hv : In (selector, 3000%Z) watched_selectors).
    { unfold watched_selectors. apply in_or_app. left.
      now apply (in_map (fun s => (s, 3000%Z))). }
    assert (Hc : In selector clicked_selectors).
    { unfold clicked_selectors. rewrite app_assoc. apply in_or_app. now left. }
    assert (IH' : confined c (find_and_click w rest description)).
    { apply IH. intros x Hx. apply Hin. now right. }
    confined_script.
Qed.

Lemma confined_check_github_error_in (selectors : list string) :
  incl selectors error_selectors ->
  confined c (check_github_error_in w selectors).
Proof.
  induction selectors as [| selector rest IH]; intros Hin; cbn [check_github_error_in].
  - apply confined_ret.
  - assert (Hs : In selector error_selectors) by (apply Hin; now left).
    assert (Hv : In (selector, 1000%Z) watched_selectors).
    { unfold watched_selectors. apply in_or_app. right. apply in_or_app. left.
      now apply (in_map (fun s => (s, 1000%Z))). }
    assert (IH' : confined c (check_github_error_in w rest)).
    { apply IH. intros x Hx. apply Hin. now right. }
    confined_script.
Qed.

Lemma confined_check_github_error : confined c (check_github_error w).
Proof. apply confined_check_github_error_in. apply incl_refl. Qed.

Lemma confined_check_device_verification : confined c (check_device_verification w).
Proof. unfold check_device_verification. confined_script. Qed.

Lemma confined_check_2fa : confined c (check_2fa w).
Proof. unfold check_2fa. confined_script. Qed.

Hint Resolve confined_validate_credentials confined_check_github_error
  confined_check_device_verification confined_check_2fa : confined.

Lemma confined_login_github_checks (current_url : string) :
  confined c (login_github_checks w current_url).
Proof. unfold login_github_checks. confined_script. Qed.

Hint Resolve confined_login_github_checks : confined.

Lemma confined_login_github : confined c (login_github w).
Proof. unfold login_github. confined_script. Qed.

Lemma confined_handle_oauth : confined c (handle_oauth w).
Proof.
  assert (F : confined c (find_and_click w authorize_selectors "授权按钮")).
  { apply confined_find_and_click. apply incl_appr, incl_refl. }
  unfold handle_oauth. confined_script.
Qed.

Hint Resolve confined_login_github confined_handle_oauth : confined.

Lemma confined_wait_redirect_iter (i : nat) : confined c (wait_redirect_iter w i).
Proof. unfold wait_redirect_iter. confined_script. Qed.

Hint Resolve confined_wait_redirect_iter : confined.

Lemma confined_wait_redirect_loop (remaining i : nat) :
  confined c (wait_redirect_loop w remaining i).
Proof.
  revert i. induction remaining as [| rest IH]; intros i; cbn [wait_redirect_loop];
    confined_script.
Qed.

Hint Resolve confined_wait_redirect_loop : confined.

Lemma confined_wait_redirect (max_wait : nat) : confined c (wait_redirect w max_wait).
Proof. unfold wait_redirect. confined_script. Qed.

Lemma confined_verify_login : confined c (verify_login w).
Proof. unfold verify_login. confined_script. Qed.

Lemma confined_keepalive_visits (pages : list (string * string)) :
  incl pages keepalive_pages -> confined c (keepalive_visits w pages).
Proof.
  induction pages as [| [url name] rest IH]; intros Hin; cbn [keepalive_visits].
  - apply confined_ret.
  - assert (Hp : In (url, name) keepalive_pages) by (apply Hin; now left).
    assert (IH' : confined c (keepalive_visits w rest)).
    { apply IH. intros x Hx. apply Hin. now right. }
    confined_script.
Qed.

Lemma confined_keepalive : confined c (keepalive w).
Proof.
  pose proof (confined_keepalive_visits keepalive_pages (incl_refl _)).
  unfold keepalive. confined_script.
Qed.

Lemma confined_send_message (message : string) :
  confined c (send_message w (cfg_telegram c) message).
Proof. unfold send_message. confined_script. Qed.

Lemma confined_send_photo (path caption : string) :
  confined c (send_photo w (cfg_telegram c) path caption).
Proof. unfold send_photo. confined_script. Qed.

Hint Resolve confined_wait_redirect confined_verify_login confined_keepalive
  confined_send_message confined_send_photo : confined.

Lemma confined_send_notification (success : bool) (error_msg : string) :
  confined c (send_notification w success error_msg).
Proof. unfold send_notification. confined_script. Qed.

Hint Resolve confined_send_notification : confined.

Lemma confined_run : confined c (run w).
Proof.
  assert (F : confined c (find_and_click w github_selectors "GitHub 按钮")).
  { apply confined_find_and_click. apply incl_appl, incl_refl. }
  unfold run, run_prologue, browser_session, run_session, run_on_exception,
    open_signin_page, run_already_logged_in, run_login_flow, run_login_steps,
    run_keepalive_and_report.
  confined_script.
Qed.

End ScriptConfined.

(** ** Screenshot files are numbered apart *)

Lemma string_of_uint_digits (d : Decimal.uint) :
  all_digits (NilEmpty.string_of_uint d) = true.
Proof. induction d; cbn; auto. Qed.

Lemma str_nat_inj (n m : nat) : Py.str_nat n = Py.str_nat m -> n = m.
Proof.
  unfold Py.str_nat. intros H.
  apply (f_equal NilEmpty.uint_of_string) in H. rewrite !NilEmpty.usu in H.
  injection H as H. apply (f_equal Nat.of_uint) in H.
  now rewrite !DecimalNat.Unsigned.of_to in H.
Qed.

Lemma fmt_02d_digits (n : nat) : all_digits (Py.fmt_02d n) = true.
Proof.
  unfold Py.fmt_02d, Py.str_nat. destruct (n <? 10)%nat; cbn [append all_digits];
    rewrite string_of_uint_digits; reflexivity.
Qed.

Lemma fmt_02d_inj (n m : nat) : Py.fmt_02d n = Py.fmt_02d m -> n = m.
Proof.
  assert (P : forall k, NilEmpty.uint_of_string (Py.fmt_02d k)
                        = Some (if (k <? 10)%nat then Decimal.D0 (Nat.to_uint k)
                                else Nat.to_uint k)).
  { intros k. unfold Py.fmt_02d, Py.str_nat. destruct (k <? 10)%nat.
    - cbn [append NilEmpty.uint_of_string]. now rewrite NilEmpty.usu.
    - apply NilEmpty.usu. }
  assert (V : forall k, Nat.of_uint (if (k <? 10)%nat then Decimal.D0 (Nat.to_uint k)
                                     else Nat.to_uint k) = k).
  { intros k. destruct (k <? 10)%nat.
    - change (Nat.of_uint (Decimal.D0 (Nat.to_uint k))) with (Nat.of_uint (Nat.to_uint k)).
      apply DecimalNat.Unsigned.of_to.
    - apply DecimalNat.Unsigned.of_to. }
  intros H. apply (f_equal NilEmpty.uint_of_string) in H. rewrite !P in H.
  injection H as H. apply (f_equal Nat.of_uint) in H. now rewrite !V in H.
Qed.

Lemma digits_of_head (d rest : string) :
  all_digits d = true -> digits_of (d ++ String "_" rest) = d.
Proof.
  induction d as [| ch d IH]; cbn [append all_digits digits_of]; intros H.
  - reflexivity.
  - apply andb_prop in H. destruct H as [Hc Hd]. rewrite Hc. f_equal. now apply IH.
Qed.

(** The number can be read back from the file name. *)
Lemma shot_file_number (n m : nat) (name name' : string) :
  shot_file n name = shot_file m name' -> n = m.
Proof.
  unfold shot_file. intros H. apply (f_equal digits_of) in H.
  change ("_" ++ name ++ ".png") with (String "_" (name ++ ".png")) in H.
  change ("_" ++ name' ++ ".png") with (String "_" (name' ++ ".png")) in H.
  rewrite !digits_of_head in H by apply fmt_02d_digits.
  now apply fmt_02d_inj.
Qed.

Lemma numbered_between (lo : nat) (files : list string) (hi : nat) :
  numbered lo files hi ->
  lo <= hi
  /\ forall f, In f files -> exists n name, lo < n <= hi /\ f = shot_file n name.
Proof.
  revert lo. induction files as [| f rest IH]; intros lo; cbn [numbered].
  - intros H. split; [exact H | intros f []].
  - intros [n [name [Hlt [-> Hn]]]]. destruct (IH n Hn) as [Hle Hin]. split; [lia |].
    intros f [<- | Hf].
    + exists n, name. split; [lia | reflexivity].
    + destruct (Hin f Hf) as [k [nm [Hk ->]]]. exists k, nm. split; [lia | reflexivity].
Qed.

Lemma numbered_NoDup (lo : nat) (files : list string) (hi : nat) :
  numbered lo files hi -> NoDup files.
Proof.
  revert lo. induction files as [| f rest IH]; intros lo; cbn [numbered].
  - constructor.
  - intros [n [name [Hlt [-> Hn]]]]. constructor; [| now apply (IH n)].
    intros Hin. destruct (numbered_between _ _ _ Hn) as [_ Hb].
    destruct (Hb _ Hin) as [k [nm [Hk E]]]. apply shot_file_number in E. lia.
Qed.

Lemma numbered_length (lo : nat) (files : list string) (hi : nat) :
  numbered lo files hi -> lo + length files <= hi.
Proof.
  revert lo. induction files as [| f rest IH]; intros lo; cbn [numbered length].
  - lia.
  - intros [n [name [Hlt [_ Hn]]]]. apply IH in Hn. lia.
Qed.

(** ** Whole runs stay within the script's alphabet *)

Lemma initial_state_sound (w : World) :
  sound (config_of (self (initial_state w))) (self (initial_state w)).
Proof.
  split; [reflexivity |].
  unfold initial_state, AutoLogin_init. destruct (TelegramNotifier_init w) as [tg printed].
  cbn. lia.
Qed.

Lemma initial_state_config (w : World) :
  config_of (self (initial_state w))
  = {| cfg_username := environ w "GH_USERNAME";
       cfg_token := environ w "GH_PAT";
       cfg_telegram := fst (TelegramNotifier_init w) |}.
Proof. reflexivity. Qed.

Lemma main_confined (w : World) :
  sound (config_of (self (initial_state w))) (self (snd (main w)))
  /\ Forall (script_event (config_of (self (initial_state w)))) (trace (snd (main w))).
Proof.
  destruct (confined_run w _ (initial_state w) (initial_state_sound w))
    as [Hs [evs [T F]]].
  split; [exact Hs |]. unfold main. rewrite T. apply Forall_app. split; [exact F |].
  unfold initial_state, AutoLogin_init, TelegramNotifier_init. cbn [trace].
  destruct (negb _); repeat constructor.
Qed.

Lemma main_events (w : World) (P : Event -> Prop) :
  (forall e, script_event (config_of (self (initial_state w))) e -> P e) ->
  Forall P (trace (snd (main w))).
Proof.
  intros H. eapply Forall_impl; [exact H | apply main_confined].
Qed.

(** X21 -- A run keeps the screenshots on record numbered in the order
    taken, by strictly increasing numbers from 1 up to the counter, which
    a screenshot that fails still advances: a run that starts with them
    so numbered ends with them so numbered.  Hence their file names are
    distinct, there are no more of them than the counter says, and each
    is named by a number within the counter. *)
Theorem screenshots_numbered_apart (w : World) (st : St) :
  numbered 0 (screenshots (self st)) (screenshot_count (self st)) ->
  numbered 0 (screenshots (self (snd (run w st))))
    (screenshot_count (self (snd (run w st))))
  /\ NoDup (screenshots (self (snd (run w st))))
  /\ length (screenshots (self (snd (run w st))))
     <= screenshot_count (self (snd (run w st)))
  /\ forall f,
       In f (screenshots (self (snd (run w st)))) ->
       exists n name,
         1 <= n <= screenshot_count (self (snd (run w st))) /\ f = shot_file n name.
Proof.
  intros Hn.
  destruct (confined_run w (config_of (self st)) st (conj eq_refl Hn)) as [[_ N] _].
  split; [exact N |].
  split; [now apply (numbered_NoDup 0 _ _ N) |].
  split; [apply (numbered_length 0 _ _ N) |].
  intros f Hf. destruct (numbered_between _ _ _ N) as [_ Hb].
  destruct (Hb f Hf) as [n [name [Hk ->]]]. exists n, name. split; [lia | reflexivity].
Qed.

Lemma screenshots_numbered_apart_witness :
  NoDup (screenshots (self (snd (main world_github_flow)))).
Proof.
  refine (proj1 (proj2 (screenshots_numbered_apart world_github_flow
                          (initial_state world_github_flow) _))).
  cbn. lia.
Defined.

(** X22 -- A run navigates by [page.goto] to the sign-in page of the
    console and to the two keep-alive pages, nowhere else: GitHub's pages
    are only ever reached by clicking. *)
Theorem run_navigates_within_console (w : World) :
  Forall goto_in_console (trace (snd (main w))).
Proof.
  apply main_events. intros e He. destruct He; cbn; auto.
  right. split; [| reflexivity]. now apply (in_map fst) in H.
Qed.

(** X23 -- A run types nothing but [GH_USERNAME] into GitHub's login
    field and [GH_PAT] into its password field, and clicks nothing but
    the buttons it looked for: the GitHub button, the authorize button,
    the form's submit button. *)
Theorem run_acts_on_known_elements (w : World) :
  Forall (acts_on_known_elements w) (trace (snd (main w))).
Proof.
  apply main_events. rewrite initial_state_config.
  intros e He. destruct He; cbn in *; auto.
Qed.

(** X24 -- Every request of a run goes to the Telegram bot of
    [TG_BOT_TOKEN], for the chat [TG_CHAT_ID]: a text to [sendMessage]
    (30 s), or a photo to [sendPhoto] (60 s).  [sendDocument] is never
    called. *)
Theorem run_posts_to_telegram (w : World) :
  Forall (posts_to_telegram w) (trace (snd (main w))).
Proof.
  apply main_events. rewrite initial_state_config.
  intros e He. destruct He; cbn -[append]; auto.
  split; [now left | right].
  split; [reflexivity |]. split; [eauto | reflexivity].
Qed.

(** X25 -- Every wait a run asks for is bounded: a sleep lasts 1, 2 or 3
    seconds, the browser is given between 1 and 60 seconds, a request 30
    or 60 seconds. *)
Theorem run_waits_are_bounded (w : World) :
  Forall wait_is_bounded (trace (snd (main w))).
Proof.
  apply main_events. intros e He.
  destruct He as [ | n H | | | | | | url name H | timeout H | | | | | |
                   selector timeout H | | | | | | | | | | | ];
    cbn -[Z.le]; auto; try lia.
  - cbn in H. lia.
  - cbn in H. destruct H as [<- | [<- | []]]; lia.
  - unfold watched_selectors in H.
    repeat (apply in_app_or in H; destruct H as [H | H]);
      try (apply in_map_iff in H; destruct H as [x [E _]]; injection E as _ <-; lia).
    destruct H as [E | []]. injection E as _ <-. lia.
Qed.

(** ** A disabled notifier, over a whole run *)

(** X26 -- With [TG_BOT_TOKEN] or [TG_CHAT_ID] unset or empty, a whole run
    posts no request, looks for no file to send, opens none and does not
    read the clock: its notifications are attempted and send nothing. *)
Theorem unconfigured_notifier_sends_nothing (w : World) :
  Py.truthy_opt (environ w "TG_BOT_TOKEN") && Py.truthy_opt (environ w "TG_CHAT_ID") = false ->
  Forall notifies_nobody (trace (snd (main w))).
Proof.
  intros Hd. apply main_events. rewrite initial_state_config.
  intros e He. destruct He; cbn in *; auto; congruence.
Qed.

Lemma unconfigured_notifier_sends_nothing_witness :
  Forall notifies_nobody (trace (snd (main world_empty_token))).
Proof.
  exact (unconfigured_notifier_sends_nothing world_empty_token eq_refl).
Defined.

(** ** What Telegram answers does not matter *)

Lemma agree_refl (s : St) : agree s s.
Proof. repeat split. Qed.

Section SameRules.

Context {A B : Type}.

Lemma same_ret (a : A) : same (ret a) (ret a).
Proof. intros s1 s2 H. split; [reflexivity | exact H]. Qed.

Lemma same_raise (e : Exn) : same (@raise A e) (@raise A e).
Proof. intros s1 s2 H. split; [reflexivity | exact H]. Qed.

Lemma same_bind (m1 m2 : M A) (k1 k2 : A -> M B) :
  same m1 m2 -> (forall a, same (k1 a) (k2 a)) -> same (bind m1 k1) (bind m2 k2).
Proof.
  intros Hm Hk s1 s2 H. unfold bind. destruct (Hm s1 s2 H) as [R G].
  destruct (m1 s1) as [[a | e] t1], (m2 s2) as [[b | e'] t2]; cbn [fst snd] in *;
    try discriminate.
  - injection R as <-. now apply Hk.
  - injection R as <-. split; [reflexivity | exact G].
Qed.

(** A step whose value is dropped need only return on both sides. *)
Lemma same_bind_alike {C : Type} (m1 m2 : M C) (k1 k2 : M B) :
  alike m1 m2 -> same k1 k2 -> same (bind m1 (fun _ => k1)) (bind m2 (fun _ => k2)).
Proof.
  intros Hm Hk s1 s2 H. unfold bind. destruct (Hm s1 s2 H) as [[a [b [R1 R2]]] G].
  destruct (m1 s1) as [r1 t1], (m2 s2) as [r2 t2]; cbn [fst snd] in *. subst r1 r2.
  now apply Hk.
Qed.

Lemma same_call (ev : Event) (answer : nat -> Answer A) :
  same (call ev answer) (call ev answer).
Proof.
  intros s1 s2 [Hs [Ht Hc]]. unfold call, agree, calls; cbn [fst snd self tick trace filter].
  rewrite Ht. split; [reflexivity |]. repeat split; try congruence.
  destruct (is_call ev); [f_equal |]; exact Hc.
Qed.

Lemma same_try_except (m1 m2 : M A) (h1 h2 : string -> M A) :
  same m1 m2 -> (forall e, same (h1 e) (h2 e)) -> same (try_except m1 h1) (try_except m2 h2).
Proof.
  intros Hm Hh s1 s2 H. unfold try_except. destruct (Hm s1 s2 H) as [R G].
  destruct (m1 s1) as [[a | [msg | code]] t1], (m2 s2) as [[b | [msg' | code']] t2];
    cbn [fst snd] in *; try discriminate.
  - split; assumption.
  - injection R as <-. now apply Hh.
  - split; assumption.
Qed.

Lemma same_try_except_all (m1 m2 h1 h2 : M A) :
  same m1 m2 -> same h1 h2 -> same (try_except_all m1 h1) (try_except_all m2 h2).
Proof.
  intros Hm Hh s1 s2 H. unfold try_except_all. destruct (Hm s1 s2 H) as [R G].
  destruct (m1 s1) as [[a | e] t1], (m2 s2) as [[b | e'] t2];
    cbn [fst snd] in *; try discriminate.
  - split; assumption.
  - now apply Hh.
Qed.

Lemma same_try_finally (m1 m2 : M A) (f1 f2 : M unit) :
  same m1 m2 -> same f1 f2 -> same (try_finally m1 f1) (try_finally m2 f2).
Proof.
  intros Hm Hf s1 s2 H. unfold try_finally. destruct (Hm s1 s2 H) as [R G].
  destruct (m1 s1) as [r1 t1], (m2 s2) as [r2 t2]; cbn [fst snd] in *.
  destruct (Hf t1 t2 G) as [R' G'].
  destruct (f1 t1) as [[u | e] u1], (f2 t2) as [[u' | e'] u2];
    cbn [fst snd] in *; try discriminate.
  - split; assumption.
  - injection R' as <-. split; [reflexivity | assumption].
Qed.

End SameRules.

Lemma same_get_self : same get_self get_self.
Proof.
  intros s1 s2 H. unfold get_self; cbn [fst snd]. destruct H as [Hs H].
  split; [now rewrite Hs | now split].
Qed.

Lemma same_set_self (a : AutoLogin) : same (set_self a) (set_self a).
Proof.
  intros s1 s2 [Hs [Ht Hc]]. unfold set_self; cbn [fst snd].
  split; [reflexivity | repeat split; assumption].
Qed.

Lemma same_emit (ev : Event) : same (emit ev) (emit ev).
Proof.
  intros s1 s2 [Hs [Ht Hc]]. unfold emit, agree, calls; cbn [fst snd self tick trace filter].
  split; [reflexivity |]. repeat split; try assumption.
  destruct (is_call ev); [f_equal |]; exact Hc.
Qed.

Lemma same_for_each {A} (l : list A) (f1 f2 : A -> M unit) :
  (forall x, same (f1 x) (f2 x)) -> same (for_each l f1) (for_each l f2).
Proof.
  intros Hf. induction l as [| x rest IH]; cbn [for_each].
  - apply same_ret.
  - apply same_bind; [apply Hf | intros _; exact IH].
Qed.

Create HintDb same discriminated.

Ltac same_step :=
  lazymatch goal with
  | |- same (bind (send_message _ _ _) _) (bind (send_message _ _ _) _) =>
      apply same_bind_alike; [ solve [ eauto with same ] | ]
  | |- same (bind (send_photo _ _ _ _) _) (bind (send_photo _ _ _ _) _) =>
      apply same_bind_alike; [ solve [ eauto with same ] | ]
  | |- same (bind _ _) (bind _ _) => apply same_bind; [ | intros ? ]
  | |- same (ret _) (ret _) => apply same_ret
  | |- same (raise _) (raise _) => apply same_raise
  | |- same (sys_exit _) (sys_exit _) => apply same_raise
  | |- same (call _ _) (call _ _) => apply same_call
  | |- same (emit _) (emit _) => apply same_emit
  | |- same get_self get_self => apply same_get_self
  | |- same (set_self _) (set_self _) => apply same_set_self
  | |- same (try_except _ _) (try_except _ _) => apply same_try_except; [ | intros ? ]
  | |- same (try_except_all _ _) (try_except_all _ _) => apply same_try_except_all
  | |- same (try_finally _ _) (try_finally _ _) => apply same_try_finally
  | |- same (for_each _ _) (for_each _ _) => apply same_for_each; intros ?
  | |- same (if ?b then _ else _) (if ?b then _ else _) => destruct b
  | |- same (match ?x with _ => _ end) (match ?x with _ => _ end) => destruct x
  | |- same _ _ => solve [ eauto with same ]
  end.

Ltac same_script :=
  intros; unfold_calls;
  cbn [with_http_post environ w_launch w_new_context w_new_page w_goto w_wait_load
       w_screenshot w_url w_title w_content w_cookies w_is_visible w_inner_text
       w_click w_fill w_strftime w_path_exists];
  cbv zeta; repeat (same_step; cbv zeta).

Section SameScript.

Variable w : World.
Variable post : nat -> string -> Answer Z.
Lemma same_log (message : string) (level : Level) :
  same (log message level) (log message level).
Proof. unfold log. same_script. Qed.

Hint Resolve same_log : same.

Lemma same_screenshot (name : string) :
  same (screenshot (with_http_post post w) name)
       (screenshot w name).
Proof. unfold screenshot. same_script. Qed.

Lemma same_validate_credentials : same validate_credentials validate_credentials.
Proof. unfold validate_credentials. same_script. Qed.

Hint Resolve same_screenshot same_validate_credentials : same.

Lemma same_find_and_click (selectors : list string) (description : string) :
  same (find_and_click (with_http_post post w) selectors description)
       (find_and_click w selectors description).
Proof.
  induction selectors as [| selector rest IH]; cbn [find_and_click]; same_script.
Qed.

Lemma same_check_github_error_in (selectors : list string) :
  same (check_github_error_in (with_http_post post w) selectors)
       (check_github_error_in w selectors).
Proof.
  induction selectors as [| selector rest IH]; cbn [check_github_error_in]; same_script.
Qed.

Lemma same_check_github_error :
  same (check_github_error (with_http_post post w))
       (check_github_error w).
Proof. apply same_check_github_error_in. Qed.

Lemma same_check_device_verification :
  same (check_device_verification (with_http_post post w)) (check_device_verification w).
Proof. unfold check_device_verification. same_script. Qed.

Lemma same_check_2fa : same (check_2fa (with_http_post post w)) (check_2fa w).
Proof. unfold check_2fa. same_script. Qed.

Hint Resolve same_find_and_click same_check_github_error
  same_check_device_verification same_check_2fa : same.

Lemma same_login_github_checks (current_url : string) :
  same (login_github_checks (with_http_post post w) current_url)
       (login_github_checks w current_url).
Proof. unfold login_github_checks. same_script. Qed.

Hint Resolve same_login_github_checks : same.

Lemma same_login_github : same (login_github (with_http_post post w)) (login_github w).
Proof. unfold login_github. same_script. Qed.

Lemma same_handle_oauth : same (handle_oauth (with_http_post post w)) (handle_oauth w).
Proof. unfold handle_oauth. same_script. Qed.

Hint Resolve same_login_github same_handle_oauth : same.

Lemma same_wait_redirect_iter (i : nat) :
  same (wait_redirect_iter (with_http_post post w) i) (wait_redirect_iter w i).
Proof. unfold wait_redirect_iter. same_script. Qed.

Hint Resolve same_wait_redirect_iter : same.

Lemma same_wait_redirect_loop (remaining i : nat) :
  same (wait_redirect_loop (with_http_post post w) remaining i)
       (wait_redirect_loop w remaining i).
Proof.
  revert i. induction remaining as [| rest IH]; intros i; cbn [wait_redirect_loop];
    same_script.
Qed.

Hint Resolve same_wait_redirect_loop : same.

Lemma same_wait_redirect (max_wait : nat) :
  same (wait_redirect (with_http_post post w) max_wait) (wait_redirect w max_wait).
Proof. unfold wait_redirect. same_script. Qed.

Lemma same_verify_login : same (verify_login (with_http_post post w)) (verify_login w).
Proof. unfold verify_login. same_script. Qed.

Lemma same_keepalive_visits (pages : list (string * string)) :
  same (keepalive_visits (with_http_post post w) pages) (keepalive_visits w pages).
Proof.
  induction pages as [| [url name] rest IH]; cbn [keepalive_visits]; same_script.
Qed.

Hint Resolve same_wait_redirect same_verify_login same_keepalive_visits : same.

Lemma same_keepalive : same (keepalive (with_http_post post w)) (keepalive w).
Proof. unfold keepalive. same_script. Qed.

(** The two requests may be answered differently: the answer becomes a
    boolean and, at most, a printed line. *)
Lemma alike_send_message (tg : TelegramNotifier) (message : string) :
  alike (send_message (with_http_post post w) tg message) (send_message w tg message).
Proof.
  intros s1 s2 [Hs [Ht Hc]]. unfold calls in Hc. unfold send_message.
  destruct (enabled tg); cbn [negb].
  - cbv [try_except bind requests_post call print emit ret].
    cbn [tick self trace w_http_post with_http_post].
    destruct (post (tick s1) _), (w_http_post w (tick s2) _);
      cbn [res_of_answer fst snd agree self tick trace];
      (split; [do 2 eexists; split; reflexivity |]);
      unfold agree, calls; cbn [self tick trace filter is_call];
      (repeat split; [assumption | congruence | now rewrite Hc]).
  - unfold ret; cbn [fst snd]. split; [do 2 eexists; split; reflexivity |].
    repeat split; assumption.
Qed.

Lemma alike_send_photo (tg : TelegramNotifier) (path caption : string) :
  alike (send_photo (with_http_post post w) tg path caption) (send_photo w tg path caption).
Proof.
  intros s1 s2 [Hs [Ht Hc]]. unfold calls in Hc. unfold send_photo.
  destruct (enabled tg); cbn [negb].
  - cbv [try_except bind path_exists open_rb requests_post call print emit ret].
    cbn [tick self trace w_http_post w_path_exists w_open with_http_post res_of_answer].
    rewrite Ht.
    destruct (w_path_exists w (tick s2) path); cbn [negb tick self trace].
    + destruct (w_open w (S (tick s2)) path); cbn [res_of_answer tick self trace].
      * destruct (post (S (S (tick s2))) _), (w_http_post w (S (S (tick s2))) _);
          cbn [res_of_answer fst snd agree self tick trace];
          (split; [do 2 eexists; split; reflexivity |]);
          unfold agree, calls; cbn [self tick trace filter is_call];
          (repeat split; [assumption | now rewrite Hc]).
      * cbn [fst snd]. split; [do 2 eexists; split; reflexivity |].
        unfold agree, calls; cbn [self tick trace filter is_call].
        repeat split; [assumption | now rewrite Hc].
    + cbn [fst snd]. split; [do 2 eexists; split; reflexivity |].
      unfold agree, calls; cbn [self tick trace filter is_call].
      repeat split; [assumption | now rewrite Hc].
  - unfold ret; cbn [fst snd]. split; [do 2 eexists; split; reflexivity |].
    repeat split; assumption.
Qed.

Hint Resolve same_keepalive alike_send_message alike_send_photo : same.

Lemma same_send_notification (success : bool) (error_msg : string) :
  same (send_notification (with_http_post post w) success error_msg)
       (send_notification w success error_msg).
Proof. unfold send_notification. same_script. Qed.

Hint Resolve same_send_notification : same.

Lemma same_run : same (run (with_http_post post w)) (run w).
Proof.
  unfold run, run_prologue, browser_session, run_session, run_on_exception,
    open_signin_page, run_already_logged_in, run_login_flow, run_login_steps,
    run_keepalive_and_report.
  same_script.
Qed.

End SameScript.

(** X27 -- What Telegram answers never changes a run: with any other
    answers to [requests.post] (other status codes, exceptions) the run
    ends the same way, with the same exit status, log and screenshots,
    after the same calls to the browser, the file system and Telegram;
    only printed lines can differ. *)
Theorem delivery_does_not_change_the_run (w : World)
        (post : nat -> string -> Answer Z) :
  fst (main (with_http_post post w)) = fst (main w)
  /\ exit_status (fst (main (with_http_post post w))) = exit_status (fst (main w))
  /\ self (snd (main (with_http_post post w))) = self (snd (main w))
  /\ calls (trace (snd (main (with_http_post post w)))) = calls (trace (snd (main w))).
Proof.
  destruct (same_run w post (initial_state w) (initial_state w) (agree_refl _))
    as [R [Hs [_ Hc]]].
  change (main (with_http_post post w)) with (run (with_http_post post w) (initial_state w)).
  change (main w) with (run w (initial_state w)).
  rewrite R. repeat split; assumption.
Qed.

(** ** The time a run sleeps *)

Section SleepRules.

Context {A B : Type}.

Lemma sleeps_ret (a : A) : sleeps_at_most 0 (ret a).
Proof. intros st. cbn. lia. Qed.

Lemma sleeps_raise (e : Exn) : sleeps_at_most 0 (@raise A e).
Proof. intros st. cbn. lia. Qed.

Lemma sleeps_call (ev : Event) (answer : nat -> Answer A) :
  sleeps_at_most (seconds_of ev) (call ev answer).
Proof. intros st. unfold call. cbn [snd trace slept]. lia. Qed.

Lemma sleeps_bind (n1 n2 : nat) (m : M A) (k : A -> M B) :
  sleeps_at_most n1 m -> (forall a, sleeps_at_most n2 (k a)) ->
  sleeps_at_most (n1 + n2) (bind m k).
Proof.
  intros Hm Hk st. unfold bind. specialize (Hm st).
  destruct (m st) as [[a | e] s1]; cbn [snd] in *; [| lia].
  specialize (Hk a s1). lia.
Qed.

Lemma sleeps_try_except (n1 n2 : nat) (m : M A) (h : string -> M A) :
  sleeps_at_most n1 m -> (forall e, sleeps_at_most n2 (h e)) ->
  sleeps_at_most (n1 + n2) (try_except m h).
Proof.
  intros Hm Hh st. unfold try_except. specialize (Hm st).
  destruct (m st) as [[a | [msg | code]] s1]; cbn [snd] in *; try lia.
  specialize (Hh msg s1). lia.
Qed.

Lemma sleeps_try_except_all (n1 n2 : nat) (m h : M A) :
  sleeps_at_most n1 m -> sleeps_at_most n2 h ->
  sleeps_at_most (n1 + n2) (try_except_all m h).
Proof.
  intros Hm Hh st. unfold try_except_all. specialize (Hm st).
  destruct (m st) as [[a | e] s1]; cbn [snd] in *; try lia.
  specialize (Hh s1). lia.
Qed.

Lemma sleeps_try_finally (n1 n2 : nat) (m : M A) (f : M unit) :
  sleeps_at_most n1 m -> sleeps_at_most n2 f ->
  sleeps_at_most (n1 + n2) (try_finally m f).
Proof.
  intros Hm Hf st. unfold try_finally. specialize (Hm st).
  destruct (m st) as [r s1]; cbn [snd] in *. specialize (Hf s1).
  destruct (f s1) as [[u | e] s2]; cbn [snd] in *; lia.
Qed.

Lemma sleeps_weaken (n n' : nat) (m : M A) :
  sleeps_at_most n m -> n <= n' -> sleeps_at_most n' m.
Proof. intros Hm Hn st. specialize (Hm st). lia. Qed.

Lemma sleeps_left (n1 n2 : nat) (m : M A) :
  sleeps_at_most n1 m -> sleeps_at_most (Nat.max n1 n2) m.
Proof. intros Hm. eapply sleeps_weaken; [exact Hm | lia]. Qed.

Lemma sleeps_right (n1 n2 : nat) (m : M A) :
  sleeps_at_most n2 m -> sleeps_at_most (Nat.max n1 n2) m.
Proof. intros Hm. eapply sleeps_weaken; [exact Hm | lia]. Qed.

End SleepRules.

Lemma sleeps_emit (ev : Event) : sleeps_at_most (seconds_of ev) (emit ev).
Proof. intros st. unfold emit. cbn [snd trace slept]. lia. Qed.

Lemma sleeps_get_self : sleeps_at_most 0 get_self.
Proof. intros st. cbn. lia. Qed.

Lemma sleeps_set_self (a : AutoLogin) : sleeps_at_most 0 (set_self a).
Proof. intros st. cbn. lia. Qed.

Lemma sleeps_for_each {A} (n : nat) (l : list A) (f : A -> M unit) :
  (forall x, sleeps_at_most n (f x)) -> n = 0 -> sleeps_at_most 0 (for_each l f).
Proof.
  intros Hf ->. induction l as [| x rest IH]; cbn [for_each].
  - apply sleeps_ret.
  - apply (sleeps_bind 0 0); [apply Hf | intros _; exact IH].
Qed.

Create HintDb sleeps discriminated.

(** One step of a derivation that finds the bound as it goes: the bound
    of the goal is an existential variable. *)
Ltac sleeps_step :=
  lazymatch goal with
  | |- sleeps_at_most _ (bind _ _) => eapply sleeps_bind; [ | intros ? ]
  | |- sleeps_at_most _ (ret _) => apply sleeps_ret
  | |- sleeps_at_most _ (raise _) => apply sleeps_raise
  | |- sleeps_at_most _ (sys_exit _) => apply sleeps_raise
  | |- sleeps_at_most _ (call ?ev ?answer) =>
      let n := eval cbn in (seconds_of ev) in
      exact (sleeps_call ev answer : sleeps_at_most n (call ev answer))
  | |- sleeps_at_most _ (emit ?ev) =>
      let n := eval cbn in (seconds_of ev) in
      exact (sleeps_emit ev : sleeps_at_most n (emit ev))
  | |- sleeps_at_most _ get_self => apply sleeps_get_self
  | |- sleeps_at_most _ (set_self _) => apply sleeps_set_self
  | |- sleeps_at_most _ (try_except _ _) => eapply sleeps_try_except; [ | intros ? ]
  | |- sleeps_at_most _ (try_except_all _ _) => eapply sleeps_try_except_all
  | |- sleeps_at_most _ (try_finally _ _) => eapply sleeps_try_finally
  | |- sleeps_at_most _ (for_each _ _) => eapply sleeps_for_each; [ intros ? | ]
  | |- sleeps_at_most _ (if ?b then _ else _) =>
      destruct b; [ eapply sleeps_left | eapply sleeps_right ]
  | |- sleeps_at_most _ (match ?x with _ => _ end) =>
      destruct x; [ eapply sleeps_left | eapply sleeps_right ]
  | |- sleeps_at_most _ _ => solve [ eauto with sleeps ]
  end.

(** The bound claimed is checked against the bound found. *)
Ltac sleeps_script :=
  intros; unfold_calls; cbv zeta;
  eapply sleeps_weaken; [ repeat (sleeps_step; cbv zeta) | ];
  unfold keepalive_pages, max_wait_default; cbn [seconds_of length]; lia.

Section ScriptSleeps.

Variable w : World.

Lemma sleeps_log (message : string) (level : Level) : sleeps_at_most 0 (log message level).
Proof. unfold log. sleeps_script. Qed.

Hint Resolve sleeps_log : sleeps.

Lemma sleeps_screenshot (name : string) : sleeps_at_most 0 (screenshot w name).
Proof. unfold screenshot. sleeps_script. Qed.

Lemma sleeps_validate_credentials : sleeps_at_most 0 validate_credentials.
Proof. unfold validate_credentials. sleeps_script. Qed.

Hint Resolve sleeps_screenshot sleeps_validate_credentials : sleeps.

Lemma sleeps_find_and_click (selectors : list string) (description : string) :
  sleeps_at_most 0 (find_and_click w selectors description).
Proof.
  induction selectors as [| selector rest IH]; cbn [find_and_click]; sleeps_script.
Qed.

Lemma sleeps_check_github_error : sleeps_at_most 0 (check_github_error w).
Proof.
  unfold check_github_error.
  induction error_selectors as [| selector rest IH]; cbn [check_github_error_in];
    sleeps_script.
Qed.

Lemma sleeps_check_device_verification : sleeps_at_most 0 (check_device_verification w).
Proof. unfold check_device_verification. sleeps_script. Qed.

Lemma sleeps_check_2fa : sleeps_at_most 0 (check_2fa w).
Proof. unfold check_2fa. sleeps_script. Qed.

Hint Resolve sleeps_find_and_click sleeps_check_github_error
  sleeps_check_device_verification sleeps_check_2fa : sleeps.

Lemma sleeps_login_github_checks (current_url : string) :
  sleeps_at_most 0 (login_github_checks w current_url).
Proof. unfold login_github_checks. sleeps_script. Qed.

Hint Resolve sleeps_login_github_checks : sleeps.

Lemma sleeps_login_github : sleeps_at_most 3 (login_github w).
Proof. unfold login_github. sleeps_script. Qed.

Lemma sleeps_handle_oauth : sleeps_at_most 3 (handle_oauth w).
Proof. unfold handle_oauth. sleeps_script. Qed.

Hint Resolve sleeps_login_github sleeps_handle_oauth : sleeps.

(** One turn of the redirect waiter: its own second, and the three of
    the consent page. *)
Lemma sleeps_wait_redirect_iter (i : nat) : sleeps_at_most 4 (wait_redirect_iter w i).
Proof. unfold wait_redirect_iter. sleeps_script. Qed.

Hint Resolve sleeps_wait_redirect_iter : sleeps.

Lemma sleeps_wait_redirect_loop (remaining i : nat) :
  sleeps_at_most (4 * remaining) (wait_redirect_loop w remaining i).
Proof.
  revert i. induction remaining as [| rest IH]; intros i; cbn [wait_redirect_loop];
    sleeps_script.
Qed.

Hint Resolve sleeps_wait_redirect_loop : sleeps.

Lemma sleeps_wait_redirect (max_wait : nat) :
  sleeps_at_most (4 * max_wait) (wait_redirect w max_wait).
Proof. unfold wait_redirect. sleeps_script. Qed.

Lemma sleeps_verify_login : sleeps_at_most 0 (verify_login w).
Proof. unfold verify_login. sleeps_script. Qed.

Lemma sleeps_keepalive_visits (pages : list (string * string)) :
  sleeps_at_most (2 * length pages) (keepalive_visits w pages).
Proof.
  induction pages as [| [url name] rest IH]; cbn [keepalive_visits length];
    sleeps_script.
Qed.

Hint Resolve sleeps_wait_redirect sleeps_verify_login sleeps_keepalive_visits : sleeps.

Lemma sleeps_keepalive : sleeps_at_most 4 (keepalive w).
Proof. unfold keepalive. sleeps_script. Qed.

Lemma sleeps_send_message (tg : TelegramNotifier) (message : string) :
  sleeps_at_most 0 (send_message w tg message).
Proof. unfold send_message. sleeps_script. Qed.

Lemma sleeps_send_photo (tg : TelegramNotifier) (path caption : string) :
  sleeps_at_most 0 (send_photo w tg path caption).
Proof. unfold send_photo. sleeps_script. Qed.

Hint Resolve sleeps_keepalive sleeps_send_message sleeps_send_photo : sleeps.

Lemma sleeps_send_notification (success : bool) (error_msg : string) :
  sleeps_at_most 0 (send_notification w success error_msg).
Proof. unfold send_notification. sleeps_script. Qed.

Hint Resolve sleeps_send_notification : sleeps.

Lemma sleeps_run : sleeps_at_most (2 + 3 + 3 + 4 * max_wait_default + 4) (run w).
Proof.
  unfold run, run_prologue, browser_session, run_session, run_on_exception,
    open_signin_page, run_already_logged_in, run_login_flow, run_login_steps,
    run_keepalive_and_report.
  sleeps_script.
Qed.

End ScriptSleeps.

(** X28 -- The script's own sleeping is bounded.  The redirect waiter
    sleeps at most four seconds a turn -- its own second and, on the
    consent page, the three of the authorization -- and a whole run at
    most 192 seconds: 2 after opening the sign-in page, 3 after the
    GitHub button, 3 after the login form, 4 for each of the 45 turns of
    the waiter, 2 after each of the two keep-alive pages. *)
Theorem run_sleeps_at_most_192_seconds (w : World) :
  (forall max_wait st,
      slept (trace (snd (wait_redirect w max_wait st))) <= slept (trace st) + 4 * max_wait)
  /\ (forall st, slept (trace (snd (run w st))) <= slept (trace st) + 192)
  /\ slept (trace (snd (main w))) <= 192.
Proof.
  split; [intros n st; apply sleeps_wait_redirect |].
  split; [intros st; apply (sleeps_run w) |].
  pose proof (sleeps_run w (initial_state w)) as H.
  assert (Z0 : slept (trace (initial_state w)) = 0).
  { unfold initial_state, AutoLogin_init, TelegramNotifier_init. cbn [trace].
    destruct (negb _); reflexivity. }
  unfold main. rewrite Z0 in H. exact H.
Qed.

(** ** Sanity checks of the embedding *)

Example contains_signin : Py.contains "signin" "https://x/signin?a=1" = true.
Proof. reflexivity. Qed.

Example lower_mixed : Py.lower "SignIn/Zz09" = "signin/zz09".
Proof. reflexivity. Qed.

(** The two characters outside ASCII that lower to an ASCII letter: the
    Kelvin sign and the dotted capital I.  Other letters outside ASCII
    stay as they are, where Python gives a letter that is outside ASCII
    too. *)
Example lower_kelvin_sign :
  Py.lower "ChecK your email" = "check your email"
  /\ Py.lower "İ" = "i̇"
  /\ Py.contains "check your email" (Py.lower "<p>ChecK Your Email</p>") = true
  /\ Py.lower "Ünïcode" = "Ünïcode".
Proof. repeat split. Qed.

Example fmt_02d_pads :
  Py.fmt_02d 7 = "07" /\ Py.fmt_02d 12 = "12" /\ Py.fmt_02d 0 = "00".
Proof. repeat split. Qed.

Example last_chars_token :
  Py.last_chars 4 "ghp_abcdef" = "cdef" /\ Py.last_chars 4 "ab" = "ab".
Proof. split; reflexivity. Qed.

(** Characters, not bytes, are counted and sliced. *)
Example last_chars_counts_characters :
  Py.len "pät€😀" = 5
  /\ String.length "pät€😀" = 11
  /\ Py.last_chars 4 "pät€😀" = "ät€😀"
  /\ Py.chars "né€" = ["n"; "é"; "€"]
  /\ Py.utf8 "pät€😀" = true
  /\ Py.utf8 (String (ascii_of_nat 200) "a") = false.
Proof. repeat split. Qed.

(** The token line of the log shows the last four characters. *)
Example unicode_token_line :
  last (logs (self (snd (validate_credentials (initial_state world_unicode_token)))))
       EmptyString
  = log_line "Token: **********...ät€😀" INFO.
Proof. reflexivity. Qed.

Example last_items_short :
  Py.last_items 10 [1; 2; 3] = [1; 2; 3]
  /\ Py.last_items 2 [1; 2; 3] = [2; 3].
Proof. split; reflexivity. Qed.

(** [DEBUG_MODE] does reach the object: the flag differs, the run does not. *)
Example debug_flag_is_read :
  debug (self (initial_state
                 (with_environ (setenv "DEBUG_MODE" (Some "FALSE") (environ world_signed_in))
                               world_signed_in))) = false
  /\ debug (self (initial_state
                    (with_environ (setenv "DEBUG_MODE" None (environ world_signed_in))
                                  world_signed_in))) = true.
Proof. split; reflexivity. Qed.

(** The signed-in run: one cookie file, two screenshots, exit status 0. *)
Example signed_in_run :
  exit_status (fst (main world_signed_in)) = 0%Z
  /\ dumps (trace (snd (main world_signed_in)))
     = [("cookies.json", [[("name", "sid"); ("domain", ".claw.cloud")]])]
  /\ screenshots (self (snd (main world_signed_in)))
     = ["01_clawcloud_登录页.png"; "02_保活完成.png"].
Proof. repeat split; vm_compute; reflexivity. Qed.

(** The full GitHub flow: six screenshots, the last photo sent is the
    last screenshot, and the bounced keep-alive visit is in the log. *)
Example github_flow_run :
  exit_status (fst (main world_github_flow)) = 0%Z
  /\ length (screenshots (self (snd (main world_github_flow)))) = 6
  /\ photo_calls (trace (snd (main world_github_flow))) = ["06_重定向成功.png"]
  /\ existsb (String.eqb (log_line "访问 应用列表 时被重定向到登录页！" ERROR))
        (logs (self (snd (main world_github_flow)))) = true.
Proof. repeat split; vm_compute; reflexivity. Qed.

(** The error banner stops the login: exit status 1, a failure
    notification with every screenshot. *)
Example error_banner_run :
  exit_status (fst (main world_error_banner)) = 1%Z
  /\ notify_flags (trace (snd (main world_error_banner))) = [false]
  /\ length (photo_calls (trace (snd (main world_error_banner))))
     = length (screenshots (self (snd (main world_error_banner)))).
Proof. repeat split; vm_compute; reflexivity. Qed.

(** A page that cannot be opened, and a handler that cannot take its
    screenshot: the second exception escapes, nobody is notified, the
    browser is closed, and the number of the lost screenshot is used up. *)
Example crashed_browser_run :
  fst (main world_browser_crashed) = Raise (Exception "Target page has been closed")
  /\ notify_flags (trace (snd (main world_browser_crashed))) = []
  /\ closes (trace (snd (main world_browser_crashed))) = 1
  /\ screenshots (self (snd (main world_browser_crashed))) = []
  /\ screenshot_count (self (snd (main world_browser_crashed))) = 1.
Proof. repeat split; vm_compute; reflexivity. Qed.

(** Telegram out of reach: the run succeeds all the same, and says so on
    the console only. *)
Example telegram_down_run :
  exit_status (fst (main (with_http_post (fun _ _ => Throws "timed out") world_signed_in)))
  = 0%Z
  /\ existsb (fun e => match e with
                       | EvPrint line => String.eqb line "发送 Telegram 消息失败: timed out"
                       | _ => false
                       end)
       (trace (snd (main (with_http_post (fun _ _ => Throws "timed out") world_signed_in))))
     = true.
Proof. split; vm_compute; reflexivity. Qed.

(** A login form that cannot be filled in: exit status 1, one failure
    notification, and the three screenshots taken so far sent with it. *)
Example locked_form_run :
  exit_status (fst (main world_form_locked)) = 1%Z
  /\ notify_flags (trace (snd (main world_form_locked))) = [false]
  /\ screenshots (self (snd (main world_form_locked)))
     = ["01_clawcloud_登录页.png"; "02_点击github后.png"; "03_github_登录页.png";
        "04_github_登录失败.png"]
  /\ slept (trace (snd (main world_form_locked))) = 5.
Proof. repeat split; vm_compute; reflexivity. Qed.

(** The cookie file cannot be written: [verify_login] raises after it
    logged its success, the run reports the exception and ends with exit
    status 1. *)
Example disk_full_run :
  fst (verify_login world_disk_full (initial_state world_disk_full))
  = Raise (Exception "[Errno 28] No space left on device")
  /\ exit_status (fst (main world_disk_full)) = 1%Z
  /\ notify_flags (trace (snd (main world_disk_full))) = [false]
  /\ existsb (String.eqb (log_line "已获取 1 个 ClawCloud cookies" SUCCESS))
        (logs (self (snd (main world_disk_full)))) = true
  /\ existsb (String.eqb
                (log_line "发生异常: [Errno 28] No space left on device" ERROR))
        (logs (self (snd (main world_disk_full)))) = true.
Proof. repeat split; vm_compute; reflexivity. Qed.

(** Screenshots that cannot be opened are not posted: the message is
    the only request, and the run succeeds all the same. *)
Example unreadable_files_run :
  exit_status (fst (main world_unreadable_files)) = 0%Z
  /\ photo_calls (trace (snd (main world_unreadable_files))) = ["02_保活完成.png"]
  /\ length (filter (fun e => match e with EvHttpPost _ _ _ _ => true | _ => false end)
               (trace (snd (main world_unreadable_files)))) = 1
  /\ existsb (fun e => match e with
                       | EvPrint line =>
                           String.eqb line
                             "发送 Telegram 图片失败: [Errno 13] Permission denied"
                       | _ => false
                       end)
       (trace (snd (main world_unreadable_files))) = true.
Proof. repeat split; vm_compute; reflexivity. Qed.
